(** * QGIS plugin generator: the agent pipeline, its packaging step and
      the window that drives them

    The repository holds two variants of one desktop program:
    [main_app.py] (module [Basic] below) and [main_app_mejorado.py]
    (module [Mejorado]).  Both run a three-agent CrewAI pipeline on a
    background [QThread] and report to a PyQt window through signals; the
    improved variant also writes the result into a zip archive and guards
    its optional imports.

    Python text is a [string] holding its UTF-8 bytes.  An exception is an
    instance of Python's [Exception], kept as its message [str(e)].  Calls
    into PyQt, CrewAI, PyAudio, Whisper, the clock and the file system are
    answered by an environment [Env]; a worker's [run] is a computation in
    a state-and-exception monad over the signals it has emitted and the
    files on disk.  [logging] calls and style sheets are left out. *)

From Stdlib Require Import Ascii String NArith.
From stdpp Require Import gmap strings list fin_maps pretty.

Set Warnings "-register-all".

(** ** Python text *)

Definition nl : string := String (ascii_of_nat 10) EmptyString.

Definition exn := string.

(** [str.isspace] on the UTF-8 encoding: the one-, two- and three-byte
    sequences of the code points Python treats as whitespace
    (U+0009-000D, U+001C-0020, U+0085, U+00A0, U+1680, U+2000-200A,
    U+2028, U+2029, U+202F, U+205F, U+3000). *)
Definition ws1 (a : ascii) : bool :=
  let a := N_of_ascii a in
  ((9 <=? a) && (a <=? 13) || (28 <=? a) && (a <=? 32))%N.

Definition ws2 (a b : ascii) : bool :=
  let a := N_of_ascii a in
  let b := N_of_ascii b in
  ((a =? 194) && ((b =? 133) || (b =? 160)))%N.

Definition ws3 (a b c : ascii) : bool :=
  let a := N_of_ascii a in
  let b := N_of_ascii b in
  let c := N_of_ascii c in
  ((a =? 225) && (b =? 154) && (c =? 128)
   || (a =? 226) && (b =? 128)
      && ((128 <=? c) && (c <=? 138) || (c =? 168) || (c =? 169) || (c =? 175))
   || (a =? 226) && (b =? 129) && (c =? 159)
   || (a =? 227) && (b =? 128) && (c =? 128))%N.

(** Drop leading whitespace; [w2] and [w3] recognise the multi-byte
    sequences in the order in which the bytes are met. *)
Fixpoint strip_front (w2 : ascii -> ascii -> bool)
    (w3 : ascii -> ascii -> ascii -> bool) (s : string) : string :=
  match s with
  | EmptyString => EmptyString
  | String a r =>
      if ws1 a then strip_front w2 w3 r
      else match r with
           | EmptyString => s
           | String b r2 =>
               if w2 a b then strip_front w2 w3 r2
               else match r2 with
                    | EmptyString => s
                    | String c r3 =>
                        if w3 a b c then strip_front w2 w3 r3 else s
                    end
           end
  end.

Definition lstrip (s : string) : string := strip_front ws2 ws3 s.

Definition rstrip (s : string) : string :=
  String.rev
    (strip_front (fun b a => ws2 a b) (fun c b a => ws3 a b c) (String.rev s)).

(** [str.strip()] *)
Definition strip (s : string) : string := rstrip (lstrip s).

(** A byte [10xxxxxx] continues the code point begun before it. *)
Definition is_continuation (a : ascii) : bool :=
  (N.land (N_of_ascii a) 192 =? 128)%N.

(** [len(s)]: the number of code points. *)
Fixpoint py_len (s : string) : nat :=
  match s with
  | EmptyString => 0
  | String a r => if is_continuation a then py_len r else S (py_len r)
  end.

(** [s[:n]]: the first [n] code points. *)
Fixpoint py_take (n : nat) (s : string) : string :=
  match s with
  | EmptyString => EmptyString
  | String a r =>
      if is_continuation a then String a (py_take n r)
      else match n with
           | 0 => EmptyString
           | S n' => String a (py_take n' r)
           end
  end.

(** Truth value of a [str]: non-empty. *)
Definition truthy (s : string) : bool :=
  match s with EmptyString => false | _ => true end.

(** ** File system *)

(** A path is the list of its components below the root; [os.path.join]
    of a directory and a name is [dir ++ [name]]. *)
Abbreviation path := (list string).

Inductive content :=
| Text (s : string)
| Wav (frames : list string)
| Archive (entries : list (path * content)).

Inductive node :=
| Dir
| File (c : content).

Abbreviation fs := (gmap path node).

(** Every entry sits in a directory. *)
Definition fs_wf (m : fs) : Prop :=
  forall (p : path) (c : string) (n : node),
    m !! (p ++ [c]) = Some n -> m !! p = Some Dir.

(** A check that decides [fs_wf] on a given disk. *)
Definition fs_wfb (m : fs) : bool :=
  forallb
    (fun p => match p with
              | [] => true
              | _ => match m !! removelast p with Some Dir => true | _ => false end
              end)
    (map_to_list m).*1.

(** The text of an absolute path, as it appears in a message. *)
Definition path_str (p : path) : string :=
  match p with
  | [] => "/"
  | _ => String.concat "" (List.map (fun c => "/" +:+ c) p)
  end.

Fixpoint common_prefix_len (a b : path) : nat :=
  match a, b with
  | x :: a', y :: b' => if String.eqb x y then S (common_prefix_len a' b') else 0
  | _, _ => 0
  end.

(** [os.path.relpath(p, start)] on absolute, normalised paths: climb out
    of what [start] does not share with [p], then descend. *)
Definition relpath (p start : path) : path :=
  let i := common_prefix_len start p in
  let rel := replicate (length start - i) ".." ++ drop i p in
  match rel with
  | [] => ["."]
  | _ => rel
  end.

Definition is_file (n : option node) : bool :=
  match n with Some (File _) => true | _ => false end.

(** The files below [top], as [os.walk(top)] hands them out (joined with
    their directory); directories themselves are not listed. *)
Definition walk_files (m : fs) (top : path) : list path :=
  filter (fun p => top `prefix_of` p /\ p <> top /\ is_file (m !! p))
    (map_to_list m).*1.

(** ** CrewAI objects *)

Record LLM := {
  model : string;
  base_url : string
}.

Record Agent := {
  role : string;
  goal : string;
  backstory : string;
  agent_verbose : bool;
  allow_delegation : bool;
  agent_llm : LLM
}.

(** [context] is empty where the source passes no [context=]. *)
Inductive Task := {
  description : string;
  task_agent : Agent;
  expected_output : string;
  context : list Task
}.

Record Crew := {
  agents : list Agent;
  tasks : list Task;
  crew_verbose : bool
}.

(** [ConfigurationWidget.get_config()] returns a dict with these keys. *)
Record Config := {
  cfg_name : string;
  cfg_version : string;
  cfg_author : string;
  cfg_type : string;
  cfg_add_menu : bool;
  cfg_add_toolbar : bool;
  cfg_add_dialog : bool
}.

(** ** Signals and the worker's observable events *)

Inductive Signal :=
| progress (message : string)
| finished (result : string)
      (* [pyqtSignal(str)]: both recorders, and the generator of
         main_app.py *)
| finished_zip (result : string) (zip_path : option path)
      (* [pyqtSignal(str, str)]: the generator of main_app_mejorado.py *)
| error (message : string).

Inductive Event :=
| Emit (s : Signal)
| CrewCreated (c : Crew)
| Kickoff (c : Crew)
| AudioOpened
| ChunkRead (data : string)
| Transcribed (file : path).

(** ** The environment *)

Inductive Stage := Planner | Coder | Reviewer.

(** The places where the program calls out and may get an exception
    back. *)
Inductive Call :=
| LLM_init
| Agent_init (s : Stage)
| Task_init (s : Stage)
| Crew_init
| Crew_kickoff
| Result_str
| Datetime_now
| Mkdtemp
| Makedirs
| File_open
| File_write
| Getcwd
| Zip_open
| Zip_write
| Zip_close
| Rmtree
| PyAudio_init
| Stream_open
| Stream_read
| Stream_stop
| Stream_close
| PyAudio_terminate
| Sample_size
| Tempfile_new
| Wave_write
| Whisper_load
| Whisper_transcribe
| Os_unlink.

Record Env := {
  raises : Call -> option exn;
      (* the exception a call raises, if any *)
  kickoff_output : Crew -> string;
      (* [str(crew.kickoff())] *)
  dict_str : Config -> string;
      (* [str()] of a configuration dict *)
  now_stamp : string;
      (* [datetime.now().strftime("%Y%m%d_%H%M%S")]: digits and an
         underscore, a single path component *)
  now_display : string;
      (* [datetime.now().strftime("%Y-%m-%d %H:%M:%S")] *)
  tmp_dir : path;
      (* the directory [tempfile.mkdtemp()] picks *)
  cwd : path;
      (* [os.getcwd()] *)
  emit_none_raises : option exn;
      (* what PyQt does with [None] for a [str] argument of a signal:
         deliver it ([None]) or raise a [TypeError] *)
  mic_chunks : list string;
      (* what the microphone delivers until the window clears
         [recording] *)
  tmp_wav : path;
      (* the file [tempfile.NamedTemporaryFile] creates *)
  transcript : string
      (* [model.transcribe(...)["text"]] *)
}.

(** The third-party packages found on the machine. *)
Record Installed := {
  has_pyqt5 : bool;
  has_pyaudio : bool;
  has_whisper : bool;
  has_crewai : bool
}.

(** ** State and exceptions *)

Definition M (S A : Type) : Type := S -> (exn + A) * S.

Definition ret {S A} (a : A) : M S A := fun s => (inr a, s).

Definition raise {S A} (e : exn) : M S A := fun s => (inl e, s).

Definition bind {S A B} (m : M S A) (k : A -> M S B) : M S B :=
  fun s =>
    match m s with
    | (inr a, s') => k a s'
    | (inl e, s') => (inl e, s')
    end.

Notation "'let*' x ':=' m 'in' k" := (bind m (fun x => k))
  (at level 10, x name, m at level 100, k at level 200, only parsing).
Notation "m1 ';;' m2" := (bind m1 (fun _ => m2))
  (at level 100, m2 at level 200, right associativity, only parsing).

(** [try: body / except Exception as e: handler(e)] *)
Definition try_catch {S A} (body : M S A) (handler : exn -> M S A) : M S A :=
  fun s =>
    match body s with
    | (inr a, s') => (inr a, s')
    | (inl e, s') => handler e s'
    end.

(** [try: body / finally: final]: an exception of [final] replaces the
    outcome of [body]. *)
Definition try_finally {S A} (body : M S A) (final : M S unit) : M S A :=
  fun s =>
    match body s with
    | (r, s') =>
        match final s' with
        | (inr _, s'') => (r, s'')
        | (inl e, s'') => (inl e, s'')
        end
    end.

Definition get {S} : M S S := fun s => (inr s, s).

Definition put {S} (s : S) : M S unit := fun _ => (inr tt, s).

Definition modify {S} (f : S -> S) : M S unit := fun s => (inr tt, f s).

(** A worker thread's world: what it has emitted and done, the disk, and
    the two attributes an [AudioRecorder] keeps for its clean-up
    ([self.p_audio is not None]; [self.stream], with [is_active()]). *)
Record World := {
  trace : list Event;
  files : fs;
  p_audio : bool;
  stream : option bool
}.

Definition log (e : Event) : M World unit :=
  modify (fun w => {| trace := trace w ++ [e]; files := files w;
                      p_audio := p_audio w; stream := stream w |}).

(** [self.<signal>.emit(...)] with arguments of the declared types. *)
Definition emit (s : Signal) : M World unit := log (Emit s).

(** A computation on the disk alone, run inside a worker. *)
Definition on_disk {A} (m : M fs A) : M World A :=
  fun w =>
    match m (files w) with
    | (r, d) => (r, {| trace := trace w; files := d;
                       p_audio := p_audio w; stream := stream w |})
    end.

(** A worker object as [__init__] leaves it, facing disk [d]. *)
Definition start (d : fs) : World :=
  {| trace := []; files := d; p_audio := false; stream := None |}.

Definition set_p_audio (b : bool) : M World unit :=
  modify (fun w => {| trace := trace w; files := files w;
                      p_audio := b; stream := stream w |}).

Definition set_stream (o : option bool) : M World unit :=
  modify (fun w => {| trace := trace w; files := files w;
                      p_audio := p_audio w; stream := o |}).

(** [for x in l: body(x)] *)
Fixpoint for_each {S A} (l : list A) (body : A -> M S unit) : M S unit :=
  match l with
  | [] => ret tt
  | x :: r => bind (body x) (fun _ => for_each r body)
  end.

(** An outside call that returns nothing of interest. *)
Definition call {S} (env : Env) (c : Call) : M S unit :=
  match raises env c with
  | Some e => raise e
  | None => ret tt
  end.

(** What a finished computation left in the trace. *)
Definition signals (t : list Event) : list Signal :=
  omap (fun e => match e with Emit s => Some s | _ => None end) t.

Definition kickoffs (t : list Event) : list Crew :=
  omap (fun e => match e with Kickoff c => Some c | _ => None end) t.

Definition crews_created (t : list Event) : list Crew :=
  omap (fun e => match e with CrewCreated c => Some c | _ => None end) t.

Definition progress_messages (t : list Event) : list string :=
  omap (fun e => match e with Emit (progress m) => Some m | _ => None end) t.

Definition finished_signals (t : list Event) : list Signal :=
  List.filter (fun s => match s with finished _ | finished_zip _ _ => true | _ => false end)
    (signals t).

Definition error_messages (t : list Event) : list string :=
  omap (fun e => match e with Emit (error m) => Some m | _ => None end) t.

(** ** CrewAI constructors *)

Definition LLM_new (env : Env) (l : LLM) : M World LLM :=
  call env LLM_init ;; ret l.

Definition Agent_new (env : Env) (s : Stage) (a : Agent) : M World Agent :=
  call env (Agent_init s) ;; ret a.

Definition Task_new (env : Env) (s : Stage) (t : Task) : M World Task :=
  call env (Task_init s) ;; ret t.

Definition Crew_new (env : Env) (c : Crew) : M World Crew :=
  call env Crew_init ;; log (CrewCreated c) ;; ret c.

(** [str(crew.kickoff())]: the call is recorded, then it or the
    conversion of its result may raise. *)
Definition kickoff (env : Env) (c : Crew) : M World string :=
  log (Kickoff c) ;;
  call env Crew_kickoff ;;
  call env Result_str ;;
  ret (kickoff_output env c).

(** ** File-system calls *)

(** [datetime.now().strftime("%Y%m%d_%H%M%S")] *)
Definition strftime_now (env : Env) : M fs string :=
  call env Datetime_now ;; ret (now_stamp env).

(** [tempfile.mkdtemp()]: a directory that did not exist before. *)
Definition mkdtemp (env : Env) : M fs path :=
  call env Mkdtemp ;;
  let* d := get in
  match d !! tmp_dir env with
  | Some _ => raise "[Errno 17] No usable temporary directory name found"
  | None => put (<[tmp_dir env := Dir]> d) ;; ret (tmp_dir env)
  end.

(** The recursion of [os.makedirs]: create the missing directories from
    the root downwards. *)
Fixpoint makedirs_from (base rest : path) (m : fs) : exn + fs :=
  match rest with
  | [] => inr m
  | c :: rest' =>
      let d := base ++ [c] in
      match m !! d with
      | None => makedirs_from d rest' (<[d := Dir]> m)
      | Some Dir => makedirs_from d rest' m
      | Some (File _) => inl "[Errno 20] Not a directory"
      end
  end.

(** [os.makedirs(p)] *)
Definition makedirs (env : Env) (p : path) : M fs unit :=
  call env Makedirs ;;
  let* d := get in
  match d !! p with
  | Some _ => raise "[Errno 17] File exists"
  | None =>
      match makedirs_from [] p d with
      | inl e => raise e
      | inr m => put m
      end
  end.

(** [with open(p, "w", encoding="utf-8") as f: f.write(text)] *)
Definition write_text (env : Env) (p : path) (text : string) : M fs unit :=
  call env File_open ;;
  let* d := get in
  match d !! removelast p, d !! p with
  | Some Dir, Some Dir => raise "[Errno 21] Is a directory"
  | Some Dir, _ =>
      put (<[p := File (Text "")]> d) ;;
      call env File_write ;;
      let* d := get in
      put (<[p := File (Text text)]> d)
  | _, _ => raise "[Errno 2] No such file or directory"
  end.

(** [os.getcwd()] *)
Definition getcwd (env : Env) : M fs path :=
  call env Getcwd ;;
  let* d := get in
  match d !! cwd env with
  | Some Dir => ret (cwd env)
  | _ => raise "[Errno 2] No such file or directory"
  end.

(** [zipfile.ZipFile(zp, 'w', zipfile.ZIP_DEFLATED)]: the file is created
    (or emptied) at once. *)
Definition zip_open (env : Env) (zp : path) : M fs unit :=
  call env Zip_open ;;
  let* d := get in
  match d !! removelast zp, d !! zp with
  | Some Dir, Some Dir => raise "[Errno 21] Is a directory"
  | Some Dir, _ => put (<[zp := File (Archive [])]> d)
  | _, _ => raise "[Errno 2] No such file or directory"
  end.

(** [zipf.write(file_path, arcname)]; [Archive] lists file entries only,
    so a directory adds none. *)
Definition zip_write (env : Env) (zp file_path arcname : path) : M fs unit :=
  call env Zip_write ;;
  let* d := get in
  match d !! file_path, d !! zp with
  | Some (File c), Some (File (Archive es)) =>
      put (<[zp := File (Archive (es ++ [(arcname, c)]))]> d)
  | Some Dir, Some (File (Archive es)) => ret tt
  | _, _ => raise "[Errno 2] No such file or directory"
  end.

(** [shutil.rmtree(d)] *)
Definition rmtree (env : Env) (top : path) : M fs unit :=
  call env Rmtree ;;
  let* d := get in
  match d !! top with
  | Some Dir => put (filter (fun kv => ~ top `prefix_of` kv.1) d)
  | Some (File _) => raise "[Errno 20] Not a directory"
  | None => raise "[Errno 2] No such file or directory"
  end.

(** [tempfile.NamedTemporaryFile(delete=False, suffix=".wav")] *)
Definition named_temporary_file (env : Env) : M fs path :=
  call env Tempfile_new ;;
  let* d := get in
  match d !! tmp_wav env with
  | Some _ => raise "[Errno 17] No usable temporary file name found"
  | None => put (<[tmp_wav env := File (Wav [])]> d) ;; ret (tmp_wav env)
  end.

(** [os.unlink(p)] *)
Definition unlink (env : Env) (p : path) : M fs unit :=
  call env Os_unlink ;;
  let* d := get in
  match d !! p with
  | Some (File _) => put (delete p d)
  | Some Dir => raise "[Errno 21] Is a directory"
  | None => raise "[Errno 2] No such file or directory"
  end.

(** [wf = wave.open(p, "wb"); ...; wf.writeframes(b"".join(frames));
    wf.close()] *)
Definition wave_write (env : Env) (p : path) (frames : list string) : M fs unit :=
  call env Wave_write ;;
  let* d := get in
  put (<[p := File (Wav frames)]> d).

(** * main_app.py *)

Module Basic.

(** The imports, lines 9-26, are unconditional: the module loads only
    when every package is there. *)
Definition import_module (i : Installed) : bool :=
  has_pyaudio i && has_whisper i && has_pyqt5 i && has_crewai i.

(** [planner_agent = Agent(...)], line 138. *)
Definition planner_agent (llm : LLM) : Agent :=
  {| role := "Analista de Requisitos";
     goal := "Analizar la petición del usuario y crear un plan técnico detallado para el plugin de QGIS";
     backstory := String.concat nl
      [ "Eres un experto analista de software especializado en QGIS y PyQGIS. ";
        "                Tu trabajo es descomponer las peticiones de los usuarios en planes técnicos específicos ";
        "                que incluyan las funciones de PyQGIS necesarias, la estructura de archivos del plugin ";
        "                y los elementos de la interfaz de usuario." ];
     agent_verbose := true;
     allow_delegation := false;
     agent_llm := llm |}.

(** [coder_agent = Agent(...)], line 150. *)
Definition coder_agent (llm : LLM) : Agent :=
  {| role := "Desarrollador de QGIS";
     goal := "Escribir el código Python completo para el plugin de QGIS basándose en el plan técnico";
     backstory := String.concat nl
      [ "Eres un desarrollador senior especializado en PyQGIS con amplio conocimiento ";
        "                de la API de QGIS, la estructura de plugins y las mejores prácticas de desarrollo. ";
        "                Puedes generar código completo y funcional para plugins de QGIS." ];
     agent_verbose := true;
     allow_delegation := false;
     agent_llm := llm |}.

(** [reviewer_agent = Agent(...)], line 161. *)
Definition reviewer_agent (llm : LLM) : Agent :=
  {| role := "Revisor de Código y Empaquetador";
     goal := "Revisar el código generado, asegurar su calidad y empaquetarlo para despliegue";
     backstory := String.concat nl
      [ "Eres un experto en control de calidad de software y empaquetado de plugins de QGIS. ";
        "                Tu trabajo es revisar el código en busca de errores, asegurar que sigue las mejores prácticas ";
        "                y crear el paquete final listo para instalación." ];
     agent_verbose := true;
     allow_delegation := false;
     agent_llm := llm |}.

(** [planning_task = Task(...)], line 174. *)
Definition planning_task (user_request : string) (agent : Agent) : Task :=
  {| description := String.concat nl
      [ "Analiza la siguiente petición del usuario y crea un plan técnico detallado:";
        "                ";
        "                PETICIÓN: " +:+ user_request;
        "                ";
        "                Tu plan debe incluir:";
        "                1. Descripción funcional del plugin";
        "                2. Funciones de PyQGIS necesarias";
        "                3. Estructura de archivos del plugin";
        "                4. Elementos de la interfaz de usuario";
        "                5. Pasos específicos para el desarrollo";
        "                ";
        "                Proporciona un plan claro y estructurado que el desarrollador pueda seguir." ];
     task_agent := agent;
     expected_output := "Un plan técnico detallado con todos los componentes necesarios para el plugin";
     context := [] |}.

(** [coding_task = Task(...)], line 191. *)
Definition coding_task (agent : Agent) (planning : Task) : Task :=
  {| description := String.concat nl
      [ "Basándote en el plan técnico proporcionado, genera el código completo para el plugin de QGIS.";
        "                ";
        "                Debes crear los siguientes archivos:";
        "                1. metadata.txt - Metadatos del plugin";
        "                2. __init__.py - Inicialización del plugin";
        "                3. main_plugin.py - Lógica principal del plugin";
        "                4. plugin_dialog.ui - Interfaz de usuario (si es necesaria)";
        "                5. resources.qrc - Recursos del plugin (si es necesario)";
        "                ";
        "                Asegúrate de que el código:";
        "                - Siga las convenciones de PyQGIS";
        "                - Sea funcional y completo";
        "                - Incluya manejo de errores";
        "                - Tenga comentarios explicativos" ];
     task_agent := agent;
     expected_output := "Código completo del plugin con todos los archivos necesarios";
     context := [planning] |}.

(** [review_task = Task(...)], line 211. *)
Definition review_task (agent : Agent) (planning coding : Task) : Task :=
  {| description := String.concat nl
      [ "Revisa el código generado y crea el paquete final del plugin.";
        "                ";
        "                Tareas a realizar:";
        "                1. Revisar el código en busca de errores de sintaxis y lógicos";
        "                2. Verificar que sigue la estructura correcta de un plugin de QGIS";
        "                3. Crear una carpeta con el nombre del plugin";
        "                4. Organizar todos los archivos en la carpeta";
        "                5. Crear un archivo ZIP listo para instalación";
        "                6. Proporcionar instrucciones de instalación";
        "                ";
        "                Entrega el resultado final con la ruta del archivo ZIP y las instrucciones." ];
     task_agent := agent;
     expected_output := "Plugin empaquetado en ZIP con instrucciones de instalación";
     context := [planning; coding] |}.

(** [PluginGenerator.run], lines 125-247. *)
Definition run (env : Env) (user_request : string) : M World unit :=
  try_catch
    (emit (progress "Inicializando sistema multiagente...") ;;
     let* llm := LLM_new env {| model := "ollama/llama3:8b";
                                base_url := "http://localhost:11434" |} in
     let* planner := Agent_new env Planner (planner_agent llm) in
     let* coder := Agent_new env Coder (coder_agent llm) in
     let* reviewer := Agent_new env Reviewer (reviewer_agent llm) in
     let* planning := Task_new env Planner (planning_task user_request planner) in
     let* coding := Task_new env Coder (coding_task coder planning) in
     let* review := Task_new env Reviewer (review_task reviewer planning coding) in
     emit (progress "Creando equipo de agentes...") ;;
     let* crew := Crew_new env {| agents := [planner; coder; reviewer];
                                  tasks := [planning; coding; review];
                                  crew_verbose := true |} in
     emit (progress "Ejecutando generación del plugin...") ;;
     let* result := kickoff env crew in
     emit (finished result))
    (fun e => emit (error ("Error en la generación del plugin: " +:+ e))).

(** The crew [run] builds for a request. *)
Definition the_llm : LLM :=
  {| model := "ollama/llama3:8b"; base_url := "http://localhost:11434" |}.

Definition the_planning (user_request : string) : Task :=
  planning_task user_request (planner_agent the_llm).

Definition the_coding (user_request : string) : Task :=
  coding_task (coder_agent the_llm) (the_planning user_request).

Definition the_review (user_request : string) : Task :=
  review_task (reviewer_agent the_llm) (the_planning user_request)
    (the_coding user_request).

Definition the_crew (user_request : string) : Crew :=
  {| agents := [planner_agent the_llm; coder_agent the_llm; reviewer_agent the_llm];
     tasks := [the_planning user_request; the_coding user_request;
               the_review user_request];
     crew_verbose := true |}.

(** ** The recorder, lines 32-112 *)

(** [while self.recording: data = self.stream.read(chunk); ...]: the
    loop sees the chunks that arrive before the window clears the flag. *)
Fixpoint record_loop (env : Env) (chunks : list string) : M World (list string) :=
  match chunks with
  | [] => ret []
  | data :: rest =>
      call env Stream_read ;;
      log (ChunkRead data) ;;
      let* more := record_loop env rest in
      ret (data :: more)
  end.

(** [AudioRecorder.run], lines 44-105.  The calls on [wf], lines 74-79,
    are one call of the environment, [Wave_write], which follows that of
    [get_sample_size]. *)
Definition AudioRecorder_run (env : Env) : M World unit :=
  try_finally
    (try_catch
       (call env PyAudio_init ;;
        set_p_audio true ;;
        call env Stream_open ;;
        set_stream (Some true) ;;
        log AudioOpened ;;
        let* audio_data := record_loop env (mic_chunks env) in
        call env Stream_stop ;;
        set_stream (Some false) ;;
        call env Stream_close ;;
        call env PyAudio_terminate ;;
        let* temp_file := on_disk (named_temporary_file env) in
        call env Sample_size ;;
        on_disk (wave_write env temp_file audio_data) ;;
        try_finally
          (try_catch
             (call env Whisper_load ;;
              call env Whisper_transcribe ;;
              log (Transcribed temp_file) ;;
              emit (finished (transcript env)))
             (fun e =>
                emit (error ("Error al cargar o transcribir con Whisper: " +:+ e))))
          (on_disk (unlink env temp_file)))
       (fun e => emit (error e)))
    (let* w := get in
     match stream w with
     | Some true =>
         call env Stream_stop ;;
         set_stream (Some false) ;;
         call env Stream_close
     | _ => ret tt
     end ;;
     if p_audio w then call env PyAudio_terminate else ret tt).

(** ** The window, lines 250-488 *)

(** A worker object is known by the order of its construction;
    [recording] is the flag the window sets and the recorder's loop
    reads. *)
Record AudioRecorder := {
  recorder_id : nat;
  recording : bool
}.

Record PluginGenerator := {
  generator_id : nat;
  user_request : string
}.

Inductive Action :=
| NewAudioRecorder (id : nat)
| NewPluginGenerator (id : nat) (request : string)
| StartThread (id : nat)
| MessageCritical (title text : string)
| MessageInformation (title text : string).

Record UI := {
  text_input : string;
  output_console : list string;
  record_button_text : string;
  record_button_enabled : bool;
  generate_button_enabled : bool;
  progress_bar_visible : bool;
  audio_recorder : option AudioRecorder;
  plugin_generator : option PluginGenerator;
  next_object : nat;
  actions : list Action
}.

Definition set_text_input (t : string) : M UI unit :=
  modify (fun s =>
    {| text_input := t; output_console := output_console s;
       record_button_text := record_button_text s;
       record_button_enabled := record_button_enabled s;
       generate_button_enabled := generate_button_enabled s;
       progress_bar_visible := progress_bar_visible s;
       audio_recorder := audio_recorder s;
       plugin_generator := plugin_generator s;
       next_object := next_object s; actions := actions s |}).

Definition set_output_console (c : list string) : M UI unit :=
  modify (fun s =>
    {| text_input := text_input s; output_console := c;
       record_button_text := record_button_text s;
       record_button_enabled := record_button_enabled s;
       generate_button_enabled := generate_button_enabled s;
       progress_bar_visible := progress_bar_visible s;
       audio_recorder := audio_recorder s;
       plugin_generator := plugin_generator s;
       next_object := next_object s; actions := actions s |}).

Definition set_record_button_text (t : string) : M UI unit :=
  modify (fun s =>
    {| text_input := text_input s; output_console := output_console s;
       record_button_text := t;
       record_button_enabled := record_button_enabled s;
       generate_button_enabled := generate_button_enabled s;
       progress_bar_visible := progress_bar_visible s;
       audio_recorder := audio_recorder s;
       plugin_generator := plugin_generator s;
       next_object := next_object s; actions := actions s |}).

Definition set_record_button_enabled (b : bool) : M UI unit :=
  modify (fun s =>
    {| text_input := text_input s; output_console := output_console s;
       record_button_text := record_button_text s;
       record_button_enabled := b;
       generate_button_enabled := generate_button_enabled s;
       progress_bar_visible := progress_bar_visible s;
       audio_recorder := audio_recorder s;
       plugin_generator := plugin_generator s;
       next_object := next_object s; actions := actions s |}).

Definition set_generate_button_enabled (b : bool) : M UI unit :=
  modify (fun s =>
    {| text_input := text_input s; output_console := output_console s;
       record_button_text := record_button_text s;
       record_button_enabled := record_button_enabled s;
       generate_button_enabled := b;
       progress_bar_visible := progress_bar_visible s;
       audio_recorder := audio_recorder s;
       plugin_generator := plugin_generator s;
       next_object := next_object s; actions := actions s |}).

Definition set_progress_bar_visible (b : bool) : M UI unit :=
  modify (fun s =>
    {| text_input := text_input s; output_console := output_console s;
       record_button_text := record_button_text s;
       record_button_enabled := record_button_enabled s;
       generate_button_enabled := generate_button_enabled s;
       progress_bar_visible := b;
       audio_recorder := audio_recorder s;
       plugin_generator := plugin_generator s;
       next_object := next_object s; actions := actions s |}).

Definition set_audio_recorder (r : option AudioRecorder) : M UI unit :=
  modify (fun s =>
    {| text_input := text_input s; output_console := output_console s;
       record_button_text := record_button_text s;
       record_button_enabled := record_button_enabled s;
       generate_button_enabled := generate_button_enabled s;
       progress_bar_visible := progress_bar_visible s;
       audio_recorder := r;
       plugin_generator := plugin_generator s;
       next_object := next_object s; actions := actions s |}).

Definition set_plugin_generator (g : option PluginGenerator) : M UI unit :=
  modify (fun s =>
    {| text_input := text_input s; output_console := output_console s;
       record_button_text := record_button_text s;
       record_button_enabled := record_button_enabled s;
       generate_button_enabled := generate_button_enabled s;
       progress_bar_visible := progress_bar_visible s;
       audio_recorder := audio_recorder s;
       plugin_generator := g;
       next_object := next_object s; actions := actions s |}).

(** Constructing an object takes the next identity. *)
Definition new_object : M UI nat :=
  fun s =>
    (inr (next_object s),
     {| text_input := text_input s; output_console := output_console s;
        record_button_text := record_button_text s;
        record_button_enabled := record_button_enabled s;
        generate_button_enabled := generate_button_enabled s;
        progress_bar_visible := progress_bar_visible s;
        audio_recorder := audio_recorder s;
        plugin_generator := plugin_generator s;
        next_object := S (next_object s); actions := actions s |}).

Definition act (a : Action) : M UI unit :=
  modify (fun s =>
    {| text_input := text_input s; output_console := output_console s;
       record_button_text := record_button_text s;
       record_button_enabled := record_button_enabled s;
       generate_button_enabled := generate_button_enabled s;
       progress_bar_visible := progress_bar_visible s;
       audio_recorder := audio_recorder s;
       plugin_generator := plugin_generator s;
       next_object := next_object s; actions := actions s ++ [a] |}).

(** [self.output_console.append(line)] *)
Definition console_append (line : string) : M UI unit :=
  let* s := get in set_output_console (output_console s ++ [line]).

(** The window [init_ui] leaves behind. *)
Definition init : UI :=
  {| text_input := "";
     output_console :=
       [ "=== Generador de Scripts para Plugins de QGIS ===";
         "Listo para generar plugins personalizados.";
         "Escribe tu petición o usa el botón de grabación de voz." +:+ nl ];
     record_button_text := "🎤 Grabar Voz";
     record_button_enabled := true;
     generate_button_enabled := true;
     progress_bar_visible := false;
     audio_recorder := None;
     plugin_generator := None;
     next_object := 0;
     actions := [] |}.

Definition show_error (message : string) : M UI unit :=
  console_append ("❌ Error: " +:+ message) ;;
  act (MessageCritical "Error" message).

(** [start_recording]; in this model constructing and starting a thread
    do not raise, so the handler of its [try] is never entered. *)
Definition start_recording : M UI unit :=
  try_catch
    (let* id := new_object in
     act (NewAudioRecorder id) ;;
     set_audio_recorder (Some {| recorder_id := id; recording := false |}) ;;
     set_record_button_text "⏹️ Detener Grabación" ;;
     console_append "🎤 Iniciando grabación de audio..." ;;
     (* self.audio_recorder.start_recording() *)
     set_audio_recorder (Some {| recorder_id := id; recording := true |}) ;;
     act (StartThread id))
    (fun e => show_error ("Error al iniciar grabación: " +:+ e)).

Definition stop_recording : M UI unit :=
  let* s := get in
  match audio_recorder s with
  | Some r =>
      if recording r then
        console_append "⏹️ Deteniendo grabación y transcribiendo..." ;;
        set_audio_recorder (Some {| recorder_id := recorder_id r; recording := false |})
      else ret tt
  | None => ret tt
  end.

(** [isRunning] is what [self.audio_recorder.isRunning()] answers. *)
Definition toggle_recording (isRunning : bool) : M UI unit :=
  let* s := get in
  match audio_recorder s with
  | None => start_recording
  | Some r =>
      if negb (isRunning && recording r) then start_recording
      else stop_recording
  end.

Definition on_transcription_finished (text : string) : M UI unit :=
  set_record_button_text "🎤 Grabar Voz" ;;
  if truthy (strip text) then
    set_text_input text ;;
    console_append ("✅ Transcripción completada: " +:+ text)
  else
    console_append "⚠️ No se detectó texto en la grabación".

Definition on_transcription_error (err : string) : M UI unit :=
  set_record_button_text "🎤 Grabar Voz" ;;
  show_error ("Error en transcripción: " +:+ err).

Definition generate_plugin : M UI unit :=
  let* s := get in
  let user_request := strip (text_input s) in
  if negb (truthy user_request) then
    show_error "Por favor, ingresa una descripción del plugin que deseas crear."
  else
    set_generate_button_enabled false ;;
    set_record_button_enabled false ;;
    set_progress_bar_visible true ;;
    console_append (nl +:+ "🚀 Iniciando generación del plugin...") ;;
    console_append ("📝 Petición: " +:+ user_request +:+ nl) ;;
    let* id := new_object in
    act (NewPluginGenerator id user_request) ;;
    set_plugin_generator (Some {| generator_id := id; user_request := user_request |}) ;;
    act (StartThread id).

Definition on_generation_progress (message : string) : M UI unit :=
  console_append ("⏳ " +:+ message).

Definition on_generation_finished (result : string) : M UI unit :=
  set_generate_button_enabled true ;;
  set_record_button_enabled true ;;
  set_progress_bar_visible false ;;
  console_append (nl +:+ "✅ ¡Plugin generado exitosamente!") ;;
  console_append (String.concat "" (replicate 50 "=")) ;;
  console_append result ;;
  console_append (String.concat "" (replicate 50 "=")) ;;
  act (MessageInformation "Éxito"
         "Plugin generado exitosamente. Revisa la consola para más detalles.").

Definition on_generation_error (err : string) : M UI unit :=
  set_generate_button_enabled true ;;
  set_record_button_enabled true ;;
  set_progress_bar_visible false ;;
  show_error ("Error en la generación: " +:+ err).

Definition clear_all : M UI unit :=
  set_text_input "" ;;
  set_output_console [] ;;
  console_append "=== Generador de Scripts para Plugins de QGIS ===" ;;
  console_append ("Interfaz limpiada. Listo para nueva petición." +:+ nl).

(** What reaches the window: the user's input and the signals of the two
    workers, routed as [connect] wires them. *)
Inductive UIEvent :=
| UserTypes (text : string)
| ClickRecord (isRunning : bool)
| ClickGenerate
| ClickClear
| FromRecorder (s : Signal)
| FromGenerator (s : Signal).

Definition handle (ev : UIEvent) : M UI unit :=
  match ev with
  | UserTypes t => set_text_input t
  | ClickRecord isRunning => toggle_recording isRunning
  | ClickGenerate => generate_plugin
  | ClickClear => clear_all
  | FromRecorder (finished text) => on_transcription_finished text
  | FromRecorder (error e) => on_transcription_error e
  | FromRecorder _ => ret tt
  | FromGenerator (progress m) => on_generation_progress m
  | FromGenerator (finished r) => on_generation_finished r
  | FromGenerator (error e) => on_generation_error e
  | FromGenerator _ => ret tt
  end.

(** The window after a handler has run. *)
Definition after {A} (h : M UI A) (s : UI) : UI := (h s).2.

Definition session (evs : list UIEvent) (s : UI) : UI :=
  foldl (fun s ev => after (handle ev) s) s evs.

(** The generator's signals, delivered in order. *)
Definition deliver (t : list Event) (s : UI) : UI :=
  session (FromGenerator <$> signals t) s.

Definition constructed (l : list Action) : list nat :=
  omap (fun a => match a with
                 | NewAudioRecorder id | NewPluginGenerator id _ => Some id
                 | _ => None
                 end) l.

Definition started (l : list Action) : list nat :=
  omap (fun a => match a with StartThread id => Some id | _ => None end) l.

(** ** [closeEvent], lines 466-488 *)

(** What [closeEvent] calls besides the recorder's [stop_recording]. *)
Inductive CloseCall :=
| Question (title text : string)  (* QMessageBox.question *)
| Terminate (id : nat)            (* self.plugin_generator.terminate() *)
| Accept                          (* event.accept() *)
| Ignore.                         (* event.ignore() *)

(** [isRunning] is what [self.plugin_generator.isRunning()] answers and
    [yes] whether the reply is [QMessageBox.Yes]; the calls made are
    returned in their order. *)
Definition closeEvent (isRunning yes : bool) : M UI (list CloseCall) :=
  let* s := get in
  match audio_recorder s with
  | Some r =>
      if recording r then
        set_audio_recorder
          (Some {| recorder_id := recorder_id r; recording := false |})
      else ret tt
  | None => ret tt
  end ;;
  let* s := get in
  match plugin_generator s with
  | Some generator =>
      if isRunning then
        let question :=
          Question "Cerrar aplicación"
            "Hay una generación en progreso. ¿Deseas cerrar la aplicación?" in
        if yes then ret [question; Terminate (generator_id generator); Accept]
        else ret [question; Ignore]
      else ret [Accept]
  | None => ret [Accept]
  end.

End Basic.

(** * main_app_mejorado.py *)

Module Mejorado.

(** The optional imports, lines 24-55: what is installed decides whether
    the module loads and how its two flags are set. *)
Record Globals := {
  AUDIO_AVAILABLE : bool;
  CREWAI_AVAILABLE : bool
}.

(** [None] is [sys.exit(1)]. *)
Definition import_module (i : Installed) : option Globals :=
  if has_pyqt5 i then
    Some {| AUDIO_AVAILABLE := has_pyaudio i && has_whisper i;
            CREWAI_AVAILABLE := has_crewai i |}
  else None.

(** [self.plugin_config = plugin_config or {}], then [str()] of it. *)
Definition plugin_config_str (env : Env) (plugin_config : option Config) : string :=
  match plugin_config with
  | Some c => dict_str env c
  | None => "{}"
  end.

(** [planner_agent = Agent(...)], line 186. *)
Definition planner_agent (llm : LLM) : Agent :=
  {| role := "Analista de Requisitos para QGIS";
     goal := "Analizar peticiones de usuarios y crear planes técnicos detallados para plugins de QGIS";
     backstory := String.concat nl
      [ "Eres un experto analista de software especializado en QGIS y PyQGIS con más de 10 años de experiencia. ";
        "                Conoces profundamente la API de QGIS, las mejores prácticas de desarrollo de plugins y las necesidades comunes de los usuarios de SIG.";
        "                Tu trabajo es descomponer las peticiones de los usuarios en planes técnicos específicos y factibles." ];
     agent_verbose := true;
     allow_delegation := false;
     agent_llm := llm |}.

(** [coder_agent = Agent(...)], line 197. *)
Definition coder_agent (llm : LLM) : Agent :=
  {| role := "Desarrollador Senior de PyQGIS";
     goal := "Escribir código Python completo y funcional para plugins de QGIS";
     backstory := String.concat nl
      [ "Eres un desarrollador senior con experiencia extensa en PyQGIS, Qt, y desarrollo de plugins para QGIS.";
        "                Conoces las mejores prácticas de programación, manejo de errores, y optimización de rendimiento.";
        "                Puedes generar código limpio, bien documentado y siguiendo los estándares de la comunidad QGIS." ];
     agent_verbose := true;
     allow_delegation := false;
     agent_llm := llm |}.

(** [reviewer_agent = Agent(...)], line 208. *)
Definition reviewer_agent (llm : LLM) : Agent :=
  {| role := "Revisor de Código y Especialista en Empaquetado";
     goal := "Revisar código, asegurar calidad y crear paquetes de distribución";
     backstory := String.concat nl
      [ "Eres un experto en control de calidad de software y empaquetado de plugins de QGIS.";
        "                Tu experiencia incluye testing, debugging, y distribución de software.";
        "                Aseguras que el código sea robusto, seguro y fácil de instalar." ];
     agent_verbose := true;
     allow_delegation := false;
     agent_llm := llm |}.

(** [planning_task = Task(...)], line 220. *)
Definition planning_task (env : Env) (user_request : string) (plugin_config : option Config) (agent : Agent) : Task :=
  {| description := String.concat nl
      [ "Analiza la siguiente petición del usuario y crea un plan técnico detallado para un plugin de QGIS:";
        "                ";
        "                PETICIÓN DEL USUARIO: " +:+ user_request;
        "                ";
        "                CONFIGURACIÓN ADICIONAL: " +:+ plugin_config_str env plugin_config;
        "                ";
        "                Tu plan debe incluir:";
        "                1. Análisis funcional del plugin solicitado";
        "                2. Identificación de las clases y métodos de PyQGIS necesarios";
        "                3. Estructura de archivos del plugin (metadata.txt, __init__.py, main_plugin.py, etc.)";
        "                4. Diseño de la interfaz de usuario (botones, menús, diálogos)";
        "                5. Flujo de trabajo y lógica de procesamiento";
        "                6. Manejo de errores y validaciones necesarias";
        "                7. Consideraciones de rendimiento y optimización";
        "                ";
        "                Proporciona un plan estructurado y detallado que sirva como guía completa para el desarrollo." ];
     task_agent := agent;
     expected_output := "Un plan técnico completo y detallado con todos los componentes necesarios para el plugin";
     context := [] |}.

(** [coding_task = Task(...)], line 241. *)
Definition coding_task (agent : Agent) (planning : Task) : Task :=
  {| description := String.concat nl
      [ "Basándote en el plan técnico proporcionado, genera el código completo para el plugin de QGIS.";
        "                ";
        "                Debes crear los siguientes archivos con código funcional:";
        "                ";
        "                1. **metadata.txt** - Metadatos del plugin con información completa";
        "                2. **__init__.py** - Inicialización del plugin";
        "                3. **main_plugin.py** - Clase principal del plugin con toda la lógica";
        "                4. **plugin_dialog.py** - Diálogo de la interfaz de usuario (si es necesario)";
        "                5. **plugin_dialog.ui** - Archivo de interfaz Qt Designer (si es necesario)";
        "                6. **resources.qrc** - Archivo de recursos (si es necesario)";
        "                7. **icon.png** - Descripción del icono necesario";
        "                ";
        "                Requisitos del código:";
        "                - Debe seguir las convenciones de PyQGIS y PEP 8";
        "                - Incluir manejo robusto de errores";
        "                - Comentarios explicativos en español";
        "                - Validación de entrada de datos";
        "                - Compatibilidad con QGIS 3.x";
        "                - Código modular y mantenible";
        "                ";
        "                Asegúrate de que el código sea completo y funcional." ];
     task_agent := agent;
     expected_output := "Código completo del plugin con todos los archivos necesarios y funcionalidad implementada";
     context := [planning] |}.

(** [review_task = Task(...)], line 268. *)
Definition review_task (agent : Agent) (planning coding : Task) : Task :=
  {| description := String.concat nl
      [ "Revisa el código generado, mejóralo si es necesario y crea el paquete final del plugin.";
        "                ";
        "                Tareas de revisión:";
        "                1. Revisar sintaxis y lógica del código";
        "                2. Verificar compatibilidad con QGIS 3.x";
        "                3. Validar estructura del plugin";
        "                4. Mejorar comentarios y documentación";
        "                5. Optimizar rendimiento si es posible";
        "                ";
        "                Tareas de empaquetado:";
        "                1. Crear carpeta del plugin con nombre apropiado";
        "                2. Organizar todos los archivos correctamente";
        "                3. Crear archivo ZIP para instalación";
        "                4. Generar instrucciones de instalación detalladas";
        "                5. Crear documentación de uso del plugin";
        "                ";
        "                Proporciona el resultado final con la estructura completa del plugin." ];
     task_agent := agent;
     expected_output := "Plugin revisado, empaquetado en ZIP con instrucciones completas de instalación y uso";
     context := [planning; coding] |}.

(** The body of [create_plugin_package]'s [try], lines 315-339. *)
Definition create_plugin_package_body (env : Env) (result_text : string)
    : M fs path :=
  let* timestamp := strftime_now env in
  let plugin_name := "qgis_plugin_" +:+ timestamp in
  let* temp_dir := mkdtemp env in
  let plugin_dir := temp_dir ++ [plugin_name] in
  makedirs env plugin_dir ;;
  write_text env (plugin_dir ++ ["resultado.txt"]) result_text ;;
  let* cwd := getcwd env in
  let zip_path := cwd ++ [plugin_name +:+ ".zip"] in
  zip_open env zip_path ;;
  try_finally
    (let* d := get in
     for_each (walk_files d plugin_dir)
       (fun file_path =>
          zip_write env zip_path file_path (relpath file_path temp_dir)))
    (call env Zip_close) ;;
  rmtree env temp_dir ;;
  ret zip_path.

(** [PluginGenerator.create_plugin_package], lines 312-343. *)
Definition create_plugin_package (env : Env) (result_text : string)
    : M fs (option path) :=
  try_catch
    (let* zip_path := create_plugin_package_body env result_text in
     ret (Some zip_path))
    (fun e => ret None).

(** [self.finished.emit(result, zip_path)] on a [pyqtSignal(str, str)]. *)
Definition emit_finished (env : Env) (result : string) (zip_path : option path)
    : M World unit :=
  match zip_path, emit_none_raises env with
  | None, Some e => raise e
  | _, _ => emit (finished_zip result zip_path)
  end.

(** [PluginGenerator.run], lines 165-310. *)
Definition run (g : Globals) (env : Env) (user_request : string)
    (plugin_config : option Config) : M World unit :=
  if negb (CREWAI_AVAILABLE g) then
    emit (error "CrewAI no está disponible. Instala crewai.")
  else
    try_catch
      (emit (progress "Inicializando sistema multiagente...") ;;
       let* connected :=
         try_catch
           (let* llm := LLM_new env {| model := "ollama/llama3:8b";
                                      base_url := "http://localhost:11434" |} in
            ret (Some llm))
           (fun e =>
              emit (error ("Error conectando con Ollama: " +:+ e)) ;;
              ret None) in
       match connected with
       | None => ret tt
       | Some llm =>
           let* planner := Agent_new env Planner (planner_agent llm) in
           let* coder := Agent_new env Coder (coder_agent llm) in
           let* reviewer := Agent_new env Reviewer (reviewer_agent llm) in
           let* planning :=
             Task_new env Planner
               (planning_task env user_request plugin_config planner) in
           let* coding := Task_new env Coder (coding_task coder planning) in
           let* review :=
             Task_new env Reviewer (review_task reviewer planning coding) in
           emit (progress "Creando equipo de agentes...") ;;
           let* crew := Crew_new env {| agents := [planner; coder; reviewer];
                                        tasks := [planning; coding; review];
                                        crew_verbose := true |} in
           emit (progress "Ejecutando generación del plugin...") ;;
           let* result := kickoff env crew in
           let* zip_path := on_disk (create_plugin_package env result) in
           emit_finished env result zip_path
       end)
      (fun e => emit (error ("Error en la generación del plugin: " +:+ e))).

(** The crew [run] builds for a request. *)
Definition the_llm : LLM :=
  {| model := "ollama/llama3:8b"; base_url := "http://localhost:11434" |}.

Definition the_planning (env : Env) (user_request : string)
    (plugin_config : option Config) : Task :=
  planning_task env user_request plugin_config (planner_agent the_llm).

Definition the_coding (env : Env) (user_request : string)
    (plugin_config : option Config) : Task :=
  coding_task (coder_agent the_llm) (the_planning env user_request plugin_config).

Definition the_review (env : Env) (user_request : string)
    (plugin_config : option Config) : Task :=
  review_task (reviewer_agent the_llm)
    (the_planning env user_request plugin_config)
    (the_coding env user_request plugin_config).

Definition the_crew (env : Env) (user_request : string)
    (plugin_config : option Config) : Crew :=
  {| agents := [planner_agent the_llm; coder_agent the_llm; reviewer_agent the_llm];
     tasks := [the_planning env user_request plugin_config;
               the_coding env user_request plugin_config;
               the_review env user_request plugin_config];
     crew_verbose := true |}.

(** [while self.recording: data = self.stream.read(chunk); ...]: the
    loop sees the chunks that arrive before the window clears the flag. *)
Fixpoint record_loop (env : Env) (chunks : list string) : M World (list string) :=
  match chunks with
  | [] => ret []
  | data :: rest =>
      call env Stream_read ;;
      log (ChunkRead data) ;;
      let* more := record_loop env rest in
      ret (data :: more)
  end.

(** [AudioRecorder.run], lines 79-144. *)
Definition AudioRecorder_run (g : Globals) (env : Env) : M World unit :=
  if negb (AUDIO_AVAILABLE g) then
    emit (error "Audio no disponible. Instala pyaudio y whisper.")
  else
    try_finally
      (try_catch
         (call env PyAudio_init ;;
          set_p_audio true ;;
          call env Stream_open ;;
          set_stream (Some true) ;;
          log AudioOpened ;;
          let* audio_data := record_loop env (mic_chunks env) in
          call env Stream_stop ;;
          set_stream (Some false) ;;
          call env Stream_close ;;
          call env PyAudio_terminate ;;
          let* temp_file := on_disk (named_temporary_file env) in
          call env Sample_size ;;
          on_disk (wave_write env temp_file audio_data) ;;
          try_finally
            (try_catch
               (call env Whisper_load ;;
                call env Whisper_transcribe ;;
                log (Transcribed temp_file) ;;
                emit (finished (transcript env)))
               (fun e => emit (error ("Error en transcripción: " +:+ e))))
            (on_disk (unlink env temp_file)))
         (fun e => emit (error e)))
      (let* w := get in
       match stream w with
       | Some true =>
           call env Stream_stop ;;
           set_stream (Some false) ;;
           call env Stream_close
       | _ => ret tt
       end ;;
       if p_audio w then call env PyAudio_terminate else ret tt).

(** ** The window, lines 346-972

    The history view, the save dialog and [closeEvent] touch none of the
    fields below; they follow further down ([closeEvent], [Full]). *)

Record AudioRecorder := {
  recorder_id : nat;
  recording : bool
}.

Record PluginGenerator := {
  generator_id : nat;
  user_request : string;
  plugin_config : option Config
}.

(** The fields of the configuration tab. *)
Record ConfigurationWidget := {
  plugin_name : string;
  plugin_version : string;
  plugin_author : string;
  plugin_type : string;
  add_menu : bool;
  add_toolbar : bool;
  add_dialog : bool
}.

(** [x or default] on text *)
Definition or_default (x default : string) : string :=
  if truthy x then x else default.

Definition get_config (c : ConfigurationWidget) : Config :=
  {| cfg_name := or_default (plugin_name c) "Mi Plugin Personalizado";
     cfg_version := or_default (plugin_version c) "1.0.0";
     cfg_author := or_default (plugin_author c) "Autor Desconocido";
     cfg_type := plugin_type c;
     cfg_add_menu := add_menu c;
     cfg_add_toolbar := add_toolbar c;
     cfg_add_dialog := add_dialog c |}.

Record PluginInfo := {
  info_timestamp : string;
  info_request : string;
  info_config : Config;
  info_zip_path : option path
}.

Inductive Action :=
| NewAudioRecorder (id : nat)
| NewPluginGenerator (id : nat) (request : string) (config : Config)
| StartThread (id : nat)
| MessageCritical (title text : string)
| MessageInformation (title text : string)
| MessageQuestion (title text : string).

Record UI := {
  text_input : string;
  output_console : list string;
  record_button_text : string;
  record_button_enabled : bool;
  generate_button_enabled : bool;
  save_button_enabled : bool;
  progress_bar_visible : bool;
  status_bar : string;
  config_widget : ConfigurationWidget;
  generated_plugins : list PluginInfo;
  audio_recorder : option AudioRecorder;
  plugin_generator : option PluginGenerator;
  next_object : nat;
  actions : list Action
}.

Definition set_text_input (v : string) : M UI unit :=
  modify (fun s =>
    {| text_input := v; output_console := output_console s;
       record_button_text := record_button_text s;
       record_button_enabled := record_button_enabled s;
       generate_button_enabled := generate_button_enabled s;
       save_button_enabled := save_button_enabled s;
       progress_bar_visible := progress_bar_visible s;
       status_bar := status_bar s; config_widget := config_widget s;
       generated_plugins := generated_plugins s;
       audio_recorder := audio_recorder s;
       plugin_generator := plugin_generator s;
       next_object := next_object s; actions := actions s |}).

Definition set_output_console (v : list string) : M UI unit :=
  modify (fun s =>
    {| text_input := text_input s; output_console := v;
       record_button_text := record_button_text s;
       record_button_enabled := record_button_enabled s;
       generate_button_enabled := generate_button_enabled s;
       save_button_enabled := save_button_enabled s;
       progress_bar_visible := progress_bar_visible s;
       status_bar := status_bar s; config_widget := config_widget s;
       generated_plugins := generated_plugins s;
       audio_recorder := audio_recorder s;
       plugin_generator := plugin_generator s;
       next_object := next_object s; actions := actions s |}).

Definition set_record_button_text (v : string) : M UI unit :=
  modify (fun s =>
    {| text_input := text_input s; output_console := output_console s;
       record_button_text := v;
       record_button_enabled := record_button_enabled s;
       generate_button_enabled := generate_button_enabled s;
       save_button_enabled := save_button_enabled s;
       progress_bar_visible := progress_bar_visible s;
       status_bar := status_bar s; config_widget := config_widget s;
       generated_plugins := generated_plugins s;
       audio_recorder := audio_recorder s;
       plugin_generator := plugin_generator s;
       next_object := next_object s; actions := actions s |}).

Definition set_record_button_enabled (v : bool) : M UI unit :=
  modify (fun s =>
    {| text_input := text_input s; output_console := output_console s;
       record_button_text := record_button_text s;
       record_button_enabled := v;
       generate_button_enabled := generate_button_enabled s;
       save_button_enabled := save_button_enabled s;
       progress_bar_visible := progress_bar_visible s;
       status_bar := status_bar s; config_widget := config_widget s;
       generated_plugins := generated_plugins s;
       audio_recorder := audio_recorder s;
       plugin_generator := plugin_generator s;
       next_object := next_object s; actions := actions s |}).

Definition set_generate_button_enabled (v : bool) : M UI unit :=
  modify (fun s =>
    {| text_input := text_input s; output_console := output_console s;
       record_button_text := record_button_text s;
       record_button_enabled := record_button_enabled s;
       generate_button_enabled := v;
       save_button_enabled := save_button_enabled s;
       progress_bar_visible := progress_bar_visible s;
       status_bar := status_bar s; config_widget := config_widget s;
       generated_plugins := generated_plugins s;
       audio_recorder := audio_recorder s;
       plugin_generator := plugin_generator s;
       next_object := next_object s; actions := actions s |}).

Definition set_save_button_enabled (v : bool) : M UI unit :=
  modify (fun s =>
    {| text_input := text_input s; output_console := output_console s;
       record_button_text := record_button_text s;
       record_button_enabled := record_button_enabled s;
       generate_button_enabled := generate_button_enabled s;
       save_button_enabled := v;
       progress_bar_visible := progress_bar_visible s;
       status_bar := status_bar s; config_widget := config_widget s;
       generated_plugins := generated_plugins s;
       audio_recorder := audio_recorder s;
       plugin_generator := plugin_generator s;
       next_object := next_object s; actions := actions s |}).

Definition set_progress_bar_visible (v : bool) : M UI unit :=
  modify (fun s =>
    {| text_input := text_input s; output_console := output_console s;
       record_button_text := record_button_text s;
       record_button_enabled := record_button_enabled s;
       generate_button_enabled := generate_button_enabled s;
       save_button_enabled := save_button_enabled s;
       progress_bar_visible := v; status_bar := status_bar s;
       config_widget := config_widget s;
       generated_plugins := generated_plugins s;
       audio_recorder := audio_recorder s;
       plugin_generator := plugin_generator s;
       next_object := next_object s; actions := actions s |}).

Definition set_status_bar (v : string) : M UI unit :=
  modify (fun s =>
    {| text_input := text_input s; output_console := output_console s;
       record_button_text := record_button_text s;
       record_button_enabled := record_button_enabled s;
       generate_button_enabled := generate_button_enabled s;
       save_button_enabled := save_button_enabled s;
       progress_bar_visible := progress_bar_visible s; status_bar := v;
       config_widget := config_widget s;
       generated_plugins := generated_plugins s;
       audio_recorder := audio_recorder s;
       plugin_generator := plugin_generator s;
       next_object := next_object s; actions := actions s |}).

Definition set_config_widget (v : ConfigurationWidget) : M UI unit :=
  modify (fun s =>
    {| text_input := text_input s; output_console := output_console s;
       record_button_text := record_button_text s;
       record_button_enabled := record_button_enabled s;
       generate_button_enabled := generate_button_enabled s;
       save_button_enabled := save_button_enabled s;
       progress_bar_visible := progress_bar_visible s;
       status_bar := status_bar s; config_widget := v;
       generated_plugins := generated_plugins s;
       audio_recorder := audio_recorder s;
       plugin_generator := plugin_generator s;
       next_object := next_object s; actions := actions s |}).

Definition set_generated_plugins (v : list PluginInfo) : M UI unit :=
  modify (fun s =>
    {| text_input := text_input s; output_console := output_console s;
       record_button_text := record_button_text s;
       record_button_enabled := record_button_enabled s;
       generate_button_enabled := generate_button_enabled s;
       save_button_enabled := save_button_enabled s;
       progress_bar_visible := progress_bar_visible s;
       status_bar := status_bar s; config_widget := config_widget s;
       generated_plugins := v; audio_recorder := audio_recorder s;
       plugin_generator := plugin_generator s;
       next_object := next_object s; actions := actions s |}).

Definition set_audio_recorder (v : option AudioRecorder) : M UI unit :=
  modify (fun s =>
    {| text_input := text_input s; output_console := output_console s;
       record_button_text := record_button_text s;
       record_button_enabled := record_button_enabled s;
       generate_button_enabled := generate_button_enabled s;
       save_button_enabled := save_button_enabled s;
       progress_bar_visible := progress_bar_visible s;
       status_bar := status_bar s; config_widget := config_widget s;
       generated_plugins := generated_plugins s; audio_recorder := v;
       plugin_generator := plugin_generator s;
       next_object := next_object s; actions := actions s |}).

Definition set_plugin_generator (v : option PluginGenerator) : M UI unit :=
  modify (fun s =>
    {| text_input := text_input s; output_console := output_console s;
       record_button_text := record_button_text s;
       record_button_enabled := record_button_enabled s;
       generate_button_enabled := generate_button_enabled s;
       save_button_enabled := save_button_enabled s;
       progress_bar_visible := progress_bar_visible s;
       status_bar := status_bar s; config_widget := config_widget s;
       generated_plugins := generated_plugins s;
       audio_recorder := audio_recorder s; plugin_generator := v;
       next_object := next_object s; actions := actions s |}).

(** Constructing an object takes the next identity. *)
Definition new_object : M UI nat :=
  fun s =>
    (inr (next_object s),
    {| text_input := text_input s; output_console := output_console s;
       record_button_text := record_button_text s;
       record_button_enabled := record_button_enabled s;
       generate_button_enabled := generate_button_enabled s;
       save_button_enabled := save_button_enabled s;
       progress_bar_visible := progress_bar_visible s;
       status_bar := status_bar s; config_widget := config_widget s;
       generated_plugins := generated_plugins s;
       audio_recorder := audio_recorder s;
       plugin_generator := plugin_generator s;
       next_object := S (next_object s); actions := actions s |}).

Definition act (a : Action) : M UI unit :=
  modify (fun s =>
    {| text_input := text_input s; output_console := output_console s;
       record_button_text := record_button_text s;
       record_button_enabled := record_button_enabled s;
       generate_button_enabled := generate_button_enabled s;
       save_button_enabled := save_button_enabled s;
       progress_bar_visible := progress_bar_visible s;
       status_bar := status_bar s; config_widget := config_widget s;
       generated_plugins := generated_plugins s;
       audio_recorder := audio_recorder s;
       plugin_generator := plugin_generator s;
       next_object := next_object s; actions := actions s ++ [a] |}).

(** [self.output_console.append(message)] *)
Definition append_to_console (message : string) : M UI unit :=
  let* s := get in set_output_console (output_console s ++ [message]).

Definition available (b : bool) : string :=
  if b then "✅ Disponible" else "❌ No disponible".

Definition welcome_msg (g : Globals) : string :=
  String.concat nl
    [ "";
      "<div style='color: #4CAF50; font-size: 14px; font-weight: bold;'>";
      "=== Generador de Scripts para Plugins de QGIS v2.0 ===";
      "</div>";
      "<div style='color: #2196F3; font-size: 12px;'>";
      "🚀 Sistema multiagente con IA local para generar plugins personalizados";
      "</div>";
      "<div style='color: #ffffff; font-size: 11px;'>";
      "✅ Listo para generar plugins personalizados de QGIS<br>";
      "📝 Escribe una descripción detallada o usa el botón de grabación de voz<br>";
      "⚙️ Configura opciones avanzadas en la pestaña 'Configuración'<br>";
      "📊 Revisa el historial de plugins en la pestaña 'Historial'<br>";
      "</div>";
      "<div style='color: #FF9800; font-size: 10px;'>";
      "ℹ️ Estado de componentes:<br>";
      "• Audio (Whisper): " +:+ available (AUDIO_AVAILABLE g) +:+ "<br>";
      "• CrewAI: " +:+ available (CREWAI_AVAILABLE g) +:+ "<br>";
      "</div>";
      "<hr style='border: 1px solid #555555;'>";
      "        " ].

(** [self.output_console.setHtml(welcome_msg)] *)
Definition show_welcome_message (g : Globals) : M UI unit :=
  set_output_console [welcome_msg g].

(** The window [init_ui] leaves behind. *)
Definition init (g : Globals) : UI :=
  {| text_input := "";
     output_console := [welcome_msg g];
     record_button_text := "🎤 Grabar Voz";
     record_button_enabled := AUDIO_AVAILABLE g;
     generate_button_enabled := CREWAI_AVAILABLE g;
     save_button_enabled := false;
     progress_bar_visible := false;
     status_bar := "Listo para generar plugins de QGIS";
     config_widget :=
       {| plugin_name := ""; plugin_version := "1.0.0"; plugin_author := "";
          plugin_type := "Procesamiento de Datos";
          add_menu := true; add_toolbar := true; add_dialog := false |};
     generated_plugins := [];
     audio_recorder := None;
     plugin_generator := None;
     next_object := 0;
     actions := [] |}.

(** The console line of [show_error]. *)
Definition error_line (message : string) : string :=
  "❌ <span style='color: #f44336; font-weight: bold;'>Error:</span> "
  +:+ "<span style='color: #E0E0E0;'>" +:+ message +:+ "</span>".

Definition show_error (message : string) : M UI unit :=
  append_to_console (error_line message) ;;
  act (MessageCritical "Error" message).

(** [start_recording]; in this model constructing and starting a thread
    do not raise, so the handler of its [try] is never entered. *)
Definition start_recording : M UI unit :=
  try_catch
    (let* id := new_object in
     act (NewAudioRecorder id) ;;
     set_audio_recorder (Some {| recorder_id := id; recording := false |}) ;;
     set_record_button_text "⏹️ Detener Grabación" ;;
     append_to_console
       "🎤 <span style='color: #4CAF50;'>Iniciando grabación de audio...</span>" ;;
     set_status_bar "Grabando audio..." ;;
     (* self.audio_recorder.start_recording() *)
     set_audio_recorder (Some {| recorder_id := id; recording := true |}) ;;
     act (StartThread id))
    (fun e => show_error ("Error al iniciar grabación: " +:+ e)).

Definition stop_recording : M UI unit :=
  let* s := get in
  match audio_recorder s with
  | Some r =>
      if recording r then
        append_to_console
          "⏹️ <span style='color: #FF9800;'>Deteniendo grabación y transcribiendo...</span>" ;;
        set_status_bar "Transcribiendo audio..." ;;
        set_audio_recorder (Some {| recorder_id := recorder_id r; recording := false |})
      else ret tt
  | None => ret tt
  end.

(** [isRunning] is what [self.audio_recorder.isRunning()] answers. *)
Definition toggle_recording (g : Globals) (isRunning : bool) : M UI unit :=
  if negb (AUDIO_AVAILABLE g) then
    show_error "Funcionalidad de audio no disponible. Instala pyaudio y whisper."
  else
    let* s := get in
    match audio_recorder s with
    | None => start_recording
    | Some r =>
        if negb (isRunning && recording r) then start_recording
        else stop_recording
    end.

Definition on_transcription_finished (text : string) : M UI unit :=
  set_record_button_text "🎤 Grabar Voz" ;;
  if truthy (strip text) then
    set_text_input text ;;
    append_to_console
      ("✅ <span style='color: #4CAF50;'>Transcripción completada:</span><br>"
       +:+ "<span style='color: #E0E0E0;'>" +:+ text +:+ "</span>") ;;
    set_status_bar "Transcripción completada"
  else
    append_to_console
      "⚠️ <span style='color: #FF9800;'>No se detectó texto en la grabación</span>" ;;
    set_status_bar "No se detectó texto".

Definition on_transcription_error (err : string) : M UI unit :=
  set_record_button_text "🎤 Grabar Voz" ;;
  show_error ("Error en transcripción: " +:+ err) ;;
  set_status_bar "Error en transcripción".

(** [yes] is the user's answer when the short-description question is
    asked. *)
Definition generate_plugin (g : Globals) (env : Env) (yes : bool) : M UI unit :=
  if negb (CREWAI_AVAILABLE g) then
    show_error "CrewAI no está disponible. Instala crewai para usar esta funcionalidad."
  else
    let* s := get in
    let user_request := strip (text_input s) in
    if negb (truthy user_request) then
      show_error "Por favor, ingresa una descripción del plugin que deseas crear."
    else
      let* go :=
        if py_len user_request <? 20 then
          act (MessageQuestion "Descripción corta"
                 "La descripción parece muy corta. ¿Deseas continuar de todos modos?") ;;
          ret yes
        else ret true in
      if negb go then ret tt
      else
        let plugin_config := get_config (config_widget s) in
        set_generate_button_enabled false ;;
        set_record_button_enabled false ;;
        set_save_button_enabled false ;;
        set_progress_bar_visible true ;;
        append_to_console "<hr>" ;;
        append_to_console
          "🚀 <span style='color: #2196F3; font-weight: bold;'>Iniciando generación del plugin...</span>" ;;
        append_to_console
          ("📝 <span style='color: #E0E0E0;'>Petición:</span> " +:+ user_request) ;;
        append_to_console
          ("⚙️ <span style='color: #E0E0E0;'>Configuración:</span> "
           +:+ dict_str env plugin_config) ;;
        set_status_bar "Generando plugin..." ;;
        let* id := new_object in
        act (NewPluginGenerator id user_request plugin_config) ;;
        set_plugin_generator
          (Some {| generator_id := id; user_request := user_request;
                   plugin_config := Some plugin_config |}) ;;
        act (StartThread id).

Definition on_generation_progress (message : string) : M UI unit :=
  append_to_console ("⏳ <span style='color: #FF9800;'>" +:+ message +:+ "</span>") ;;
  set_status_bar message.

Definition on_generation_finished (g : Globals) (env : Env) (result : string)
    (zip_path : option path) : M UI unit :=
  set_generate_button_enabled true ;;
  set_record_button_enabled (AUDIO_AVAILABLE g) ;;
  set_save_button_enabled true ;;
  set_progress_bar_visible false ;;
  append_to_console
    "<br>✅ <span style='color: #4CAF50; font-weight: bold;'>¡Plugin generado exitosamente!</span>" ;;
  match zip_path with
  | Some p =>
      append_to_console
        ("📦 <span style='color: #4CAF50;'>Archivo ZIP creado:</span> "
         +:+ "<span style='color: #E0E0E0;'>" +:+ path_str p +:+ "</span>")
  | None => ret tt
  end ;;
  append_to_console
    "<div style='border: 1px solid #555555; padding: 10px; margin: 10px 0; background-color: #2e2e2e;'>" ;;
  append_to_console
    "<span style='color: #4CAF50; font-weight: bold;'>RESULTADO DEL PLUGIN:</span><br>" ;;
  append_to_console
    ("<span style='color: #E0E0E0; font-family: Consolas;'>" +:+ result +:+ "</span>") ;;
  append_to_console "</div>" ;;
  let* s := get in
  set_generated_plugins
    (generated_plugins s ++
     [ {| info_timestamp := now_display env;
          info_request := py_take 100 (strip (text_input s)) +:+ "...";
          info_config := get_config (config_widget s);
          info_zip_path := zip_path |} ]) ;;
  set_status_bar "Plugin generado exitosamente" ;;
  act (MessageInformation "Éxito"
         ("Plugin generado exitosamente.\n\nArchivo ZIP: "
          +:+ match zip_path with
              | Some p => path_str p
              | None => "No disponible"
              end
          +:+ "\n\nRevisa la consola para más detalles.")).

Definition on_generation_error (g : Globals) (err : string) : M UI unit :=
  set_generate_button_enabled true ;;
  set_record_button_enabled (AUDIO_AVAILABLE g) ;;
  set_progress_bar_visible false ;;
  show_error ("Error en la generación: " +:+ err) ;;
  set_status_bar "Error en la generación".

Definition clear_all (g : Globals) : M UI unit :=
  set_text_input "" ;;
  set_output_console [] ;;
  show_welcome_message g ;;
  set_save_button_enabled false ;;
  set_status_bar "Interfaz limpiada".

Definition clear_history : M UI unit :=
  set_generated_plugins [] ;;
  set_status_bar "Historial limpiado".

(** What reaches the window: the user's input and the signals of the two
    workers, routed as [connect] wires them. *)
Inductive UIEvent :=
| UserTypes (text : string)
| UserConfigures (c : ConfigurationWidget)
| ClickRecord (isRunning : bool)
| ClickGenerate (yes : bool)
| ClickClear
| ClickClearHistory
| FromRecorder (s : Signal)
| FromGenerator (s : Signal).

Definition handle (g : Globals) (env : Env) (ev : UIEvent) : M UI unit :=
  match ev with
  | UserTypes t => set_text_input t
  | UserConfigures c => set_config_widget c
  | ClickRecord isRunning => toggle_recording g isRunning
  | ClickGenerate yes => generate_plugin g env yes
  | ClickClear => clear_all g
  | ClickClearHistory => clear_history
  | FromRecorder (finished text) => on_transcription_finished text
  | FromRecorder (error e) => on_transcription_error e
  | FromRecorder _ => ret tt
  | FromGenerator (progress m) => on_generation_progress m
  | FromGenerator (finished_zip r z) => on_generation_finished g env r z
  | FromGenerator (error e) => on_generation_error g e
  | FromGenerator _ => ret tt
  end.

(** The window after a handler has run. *)
Definition after {A} (h : M UI A) (s : UI) : UI := (h s).2.

Definition session (g : Globals) (env : Env) (evs : list UIEvent) (s : UI) : UI :=
  foldl (fun s ev => after (handle g env ev) s) s evs.

(** The generator's signals, delivered in order. *)
Definition deliver (g : Globals) (env : Env) (t : list Event) (s : UI) : UI :=
  session g env (FromGenerator <$> signals t) s.

Definition constructed (l : list Action) : list nat :=
  omap (fun a => match a with
                 | NewAudioRecorder id | NewPluginGenerator id _ _ => Some id
                 | _ => None
                 end) l.

Definition started (l : list Action) : list nat :=
  omap (fun a => match a with StartThread id => Some id | _ => None end) l.

(** ** [closeEvent], lines 952-972 *)

(** What [closeEvent] calls besides the recorder's [stop_recording]. *)
Inductive CloseCall :=
| Question (title text : string)  (* QMessageBox.question *)
| Terminate (id : nat)            (* self.plugin_generator.terminate() *)
| Accept                          (* event.accept() *)
| Ignore.                         (* event.ignore() *)

(** [isRunning] is what [self.plugin_generator.isRunning()] answers and
    [yes] whether the reply is [QMessageBox.Yes]; the calls made are
    returned in their order. *)
Definition closeEvent (isRunning yes : bool) : M UI (list CloseCall) :=
  let* s := get in
  match audio_recorder s with
  | Some r =>
      if recording r then
        set_audio_recorder
          (Some {| recorder_id := recorder_id r; recording := false |})
      else ret tt
  | None => ret tt
  end ;;
  let* s := get in
  match plugin_generator s with
  | Some generator =>
      if isRunning then
        let question :=
          Question "Cerrar aplicación"
            "Hay una generación en progreso. ¿Deseas cerrar la aplicación?" in
        if yes then ret [question; Terminate (generator_id generator); Accept]
        else ret [question; Ignore]
      else ret [Accept]
  | None => ret [Accept]
  end.

(** ** The history view, lines 920-938 *)

(** [enumerate(l, 1)] *)
Definition enumerate_from_1 {A} (l : list A) : list (nat * A) :=
  zip (seq 1 (length l)) l.

(** The card the loop of [update_history] appends for a plugin. *)
Definition history_card (number : nat) (plugin : PluginInfo) : string :=
  String.concat nl
    [ "";
      "            <div style='border: 1px solid #cccccc; padding: 10px; margin: 5px 0; background-color: #f9f9f9;'>";
      "                <h4>Plugin #" +:+ pretty number +:+ "</h4>";
      "                <p><strong>Fecha:</strong> " +:+ info_timestamp plugin +:+ "</p>";
      "                <p><strong>Descripción:</strong> " +:+ info_request plugin +:+ "</p>";
      "                <p><strong>Configuración:</strong> " +:+ cfg_name (info_config plugin) +:+ " v" +:+ cfg_version (info_config plugin) +:+ "</p>";
      "                <p><strong>Archivo ZIP:</strong> " +:+
        match info_zip_path plugin with
        | Some p => path_str p
        | None => "No disponible"
        end +:+ "</p>";
      "            </div>";
      "            " ].

(** The document [update_history] hands to [self.history_list.setHtml]. *)
Definition history_html (generated_plugins : list PluginInfo) : string :=
  let history_html :=
    foldl (fun history_html ip =>
             history_html
             +:+ history_card (length generated_plugins - ip.1 + 1) ip.2)
      "<h3>Historial de Plugins Generados</h3>"
      (enumerate_from_1 (reverse generated_plugins)) in
  match generated_plugins with
  | [] => history_html +:+ "<p><em>No hay plugins generados aún.</em></p>"
  | _ => history_html
  end.

(** ** The whole window: the history view and the disk beside the
    fields of [UI] *)

Module Full.

(** [QFileDialog.getSaveFileName(self, title, suggested, filter)] *)
Record SaveDialog := {
  dialog_title : string;
  dialog_suggested : string;
  dialog_filter : string
}.

(** [history_list] is the document of the history tab's browser, empty
    after [clear()]; [disk] is what [save_result] writes to; [dialogs]
    are the save dialogs opened so far. *)
Record Desk := {
  window : UI;
  history_list : string;
  disk : fs;
  dialogs : list SaveDialog
}.

Definition in_window {A} (m : M UI A) : M Desk A :=
  fun s =>
    match m (window s) with
    | (r, w) => (r, {| window := w; history_list := history_list s;
                       disk := disk s; dialogs := dialogs s |})
    end.

Definition on_the_disk {A} (m : M fs A) : M Desk A :=
  fun s =>
    match m (disk s) with
    | (r, d) => (r, {| window := window s; history_list := history_list s;
                       disk := d; dialogs := dialogs s |})
    end.

Definition set_history_list (html : string) : M Desk unit :=
  modify (fun s => {| window := window s; history_list := html;
                      disk := disk s; dialogs := dialogs s |}).

Definition open_dialog (dialog : SaveDialog) : M Desk unit :=
  modify (fun s => {| window := window s; history_list := history_list s;
                      disk := disk s; dialogs := dialogs s ++ [dialog] |}).

(** The window [__init__] leaves behind, facing disk [d]. *)
Definition init (g : Globals) (d : fs) : Desk :=
  {| window := Mejorado.init g; history_list := ""; disk := d;
     dialogs := [] |}.

(** [update_history], lines 920-938. *)
Definition update_history : M Desk unit :=
  let* s := get in
  set_history_list (history_html (generated_plugins (window s))).

(** [on_generation_finished], lines 839-873, with its call of
    [update_history]. *)
Definition on_generation_finished (g : Globals) (env : Env) (result : string)
    (zip_path : option path) : M Desk unit :=
  in_window (set_generate_button_enabled true) ;;
  in_window (set_record_button_enabled (AUDIO_AVAILABLE g)) ;;
  in_window (set_save_button_enabled true) ;;
  in_window (set_progress_bar_visible false) ;;
  in_window (append_to_console
    "<br>✅ <span style='color: #4CAF50; font-weight: bold;'>¡Plugin generado exitosamente!</span>") ;;
  match zip_path with
  | Some p =>
      in_window (append_to_console
        ("📦 <span style='color: #4CAF50;'>Archivo ZIP creado:</span> "
         +:+ "<span style='color: #E0E0E0;'>" +:+ path_str p +:+ "</span>"))
  | None => ret tt
  end ;;
  in_window (append_to_console
    "<div style='border: 1px solid #555555; padding: 10px; margin: 10px 0; background-color: #2e2e2e;'>") ;;
  in_window (append_to_console
    "<span style='color: #4CAF50; font-weight: bold;'>RESULTADO DEL PLUGIN:</span><br>") ;;
  in_window (append_to_console
    ("<span style='color: #E0E0E0; font-family: Consolas;'>" +:+ result +:+ "</span>")) ;;
  in_window (append_to_console "</div>") ;;
  let* s := get in
  in_window (set_generated_plugins
    (generated_plugins (window s) ++
     [ {| info_timestamp := now_display env;
          info_request := py_take 100 (strip (text_input (window s))) +:+ "...";
          info_config := get_config (config_widget (window s));
          info_zip_path := zip_path |} ])) ;;
  update_history ;;
  in_window (set_status_bar "Plugin generado exitosamente") ;;
  in_window (act (MessageInformation "Éxito"
         ("Plugin generado exitosamente.\n\nArchivo ZIP: "
          +:+ match zip_path with
              | Some p => path_str p
              | None => "No disponible"
              end
          +:+ "\n\nRevisa la consola para más detalles."))).

(** [clear_history], lines 914-918. *)
Definition clear_history : M Desk unit :=
  in_window (set_generated_plugins []) ;;
  set_history_list "" ;;
  in_window (set_status_bar "Historial limpiado").

(** [save_result], lines 884-904.  [toPlainText] is what the console
    answers for its content, and [chosen] the file the user picks in
    the dialog ([None] when the dialog returns the empty string). *)
Definition save_result (env : Env) (toPlainText : list string -> string)
    (chosen : option path) : M Desk unit :=
  let* s := get in
  if negb (truthy (toPlainText (output_console (window s)))) then
    in_window (show_error "No hay contenido para guardar.")
  else
    let* stamp := on_the_disk (strftime_now env) in
    open_dialog
      {| dialog_title := "Guardar Resultado";
         dialog_suggested := "resultado_plugin_" +:+ stamp +:+ ".txt";
         dialog_filter := "Archivos de texto (*.txt);;Todos los archivos (*)" |} ;;
    match chosen with
    | None => ret tt
    | Some file_path =>
        try_catch
          (let* s := get in
           on_the_disk
             (write_text env file_path
                (toPlainText (output_console (window s)))) ;;
           in_window (append_to_console
             ("💾 <span style='color: #4CAF50;'>Resultado guardado en:</span> "
              +:+ "<span style='color: #E0E0E0;'>" +:+ path_str file_path
              +:+ "</span>")) ;;
           in_window (set_status_bar
             ("Resultado guardado: " +:+ path_str file_path)))
          (fun e => in_window (show_error ("Error al guardar archivo: " +:+ e)))
    end.

(** What reaches the whole window: the events of [UIEvent], and a click
    on the save button with the user's choice in the dialog. *)
Inductive Event :=
| Of (ev : UIEvent)
| ClickSave (chosen : option path).

Definition handle (g : Globals) (env : Env)
    (toPlainText : list string -> string) (ev : Event) : M Desk unit :=
  match ev with
  | Of (FromGenerator (finished_zip result zip_path)) =>
      on_generation_finished g env result zip_path
  | Of ClickClearHistory => clear_history
  | Of ev => in_window (Mejorado.handle g env ev)
  | ClickSave chosen => save_result env toPlainText chosen
  end.

Definition after {A} (h : M Desk A) (s : Desk) : Desk := (h s).2.

Definition session (g : Globals) (env : Env)
    (toPlainText : list string -> string) (evs : list Event) (s : Desk)
    : Desk :=
  foldl (fun s ev => after (handle g env toPlainText ev) s) s evs.

End Full.

End Mejorado.

(** * Concrete environments *)

#[global] Instance Stage_eq_dec : EqDecision Stage.
Proof. solve_decision. Defined.

#[global] Instance Call_eq_dec : EqDecision Call.
Proof. solve_decision. Defined.

(** Everything installed and reachable, nothing raises. *)
Definition env_ok : Env :=
  {| raises := fun _ => None;
     kickoff_output := fun _ => "# plugin";
     dict_str := fun c => "{'name': '" +:+ cfg_name c +:+ "'}";
     now_stamp := "20250101_120000";
     now_display := "2025-01-01 12:00:00";
     tmp_dir := ["tmp"; "tmpk3f9x2"];
     cwd := ["home"; "user"];
     emit_none_raises := None;
     mic_chunks := ["a"; "b"];
     tmp_wav := ["tmp"; "tmpq7.wav"];
     transcript := "crear un buffer" |}.

(** [env] with call [c] raising [e]. *)
Definition failing (env : Env) (c : Call) (e : exn) : Env :=
  {| raises := fun c' => if decide (c' = c) then Some e else raises env c';
     kickoff_output := kickoff_output env;
     dict_str := dict_str env;
     now_stamp := now_stamp env;
     now_display := now_display env;
     tmp_dir := tmp_dir env;
     cwd := cwd env;
     emit_none_raises := emit_none_raises env;
     mic_chunks := mic_chunks env;
     tmp_wav := tmp_wav env;
     transcript := transcript env |}.

(** [env] on a PyQt that refuses [None] for a [str] argument. *)
Definition strict_signals (env : Env) (e : exn) : Env :=
  {| raises := raises env;
     kickoff_output := kickoff_output env;
     dict_str := dict_str env;
     now_stamp := now_stamp env;
     now_display := now_display env;
     tmp_dir := tmp_dir env;
     cwd := cwd env;
     emit_none_raises := Some e;
     mic_chunks := mic_chunks env;
     tmp_wav := tmp_wav env;
     transcript := transcript env |}.

Definition disk0 : fs :=
  {[ [] := Dir; ["tmp"] := Dir; ["home"] := Dir; ["home"; "user"] := Dir ]}.

Definition world0 : World := start disk0.

Definition all_available : Mejorado.Globals :=
  {| Mejorado.AUDIO_AVAILABLE := true; Mejorado.CREWAI_AVAILABLE := true |}.

Definition no_audio : Mejorado.Globals :=
  {| Mejorado.AUDIO_AVAILABLE := false; Mejorado.CREWAI_AVAILABLE := true |}.

(** Windows in which only blanks have been typed. *)
Definition blank_basic : Basic.UI :=
  Basic.after (Basic.set_text_input ("  " +:+ nl)) Basic.init.

Definition blank_mejorado : Mejorado.UI :=
  Mejorado.after (Mejorado.set_text_input ("  " +:+ nl))
    (Mejorado.init all_available).

(** PyQt5 and CrewAI installed, PyAudio missing. *)
Definition without_pyaudio : Installed :=
  {| has_pyqt5 := true; has_pyaudio := false;
     has_whisper := true; has_crewai := true |}.

Definition a_request : string := "buffer de 100 m alrededor de los puntos".

(** The LLM cannot be built. *)
Definition env_no_llm : Env := failing env_ok LLM_init "Connection refused".

(** An agent is rejected by its constructor. *)
Definition env_bad_agent : Env :=
  failing env_ok (Agent_init Planner) "1 validation error for Agent".

(** Writing into the archive fails. *)
Definition env_disk_full : Env :=
  failing env_ok Zip_write "[Errno 28] No space left on device".

Definition env_disk_full_strict : Env :=
  strict_signals env_disk_full "argument 2 has unexpected type 'NoneType'".

(** The model server does not answer. *)
Definition env_kickoff_fails : Env :=
  failing env_ok Crew_kickoff "Connection refused".

(** A window holding a request of fewer than twenty characters. *)
Definition short_mejorado : Mejorado.UI :=
  Mejorado.after (Mejorado.set_text_input "buffer de 100 m")
    (Mejorado.init all_available).

(** * Vocabulary of the statements *)

(** The first exception a sequence of calls meets. *)
Fixpoint first_raise (env : Env) (cs : list Call) : option exn :=
  match cs with
  | [] => None
  | c :: rest =>
      match raises env c with
      | Some e => Some e
      | None => first_raise env rest
      end
  end.

(** The constructor calls between the first progress message and the
    second, in the order of the source. *)
Definition agent_task_calls : list Call :=
  [ Agent_init Planner; Agent_init Coder; Agent_init Reviewer;
    Task_init Planner; Task_init Coder; Task_init Reviewer ].

Definition setup_calls : list Call := LLM_init :: agent_task_calls.

(** Everything the pipeline calls before [kickoff]. *)
Definition calls_before_kickoff : list Call := setup_calls ++ [Crew_init].

Definition kickoff_calls : list Call := [Crew_kickoff; Result_str].

Definition three_progress_messages : list string :=
  [ "Inicializando sistema multiagente...";
    "Creando equipo de agentes...";
    "Ejecutando generación del plugin..." ].

Definition is_finished (s : Signal) : bool :=
  match s with finished _ | finished_zip _ _ => true | _ => false end.

Definition is_error (s : Signal) : bool :=
  match s with error _ => true | _ => false end.

Definition is_terminal (s : Signal) : bool := is_finished s || is_error s.

(** The generation-failure message of both [run]s. *)
Definition generation_error (e : exn) : Signal :=
  error ("Error en la generación del plugin: " +:+ e).

(** A generator's world with trace [t] and disk [d]. *)
Definition world_of (t : list Event) (d : fs) : World :=
  {| trace := t; files := d; p_audio := false; stream := None |}.

(** [toggle_recording] goes on to [start_recording]. *)
Definition starts_recording (recorder_recording : option bool) (isRunning : bool)
    : bool :=
  match recorder_recording with
  | None => true
  | Some rec => negb (isRunning && rec)
  end.

(** [generate_plugin] of main_app.py gets past its guard. *)
Definition Basic_proceeds (s : Basic.UI) : bool :=
  truthy (strip (Basic.text_input s)).

(** [generate_plugin] of main_app_mejorado.py gets past its guards;
    [yes] answers the short-description question. *)
Definition Mejorado_proceeds (g : Mejorado.Globals) (s : Mejorado.UI)
    (yes : bool) : bool :=
  Mejorado.CREWAI_AVAILABLE g
  && truthy (strip (Mejorado.text_input s))
  && (if py_len (strip (Mejorado.text_input s)) <? 20 then yes else true).

(** The three widgets that [generate_plugin] locks. *)
Definition Basic_ready (s : Basic.UI) : Prop :=
  Basic.generate_button_enabled s = true
  /\ Basic.record_button_enabled s = true
  /\ Basic.progress_bar_visible s = false.

Definition Mejorado_ready (g : Mejorado.Globals) (s : Mejorado.UI) : Prop :=
  Mejorado.generate_button_enabled s = true
  /\ Mejorado.record_button_enabled s = Mejorado.AUDIO_AVAILABLE g
  /\ Mejorado.progress_bar_visible s = false.

(** The window without the two things that show whether audio is
    available: the record button's enabled flag and the console (whose
    welcome message names the components found). *)
Definition audio_blind (s : Mejorado.UI) : Mejorado.UI :=
  {| Mejorado.text_input := Mejorado.text_input s;
     Mejorado.output_console := [];
     Mejorado.record_button_text := Mejorado.record_button_text s;
     Mejorado.record_button_enabled := false;
     Mejorado.generate_button_enabled := Mejorado.generate_button_enabled s;
     Mejorado.save_button_enabled := Mejorado.save_button_enabled s;
     Mejorado.progress_bar_visible := Mejorado.progress_bar_visible s;
     Mejorado.status_bar := Mejorado.status_bar s;
     Mejorado.config_widget := Mejorado.config_widget s;
     Mejorado.generated_plugins := Mejorado.generated_plugins s;
     Mejorado.audio_recorder := Mejorado.audio_recorder s;
     Mejorado.plugin_generator := Mejorado.plugin_generator s;
     Mejorado.next_object := Mejorado.next_object s;
     Mejorado.actions := Mejorado.actions s |}.

(** Anything but a click on the record button. *)
Definition not_record_click (ev : Mejorado.UIEvent) : bool :=
  match ev with
  | Mejorado.ClickRecord _ => false
  | _ => true
  end.

(** The flags of [g] had the audio libraries been there. *)
Definition with_audio (g : Mejorado.Globals) : Mejorado.Globals :=
  {| Mejorado.AUDIO_AVAILABLE := true;
     Mejorado.CREWAI_AVAILABLE := Mejorado.CREWAI_AVAILABLE g |}.

(** A crew of three tasks in which the second has exactly the first as
    its context and the third exactly the first and the second, in that
    order. *)
Definition hands_off (c : Crew) : Prop :=
  exists planning coding review : Task,
    tasks c = [planning; coding; review]
    /\ context planning = []
    /\ context coding = [planning]
    /\ context review = [planning; coding].

(** Every call of the pipeline proper, in the order of the source. *)
Definition pipeline_calls : list Call := calls_before_kickoff ++ kickoff_calls.

(** The archive [create_plugin_package] is to leave for a result. *)
Definition plugin_name (env : Env) : string := "qgis_plugin_" +:+ now_stamp env.

Definition expected_zip_path (env : Env) : path :=
  cwd env ++ [plugin_name env +:+ ".zip"].

Definition expected_archive (env : Env) (result_text : string) : node :=
  File (Archive [([plugin_name env; "resultado.txt"], Text result_text)]).

(** ** The recorders *)

(** The two variants of the program. *)
Inductive Variant := main_app | main_app_mejorado.

(** [AudioRecorder.run] of a variant. *)
Definition AudioRecorder_run (v : Variant) (g : Mejorado.Globals) (env : Env)
    : M World unit :=
  match v with
  | main_app => Basic.AudioRecorder_run env
  | main_app_mejorado => Mejorado.AudioRecorder_run g env
  end.

(** The variant's recorder gets past its guard. *)
Definition audio_on (v : Variant) (g : Mejorado.Globals) : bool :=
  match v with
  | main_app => true
  | main_app_mejorado => Mejorado.AUDIO_AVAILABLE g
  end.

(** What a recorder puts before the message of a failed transcription. *)
Definition whisper_prefix (v : Variant) : string :=
  match v with
  | main_app => "Error al cargar o transcribir con Whisper: "
  | main_app_mejorado => "Error en transcripción: "
  end.

(** One outcome signal, then at most the report of a failed
    [os.unlink]. *)
Definition one_outcome (env : Env) (l : list Signal) : Prop :=
  exists (first : Signal) (rest : list Signal),
    l = first :: rest
    /\ (first = finished (transcript env) \/ exists m, first = error m)
    /\ (rest = []
        \/ exists e, raises env Os_unlink = Some e /\ rest = [error e]).

(** The calls of a recording up to the saved wav, [stream.read] apart. *)
Definition capture_calls : list Call :=
  [ PyAudio_init; Stream_open; Stream_stop; Stream_close; PyAudio_terminate;
    Tempfile_new ].

Definition whisper_calls : list Call := [Whisper_load; Whisper_transcribe].

(** [stream.read] does not raise during the recording. *)
Definition reads_ok (env : Env) : Prop :=
  mic_chunks env = [] \/ raises env Stream_read = None.

(** The world a recorder leaves after a recording that went through. *)
Definition recorded (env : Env) (d : fs) (last : list Event) : World :=
  {| trace := AudioOpened :: (ChunkRead <$> mic_chunks env) ++ last;
     files := d; p_audio := true; stream := Some false |}.

(** Whisper is not installed properly. *)
Definition env_no_whisper : Env := failing env_ok Whisper_load "model not found".


(** ** The two exits of a computation *)

(** [r] is a return in a state where [Q] holds of the value, or an
    exception in a state where [E] holds of it. *)
Definition ends {S A} (r : (exn + A) * S) (Q : A -> S -> Prop)
    (E : exn -> S -> Prop) : Prop :=
  match r with
  | (inr a, s') => Q a s'
  | (inl e, s') => E e s'
  end.

(** ** Packaging *)

(** The directories above the one [mkdtemp] picks exist. *)
Definition tmp_root_exists (env : Env) (d : fs) : Prop :=
  forall n : nat,
    0 < n < length (tmp_dir env) -> d !! take n (tmp_dir env) = Some Dir.

(** A path that is neither the archive's nor at or below the staging
    directory. *)
Definition outside (env : Env) (p : path) : Prop :=
  p <> expected_zip_path env /\ ~ tmp_dir env `prefix_of` p.

(** [d'] agrees with [d] outside, and the directories above the staging
    directory are in place. *)
Definition packaging_frame (env : Env) (d d' : fs) : Prop :=
  (forall p : path, outside env p -> d' !! p = d !! p)
  /\ tmp_root_exists env d'.

(** The first two steps of packaging go through: the clock and
    [mkdtemp] do not raise and the staging directory's name is free. *)
Definition staged (env : Env) (d : fs) : Prop :=
  raises env Datetime_now = None
  /\ raises env Mkdtemp = None
  /\ d !! tmp_dir env = None.

(** The file packaging writes into the staging directory. *)
Definition staged_file (env : Env) : path :=
  (tmp_dir env ++ [plugin_name env]) ++ ["resultado.txt"].

(** ** The windows *)

(** While the progress bar shows, the buttons that [generate_plugin]
    disables are disabled. *)
Definition Basic_locked (s : Basic.UI) : Prop :=
  Basic.progress_bar_visible s = true ->
  Basic.generate_button_enabled s = false
  /\ Basic.record_button_enabled s = false.

Definition Mejorado_locked (s : Mejorado.UI) : Prop :=
  Mejorado.progress_bar_visible s = true ->
  Mejorado.generate_button_enabled s = false
  /\ Mejorado.record_button_enabled s = false
  /\ Mejorado.save_button_enabled s = false.

(** A request as a generator should get it: not empty, and with nothing
    left for [strip] to remove. *)
Definition stripped (r : string) : Prop := r <> "" /\ strip r = r.

(** A configuration whose three texts are filled in. *)
Definition filled_in (c : Config) : Prop :=
  cfg_name c <> "" /\ cfg_version c <> "" /\ cfg_author c <> "".

(** The requests, with their configurations, of the generators a window
    has constructed. *)
Definition Basic_requests (l : list Basic.Action) : list string :=
  omap (fun a => match a with
                 | Basic.NewPluginGenerator _ r => Some r
                 | _ => None
                 end) l.

Definition Mejorado_requests (l : list Mejorado.Action)
    : list (string * Config) :=
  omap (fun a => match a with
                 | Mejorado.NewPluginGenerator _ r c => Some (r, c)
                 | _ => None
                 end) l.

(** A history entry as [on_generation_finished] writes it: the request
    cut to a hundred characters with three dots after it, the time of
    the entry, and a filled-in configuration. *)
Definition history_entry_ok (env : Env) (e : Mejorado.PluginInfo) : Prop :=
  (exists x, Mejorado.info_request e = x +:+ "...")
  /\ py_len (Mejorado.info_request e) <= 103
  /\ Mejorado.info_timestamp e = now_display env
  /\ filled_in (Mejorado.info_config e).


(** ** The history view *)

Definition history_header : string := "<h3>Historial de Plugins Generados</h3>".

Definition history_notice : string :=
  "<p><em>No hay plugins generados aún.</em></p>".

(** The cards of the plugins, each numbered by its place in the order
    of generation, the first plugin generated being number one. *)
Definition numbered_cards (l : list Mejorado.PluginInfo) : list string :=
  imap (fun k plugin => Mejorado.history_card (S k) plugin) l.

(** The history tab shows the history: nothing while there is none, the
    document of [update_history] otherwise. *)
Definition history_in_sync (s : Mejorado.Full.Desk) : Prop :=
  Mejorado.Full.history_list s =
  match Mejorado.generated_plugins (Mejorado.Full.window s) with
  | [] => ""
  | l => Mejorado.history_html l
  end.

(** ** The save dialog *)

(** The console line of a successful [save_result]. *)
Definition saved_line (p : path) : string :=
  "💾 <span style='color: #4CAF50;'>Resultado guardado en:</span> "
  +:+ "<span style='color: #E0E0E0;'>" +:+ path_str p +:+ "</span>".

(** The dialog [save_result] opens. *)
Definition save_dialog (env : Env) : Mejorado.Full.SaveDialog :=
  {| Mejorado.Full.dialog_title := "Guardar Resultado";
     Mejorado.Full.dialog_suggested :=
       "resultado_plugin_" +:+ now_stamp env +:+ ".txt";
     Mejorado.Full.dialog_filter :=
       "Archivos de texto (*.txt);;Todos los archivos (*)" |}.

(** The label of the record button when nothing is being recorded. *)
Definition idle_label : string := "🎤 Grabar Voz".


(** * Properties *)

(** ** Paths and the disk *)

Lemma common_prefix_len_app (a b : path) :
  common_prefix_len a (a ++ b) = length a.
Proof.
  induction a as [|x a IH]; simpl.
  - by destruct b.
  - rewrite String.eqb_refl. by rewrite IH.
Qed.

Lemma relpath_below (top rest : path) :
  rest <> [] -> relpath (top ++ rest) top = rest.
Proof.
  intros Hne. unfold relpath.
  rewrite common_prefix_len_app, Nat.sub_diag, drop_app_length. simpl.
  by destruct rest.
Qed.

(** On a well-formed disk nothing lies below a name that is free. *)
Lemma fs_wf_free_below (m : fs) (t : path) :
  fs_wf m -> m !! t = None ->
  forall p : path, t `prefix_of` p -> m !! p = None.
Proof.
  intros Hwf Ht p [k ->].
  induction k as [|c k IH] using rev_ind.
  - by rewrite app_nil_r.
  - destruct (m !! (t ++ k ++ [c])) as [n|] eqn:E; [|done].
    rewrite app_assoc in E. apply Hwf in E. congruence.
Qed.

Lemma fs_wf_check (m : fs) : fs_wfb m = true -> fs_wf m.
Proof.
  unfold fs_wfb, fs_wf. rewrite forallb_forall. intros H p c n Hp.
  assert (Hin : In (p ++ [c]) (map_to_list m).*1).
  { apply list_elem_of_In, list_elem_of_fmap. exists (p ++ [c], n).
    split; [done|]. by apply elem_of_map_to_list. }
  specialize (H _ Hin). cbv beta in H. rewrite removelast_last in H.
  destruct (p ++ [c]) eqn:E; [by destruct p|].
  destruct (m !! p) as [[]|]; congruence.
Qed.

Lemma makedirs_from_spec (rest base : path) (m m' : fs) :
  makedirs_from base rest m = inr m' ->
  (forall q n, m !! q = Some n -> m' !! q = Some n)
  /\ (forall q, m !! q = None ->
        m' !! q = None
        \/ (m' !! q = Some Dir /\ base `prefix_of` q
            /\ q `prefix_of` base ++ rest /\ q <> base))
  /\ (rest <> [] -> m' !! (base ++ rest) = Some Dir).
Proof.
  revert base m. induction rest as [|c r IH]; intros base m H; simpl in H.
  - inversion H; subst. repeat split; auto. done.
  - assert (Hd : base `prefix_of` base ++ [c]) by (by exists [c]).
    assert (Hne : base ++ [c] <> base).
    { intros E. apply (f_equal length) in E. rewrite length_app in E.
      simpl in E. lia. }
    assert (Happ : (base ++ [c]) ++ r = base ++ c :: r)
      by (by rewrite <- app_assoc).
    assert (Hlong : forall q, base ++ [c] `prefix_of` q -> q <> base).
    { intros q [k ->] E. apply (f_equal length) in E.
      rewrite !length_app in E. simpl in E. lia. }
    destruct (m !! (base ++ [c])) as [[|f]|] eqn:E; [| done |].
    + destruct (IH _ _ H) as (H1 & H2 & H3). rewrite Happ in *.
      split; [auto|]. split.
      * intros q Hq. destruct (H2 q Hq) as [?|(? & ? & ? & ?)]; [by left|].
        right. repeat split; auto. by etrans.
      * intros _. destruct r as [|c' r'].
        { simpl in H. inversion H; subst. done. }
        by apply H3.
    + destruct (IH _ _ H) as (H1 & H2 & H3). rewrite Happ in *.
      split.
      { intros q n Hq. apply H1. rewrite lookup_insert_ne; [done|].
        intros <-. congruence. }
      split.
      * intros q Hq. destruct (decide (q = base ++ [c])) as [->|Hq'].
        { right. split; [apply H1, lookup_insert_eq|].
          repeat split; auto. by exists r. }
        destruct (H2 q) as [?|(? & ? & ? & ?)].
        { by rewrite lookup_insert_ne. }
        { by left. }
        right. repeat split; auto. by etrans.
      * intros _. destruct r as [|c' r'].
        { simpl in H. inversion H; subst. apply lookup_insert_eq. }
        by apply H3.
Qed.

(** ** Reading a successful run backwards *)

Lemma bind_inr {S A B} (m : M S A) (k : A -> M S B) s b s' :
  bind m k s = (inr b, s') ->
  exists a s1, m s = (inr a, s1) /\ k a s1 = (inr b, s').
Proof.
  unfold bind. destruct (m s) as [[e|a] s1]; [done|]. eauto.
Qed.

Lemma call_inr {S} env c (s s' : S) u :
  call env c s = (inr u, s') -> raises env c = None /\ s' = s.
Proof.
  unfold call. destruct (raises env c); [done|]. unfold ret.
  by inversion 1.
Qed.

Lemma try_finally_inr {S A} (body : M S A) (final : M S unit) s a s' :
  try_finally body final s = (inr a, s') ->
  exists s1, body s = (inr a, s1) /\ final s1 = (inr tt, s').
Proof.
  unfold try_finally. destruct (body s) as [r s1].
  destruct (final s1) as [[e|[]] s2] eqn:E; [done|].
  inversion 1; subst. eauto.
Qed.

Lemma get_inr {S} (s a s' : S) : get s = (inr a, s') -> a = s /\ s' = s.
Proof. by inversion 1. Qed.

Lemma put_inr {S} (x s s' : S) u : put x s = (inr u, s') -> s' = x.
Proof. by inversion 1. Qed.

Lemma ret_inr {S A} (a b : A) (s s' : S) :
  ret a s = (inr b, s') -> b = a /\ s' = s.
Proof. by inversion 1. Qed.

Ltac simp_prim H :=
  lazymatch type of H with
  | call _ _ _ = (inr _, _) => apply call_inr in H as [_ ->]
  | get _ = (inr _, _) => apply get_inr in H as [-> ->]
  | put _ _ = (inr _, _) => apply put_inr in H as ->
  | ret _ _ = (inr _, _) => apply ret_inr in H as [-> ->]
  | _ => idtac
  end.

(** Split [H : (let* x := m in k) s = (inr b, s')] at its first step. *)
Ltac inv_step H :=
  let a := fresh "a" in
  let s := fresh "s" in
  let H1 := fresh "H" in
  apply bind_inr in H as (a & s & H1 & H); simp_prim H1.

Tactic Notation "inv_bind" hyp(H) "as" ident(a) ident(s) ident(H1) :=
  apply bind_inr in H as (a & s & H1 & H); simp_prim H1.

Ltac inv_binds H :=
  repeat (lazymatch type of H with bind _ _ _ = (inr _, _) => inv_step H end);
  simp_prim H.

(** What each file-system call has done when it returns. *)
Section Returned.

Variable env : Env.

Lemma strftime_now_inr d ts d' :
  strftime_now env d = (inr ts, d') -> ts = now_stamp env /\ d' = d.
Proof. unfold strftime_now. intros H. by inv_binds H. Qed.

Lemma mkdtemp_inr d t d' :
  mkdtemp env d = (inr t, d') ->
  t = tmp_dir env /\ d !! t = None /\ d' = <[t := Dir]> d.
Proof.
  unfold mkdtemp. intros H. do 2 inv_step H.
  destruct (d !! tmp_dir env) eqn:E; [done|]. by inv_binds H.
Qed.

Lemma makedirs_inr p d u d' :
  makedirs env p d = (inr u, d') ->
  d !! p = None /\ makedirs_from [] p d = inr d'.
Proof.
  unfold makedirs. intros H. do 2 inv_step H.
  destruct (d !! p) eqn:E; [done|].
  destruct (makedirs_from [] p d) eqn:E'; [done|]. by inv_binds H.
Qed.

Lemma write_text_inr p text d u d' :
  write_text env p text d = (inr u, d') ->
  d' = <[p := File (Text text)]> d.
Proof.
  unfold write_text. intros H. do 2 inv_step H.
  assert (Hgo : (put (<[p:=File (Text "")]> d);;
                 call env File_write;;
                 (let* d := get in put (<[p:=File (Text text)]> d))) d
                = (inr u, d') -> d' = <[p := File (Text text)]> d).
  { clear H. intros H. inv_binds H. by rewrite insert_insert_eq. }
  destruct (d !! removelast p) as [[|?]|]; [|done..].
  destruct (d !! p) as [[|?]|]; [done|by apply Hgo..].
Qed.

Lemma getcwd_inr d c d' :
  getcwd env d = (inr c, d') ->
  c = cwd env /\ d' = d /\ d !! c = Some Dir.
Proof.
  unfold getcwd. intros H. do 2 inv_step H.
  destruct (d !! cwd env) as [[|?]|] eqn:E; [|done..]. by inv_binds H.
Qed.

Lemma zip_open_inr zp d u d' :
  zip_open env zp d = (inr u, d') ->
  d !! zp <> Some Dir /\ d' = <[zp := File (Archive [])]> d.
Proof.
  unfold zip_open. intros H. do 2 inv_step H.
  destruct (d !! removelast zp) as [[|?]|]; [|done..].
  destruct (d !! zp) as [[|?]|]; [done|by inv_binds H..].
Qed.

Lemma zip_write_file_inr zp file_path arcname c es d u d' :
  d !! file_path = Some (File c) ->
  d !! zp = Some (File (Archive es)) ->
  zip_write env zp file_path arcname d = (inr u, d') ->
  d' = <[zp := File (Archive (es ++ [(arcname, c)]))]> d.
Proof.
  unfold zip_write. intros Hf Hz H. do 2 inv_step H.
  rewrite Hf, Hz in H. by inv_binds H.
Qed.

Lemma rmtree_inr top d u d' :
  rmtree env top d = (inr u, d') ->
  d' = filter (fun kv => ~ top `prefix_of` kv.1) d.
Proof.
  unfold rmtree. intros H. do 2 inv_step H.
  destruct (d !! top) as [[|?]|]; [|done..]. by inv_binds H.
Qed.

End Returned.

(** A list without repetition that holds exactly [x] is [[x]]. *)
Lemma NoDup_only {A} (l : list A) (x : A) :
  NoDup l -> (forall y, y ∈ l <-> y = x) -> l = [x].
Proof.
  intros Hnd H. destruct l as [|a l].
  - exfalso. eapply not_elem_of_nil. apply H. reflexivity.
  - assert (a = x) as -> by (apply H; left).
    destruct l as [|b l]; [done|].
    assert (b = x) as -> by (apply H; right; left).
    apply NoDup_cons in Hnd as [Hn _]. exfalso. apply Hn. left.
Qed.

Lemma walk_files_only (m : fs) (top file : path) :
  top `prefix_of` file -> file <> top ->
  (exists c, m !! file = Some (File c)) ->
  (forall p c, top `prefix_of` p -> m !! p = Some (File c) -> p = file) ->
  walk_files m top = [file].
Proof.
  intros Hpre Hne [c Hc] Honly. apply NoDup_only.
  - apply NoDup_filter, NoDup_fst_map_to_list.
  - intros p. unfold walk_files. rewrite list_elem_of_filter. split.
    + intros ((Hp & _ & Hf) & _).
      destruct (m !! p) as [[|c']|] eqn:E; try done. by eapply Honly.
    + intros ->. rewrite Hc. repeat split; auto.
      apply list_elem_of_fmap. exists (file, File c). split; [done|].
      by apply elem_of_map_to_list.
Qed.

(** ** [create_plugin_package] *)

Lemma prefix_snoc_inv (t p : path) (c : string) :
  t `prefix_of` p ++ [c] -> t `prefix_of` p \/ t = p ++ [c].
Proof.
  intros [k Hk]. destruct k as [|x k _] using rev_ind.
  - right. by rewrite app_nil_r in Hk.
  - left. rewrite app_assoc in Hk. apply app_inj_tail in Hk as [-> _].
    by exists k.
Qed.

(** What a run of the packaging body that returns has done. *)
Lemma create_plugin_package_body_inr (env : Env) (result_text : string) (d : fs)
    (zip_path : path) (d' : fs) :
  fs_wf d -> ~ tmp_dir env `prefix_of` cwd env ->
  Mejorado.create_plugin_package_body env result_text d = (inr zip_path, d') ->
  zip_path = cwd env ++ [("qgis_plugin_" +:+ now_stamp env) +:+ ".zip"]
  /\ d' !! zip_path =
       Some (File (Archive [(["qgis_plugin_" +:+ now_stamp env; "resultado.txt"],
                             Text result_text)]))
  /\ (forall p : path, tmp_dir env `prefix_of` p -> d' !! p = None).
Proof.
  intros Hwf Hcwd H. unfold Mejorado.create_plugin_package_body in H.
  inv_bind H as ts d0 H0. apply strftime_now_inr in H0 as [-> ->].
  set (name := "qgis_plugin_" +:+ now_stamp env) in *.
  inv_bind H as tmp d1 H1. apply mkdtemp_inr in H1 as (Htmp & Hfree & ->).
  inv_bind H as u2 d2 H2. apply makedirs_inr in H2 as [_ Hmk].
  apply makedirs_from_spec in Hmk as (Hkeep & Hnew & _). simpl in Hnew.
  inv_bind H as u3 d3 H3. apply write_text_inr in H3 as ->.
  inv_bind H as c d4 H4. apply getcwd_inr in H4 as (-> & -> & Hc).
  set (zp := cwd env ++ [name +:+ ".zip"]) in H |- *.
  set (file := (tmp ++ [name]) ++ ["resultado.txt"]) in H, Hc.
  inv_bind H as u5 d5 H5. apply zip_open_inr in H5 as [Hnd ->].
  inv_bind H as u6 d6 H6. apply try_finally_inr in H6 as (d7 & Hloop & Hclose).
  inv_bind H as u8 d8 H8. apply rmtree_inr in H8 as ->.
  simp_prim H. simp_prim Hclose. inv_bind Hloop as d9 d10 H9.
  rewrite <- Htmp.
  (* the disk below the staging directory *)
  assert (Hbelow : forall p, tmp `prefix_of` p -> d !! p = None)
    by (by apply fs_wf_free_below).
  assert (Htd : d2 !! tmp = Some Dir) by apply Hkeep, lookup_insert_eq.
  assert (Htf : tmp `prefix_of` file).
  { exists [name; "resultado.txt"]. subst file. by rewrite <- app_assoc. }
  assert (Hft : file <> tmp).
  { intros E. apply (f_equal length) in E. subst file.
    rewrite !length_app in E. simpl in E. lia. }
  assert (Hzp : ~ tmp `prefix_of` zp).
  { intros Hp. apply prefix_snoc_inv in Hp as [Hp|E].
    - apply Hcwd. by rewrite <- Htmp.
    - apply Hnd. unfold zp. rewrite <- E. by rewrite lookup_insert_ne. }
  assert (Hfz : file <> zp) by (intros E; by rewrite E in Htf).
  assert (Hs2 : forall p c, tmp `prefix_of` p -> d2 !! p <> Some (File c)).
  { intros p c Hp E. destruct (decide (p = tmp)) as [->|Hpt]; [congruence|].
    destruct (Hnew p) as [?|(? & _)]; [|congruence..].
    rewrite lookup_insert_ne by done. by apply Hbelow. }
  erewrite walk_files_only in Hloop; first last.
  - intros p c Hp E. destruct (decide (p = zp)) as [->|Hpz].
    { exfalso. apply Hzp. etrans; [|exact Hp]. by exists [name]. }
    rewrite lookup_insert_ne in E by done.
    destruct (decide (p = file)) as [->|Hpf]; [done|].
    rewrite lookup_insert_ne in E by done.
    exfalso. eapply Hs2; [|exact E]. etrans; [|exact Hp]. by exists [name].
  - exists (Text result_text). rewrite lookup_insert_ne by done.
    apply lookup_insert_eq.
  - intros E. apply (f_equal length) in E. subst file.
    rewrite !length_app in E. simpl in E. lia.
  - by exists ["resultado.txt"].
  - simpl in Hloop. inv_bind Hloop as u11 d11 H11. simp_prim Hloop.
    eapply zip_write_file_inr in H11; first last.
    + apply lookup_insert_eq.
    + rewrite lookup_insert_ne by done. apply lookup_insert_eq.
    + subst d11. split; [done|]. split.
      * apply map_lookup_filter_Some_2; [|done].
        rewrite insert_insert_eq, lookup_insert_eq. subst file.
        rewrite <- app_assoc. by rewrite relpath_below.
      * intros p Hp. apply map_lookup_filter_None. right. intros x _ Hx.
        by apply Hx.
Qed.

(** [create_plugin_package] turns an exception of its body into
    [None]. *)
Lemma create_plugin_package_cases (env : Env) (result_text : string) (d : fs) :
  match Mejorado.create_plugin_package_body env result_text d with
  | (inl _, d1) =>
      Mejorado.create_plugin_package env result_text d = (inr None, d1)
  | (inr zip_path, d1) =>
      Mejorado.create_plugin_package env result_text d =
      (inr (Some zip_path), d1)
  end.
Proof.
  unfold Mejorado.create_plugin_package, try_catch, bind.
  by destruct (Mejorado.create_plugin_package_body env result_text d)
    as [[e|zp] d1].
Qed.

(** ** What [run] leaves in the trace *)

Ltac unfold_run :=
  unfold first_raise, setup_calls, agent_task_calls, kickoff_calls,
    generation_error, kickoff, Crew_new, Task_new, Agent_new, LLM_new,
    emit, log, call, try_catch, bind, modify, ret, raise, start;
  cbn [trace files p_audio stream app].

Ltac next_call env c :=
  destruct (raises env c); [reflexivity|].

(** [Basic.run] never raises, and its trace is decided by the first call
    that does. *)
Lemma Basic_run_trace (env : Env) (user_request : string) (d : fs) :
  Basic.run env user_request (start d) =
  (inr tt,
   {| trace :=
        Emit (progress "Inicializando sistema multiagente...") ::
        match first_raise env setup_calls with
        | Some e => [Emit (generation_error e)]
        | None =>
            Emit (progress "Creando equipo de agentes...") ::
            match raises env Crew_init with
            | Some e => [Emit (generation_error e)]
            | None =>
                [ CrewCreated (Basic.the_crew user_request);
                  Emit (progress "Ejecutando generación del plugin...");
                  Kickoff (Basic.the_crew user_request);
                  match first_raise env kickoff_calls with
                  | Some e => Emit (generation_error e)
                  | None =>
                      Emit (finished
                              (kickoff_output env (Basic.the_crew user_request)))
                  end ]
            end
        end;
      files := d; p_audio := false; stream := None |}).
Proof.
  unfold Basic.run. unfold_run.
  next_call env LLM_init.
  next_call env (Agent_init Planner).
  next_call env (Agent_init Coder).
  next_call env (Agent_init Reviewer).
  next_call env (Task_init Planner).
  next_call env (Task_init Coder).
  next_call env (Task_init Reviewer).
  next_call env Crew_init.
  next_call env Crew_kickoff.
  next_call env Result_str.
  reflexivity.
Qed.

Lemma create_plugin_package_total (env : Env) (result_text : string) (d : fs) :
  exists (r : option path) (d' : fs),
    Mejorado.create_plugin_package env result_text d = (inr r, d').
Proof.
  unfold Mejorado.create_plugin_package, try_catch, bind.
  destruct (Mejorado.create_plugin_package_body env result_text d)
    as [[e|zp] d1]; eauto.
Qed.

(** [Mejorado.run] never raises; its trace and the disk it leaves are
    decided by the flag, the first call that raises, and the outcome of
    packaging. *)
Lemma Mejorado_run_trace (g : Mejorado.Globals) (env : Env)
    (user_request : string) (plugin_config : option Config) (d : fs) :
  let crew := Mejorado.the_crew env user_request plugin_config in
  let result := kickoff_output env crew in
  let packaged := Mejorado.create_plugin_package env result d in
  Mejorado.run g env user_request plugin_config (start d) =
  (inr tt,
   if negb (Mejorado.CREWAI_AVAILABLE g) then
     world_of [Emit (error "CrewAI no está disponible. Instala crewai.")] d
   else
     match raises env LLM_init with
     | Some e =>
         world_of
           [ Emit (progress "Inicializando sistema multiagente...");
             Emit (error ("Error conectando con Ollama: " +:+ e)) ] d
     | None =>
     match first_raise env agent_task_calls with
     | Some e =>
         world_of
           [ Emit (progress "Inicializando sistema multiagente...");
             Emit (generation_error e) ] d
     | None =>
     match raises env Crew_init with
     | Some e =>
         world_of
           [ Emit (progress "Inicializando sistema multiagente...");
             Emit (progress "Creando equipo de agentes...");
             Emit (generation_error e) ] d
     | None =>
     match first_raise env kickoff_calls with
     | Some e =>
         world_of
           [ Emit (progress "Inicializando sistema multiagente...");
             Emit (progress "Creando equipo de agentes...");
             CrewCreated crew;
             Emit (progress "Ejecutando generación del plugin...");
             Kickoff crew;
             Emit (generation_error e) ] d
     | None =>
         world_of
           [ Emit (progress "Inicializando sistema multiagente...");
             Emit (progress "Creando equipo de agentes...");
             CrewCreated crew;
             Emit (progress "Ejecutando generación del plugin...");
             Kickoff crew;
             match packaged.1, emit_none_raises env with
             | inr None, Some e => Emit (generation_error e)
             | inr zip_path, _ => Emit (finished_zip result zip_path)
             | inl e, _ => Emit (generation_error e)
             end ]
           packaged.2
     end end end end).
Proof.
  intros crew result packaged.
  unfold Mejorado.run, world_of.
  destruct (Mejorado.CREWAI_AVAILABLE g); cbn [negb]; [|reflexivity].
  unfold_run.
  next_call env LLM_init.
  next_call env (Agent_init Planner).
  next_call env (Agent_init Coder).
  next_call env (Agent_init Reviewer).
  next_call env (Task_init Planner).
  next_call env (Task_init Coder).
  next_call env (Task_init Reviewer).
  next_call env Crew_init.
  next_call env Crew_kickoff.
  next_call env Result_str.
  unfold on_disk, Mejorado.emit_finished. cbn [trace files p_audio stream app].
  subst packaged result crew.
  unfold Mejorado.the_crew, Mejorado.the_review, Mejorado.the_coding,
    Mejorado.the_planning, Mejorado.the_llm.
  match goal with
  | |- context [Mejorado.create_plugin_package env ?txt d] =>
      destruct (create_plugin_package_total env txt d) as (r & d' & E);
      rewrite E
  end.
  unfold emit, log, modify, raise. cbn [fst snd trace files p_audio stream app].
  destruct r, (emit_none_raises env); reflexivity.
Qed.

(** ** The windows *)

(** Run a handler of [main_app.py] on a symbolic window, call by
    value, without unfolding its texts. *)
Ltac run_ui :=
  cbv [andb Basic.after Basic.handle Basic.generate_plugin Basic.toggle_recording
       Basic.start_recording Basic.stop_recording
       Basic.on_transcription_finished Basic.on_transcription_error
       Basic.on_generation_progress Basic.on_generation_finished
       Basic.on_generation_error Basic.clear_all Basic.show_error
       Basic.console_append Basic.act Basic.new_object
       Basic.set_text_input Basic.set_output_console
       Basic.set_record_button_text Basic.set_record_button_enabled
       Basic.set_generate_button_enabled Basic.set_progress_bar_visible
       Basic.set_audio_recorder Basic.set_plugin_generator
       try_catch bind get modify ret fst snd negb
       Basic.text_input Basic.output_console Basic.record_button_text
       Basic.record_button_enabled Basic.generate_button_enabled
       Basic.progress_bar_visible Basic.audio_recorder
       Basic.plugin_generator Basic.next_object Basic.actions
       Basic.recorder_id Basic.recording].

(** The same for [main_app_mejorado.py]. *)
Ltac run_ui2 :=
  cbv [andb Mejorado.after Mejorado.handle Mejorado.generate_plugin
       Mejorado.toggle_recording Mejorado.start_recording
       Mejorado.stop_recording Mejorado.on_transcription_finished
       Mejorado.on_transcription_error Mejorado.on_generation_progress
       Mejorado.on_generation_finished Mejorado.on_generation_error
       Mejorado.clear_all Mejorado.clear_history Mejorado.show_error
       Mejorado.show_welcome_message Mejorado.append_to_console
       Mejorado.act Mejorado.new_object
       Mejorado.set_text_input Mejorado.set_output_console
       Mejorado.set_record_button_text Mejorado.set_record_button_enabled
       Mejorado.set_generate_button_enabled Mejorado.set_save_button_enabled
       Mejorado.set_progress_bar_visible Mejorado.set_status_bar
       Mejorado.set_config_widget Mejorado.set_generated_plugins
       Mejorado.set_audio_recorder Mejorado.set_plugin_generator
       try_catch bind get modify ret fst snd negb
       Mejorado.text_input Mejorado.output_console
       Mejorado.record_button_text Mejorado.record_button_enabled
       Mejorado.generate_button_enabled Mejorado.save_button_enabled
       Mejorado.progress_bar_visible Mejorado.status_bar
       Mejorado.config_widget Mejorado.generated_plugins
       Mejorado.audio_recorder Mejorado.plugin_generator
       Mejorado.next_object Mejorado.actions
       Mejorado.recorder_id Mejorado.recording].

Ltac workers_step :=
  unfold Basic.constructed, Basic.started, Mejorado.constructed,
    Mejorado.started;
  rewrite <- ?app_assoc, ?omap_app;
  cbn [omap list_omap app]; by rewrite ?app_nil_r.

Ltac workers_done := first [left; workers_step | right; workers_step].

(** What one handler of [main_app.py] does to the worker objects: it
    constructs one with the next identity and starts it, or it touches
    none. *)
Lemma Basic_handle_workers (ev : Basic.UIEvent) (s : Basic.UI) :
  let s' := Basic.after (Basic.handle ev) s in
  (Basic.constructed (Basic.actions s') =
     Basic.constructed (Basic.actions s) ++ [Basic.next_object s]
   /\ Basic.started (Basic.actions s') =
        Basic.started (Basic.actions s) ++ [Basic.next_object s]
   /\ Basic.next_object s' = S (Basic.next_object s))
  \/ (Basic.constructed (Basic.actions s') = Basic.constructed (Basic.actions s)
      /\ Basic.started (Basic.actions s') = Basic.started (Basic.actions s)
      /\ Basic.next_object s' = Basic.next_object s).
Proof.
  destruct s as [text console label rec_on gen_on bar recorder generator n acts].
  destruct ev as [t|isRunning| | |sig|sig]; run_ui.
  - workers_done.
  - destruct recorder as [[id rec]|]; run_ui; [|workers_done].
    destruct isRunning, rec; run_ui; workers_done.
  - destruct (truthy (strip text)); run_ui; workers_done.
  - workers_done.
  - destruct sig; run_ui; try workers_done.
    destruct (truthy (strip result)); workers_done.
  - destruct sig; run_ui; workers_done.
Qed.


Lemma Mejorado_handle_workers (g : Mejorado.Globals) (env : Env)
    (ev : Mejorado.UIEvent) (s : Mejorado.UI) :
  let s' := Mejorado.after (Mejorado.handle g env ev) s in
  (Mejorado.constructed (Mejorado.actions s') =
     Mejorado.constructed (Mejorado.actions s) ++ [Mejorado.next_object s]
   /\ Mejorado.started (Mejorado.actions s') =
        Mejorado.started (Mejorado.actions s) ++ [Mejorado.next_object s]
   /\ Mejorado.next_object s' = S (Mejorado.next_object s))
  \/ (Mejorado.constructed (Mejorado.actions s') =
        Mejorado.constructed (Mejorado.actions s)
      /\ Mejorado.started (Mejorado.actions s') =
           Mejorado.started (Mejorado.actions s)
      /\ Mejorado.next_object s' = Mejorado.next_object s).
Proof.
  destruct s as [text console label rec_on gen_on save_on bar status cw
                 history recorder generator n acts].
  destruct ev as [t|c|isRunning|yes| | |sig|sig]; run_ui2.
  - workers_done.
  - workers_done.
  - destruct (Mejorado.AUDIO_AVAILABLE g); run_ui2; [|workers_done].
    destruct recorder as [[id rec]|]; run_ui2; [|workers_done].
    destruct isRunning, rec; run_ui2; workers_done.
  - destruct (Mejorado.CREWAI_AVAILABLE g); run_ui2; [|workers_done].
    destruct (truthy (strip text)); run_ui2; [|workers_done].
    destruct (py_len (strip text) <? 20); run_ui2; [|workers_done].
    destruct yes; run_ui2; workers_done.
  - workers_done.
  - workers_done.
  - destruct sig; run_ui2; try workers_done.
    destruct (truthy (strip result)); workers_done.
  - destruct sig; run_ui2; try workers_done.
    destruct zip_path; workers_done.
Qed.

(** No identity is handed out twice, so no worker is started twice. *)
Lemma Basic_session_workers (evs : list Basic.UIEvent) (s : Basic.UI) :
  NoDup (Basic.constructed (Basic.actions s)) ->
  (forall id, id ∈ Basic.constructed (Basic.actions s) -> id < Basic.next_object s) ->
  Basic.started (Basic.actions s) = Basic.constructed (Basic.actions s) ->
  let s' := Basic.session evs s in
  NoDup (Basic.constructed (Basic.actions s'))
  /\ Basic.started (Basic.actions s') = Basic.constructed (Basic.actions s').
Proof.
  revert s. induction evs as [|ev evs IH]; intros s Hnd Hlt Heq; [done|].
  cbn. apply IH;
    destruct (Basic_handle_workers ev s) as [(Hc & Hs & Hn)|(Hc & Hs & Hn)];
    cbv zeta in Hc, Hs, Hn; rewrite ?Hc, ?Hs, ?Hn; try done.
  - apply NoDup_app. split; [done|]. split; [|apply NoDup_singleton].
    intros id Hid ->%list_elem_of_singleton. apply Hlt in Hid. lia.
  - intros id [Hid| ->%list_elem_of_singleton]%elem_of_app; [|lia].
    apply Hlt in Hid. lia.
  - by rewrite Heq.
Qed.

Lemma Mejorado_session_workers (g : Mejorado.Globals) (env : Env)
    (evs : list Mejorado.UIEvent) (s : Mejorado.UI) :
  NoDup (Mejorado.constructed (Mejorado.actions s)) ->
  (forall id, id ∈ Mejorado.constructed (Mejorado.actions s) ->
     id < Mejorado.next_object s) ->
  Mejorado.started (Mejorado.actions s) = Mejorado.constructed (Mejorado.actions s) ->
  let s' := Mejorado.session g env evs s in
  NoDup (Mejorado.constructed (Mejorado.actions s'))
  /\ Mejorado.started (Mejorado.actions s') =
       Mejorado.constructed (Mejorado.actions s').
Proof.
  revert s. induction evs as [|ev evs IH]; intros s Hnd Hlt Heq; [done|].
  cbn. apply IH;
    destruct (Mejorado_handle_workers g env ev s)
      as [(Hc & Hs & Hn)|(Hc & Hs & Hn)];
    cbv zeta in Hc, Hs, Hn; rewrite ?Hc, ?Hs, ?Hn; try done.
  - apply NoDup_app. split; [done|]. split; [|apply NoDup_singleton].
    intros id Hid ->%list_elem_of_singleton. apply Hlt in Hid. lia.
  - intros id [Hid| ->%list_elem_of_singleton]%elem_of_app; [|lia].
    apply Hlt in Hid. lia.
  - by rewrite Heq.
Qed.
(** * The claims about the window *)

Lemma Basic_init_workers :
  NoDup (Basic.constructed (Basic.actions Basic.init))
  /\ (forall id, id ∈ Basic.constructed (Basic.actions Basic.init) ->
        id < Basic.next_object Basic.init)
  /\ Basic.started (Basic.actions Basic.init) =
       Basic.constructed (Basic.actions Basic.init).
Proof.
  cbn. repeat split; [apply NoDup_nil_2|].
  intros id Hid. by apply not_elem_of_nil in Hid.
Qed.

Lemma Mejorado_init_workers (g : Mejorado.Globals) :
  NoDup (Mejorado.constructed (Mejorado.actions (Mejorado.init g)))
  /\ (forall id, id ∈ Mejorado.constructed (Mejorado.actions (Mejorado.init g)) ->
        id < Mejorado.next_object (Mejorado.init g))
  /\ Mejorado.started (Mejorado.actions (Mejorado.init g)) =
       Mejorado.constructed (Mejorado.actions (Mejorado.init g)).
Proof.
  cbn. repeat split; [apply NoDup_nil_2|].
  intros id Hid. by apply not_elem_of_nil in Hid.
Qed.

(** C6 (amended). Every operation gets a worker of its own.  In both
    variants, an invocation of [generate_plugin] that gets past its
    guards constructs one [PluginGenerator], with an identity no object
    had before and carrying that request, keeps it in
    [self.plugin_generator] and starts exactly it; an invocation stopped
    by a guard constructs and starts nothing.  A click on the record
    button that begins a recording session constructs one new
    [AudioRecorder] and starts exactly it.  Over any sequence of events
    from the initial window, the workers started are the workers
    constructed, one start each: none is started twice. *)
Theorem fresh_worker_per_operation :
  (forall s : Basic.UI,
     let s' := Basic.after Basic.generate_plugin s in
     let new := if Basic_proceeds s then [Basic.next_object s] else [] in
     Basic.constructed (Basic.actions s') =
       Basic.constructed (Basic.actions s) ++ new
     /\ Basic.started (Basic.actions s') = Basic.started (Basic.actions s) ++ new
     /\ Basic.plugin_generator s' =
          if Basic_proceeds s then
            Some {| Basic.generator_id := Basic.next_object s;
                    Basic.user_request := strip (Basic.text_input s) |}
          else Basic.plugin_generator s)
  /\ (forall (s : Basic.UI) (isRunning : bool),
        let s' := Basic.after (Basic.toggle_recording isRunning) s in
        let starts :=
          starts_recording (Basic.recording <$> Basic.audio_recorder s) isRunning in
        let new := if starts then [Basic.next_object s] else [] in
        Basic.constructed (Basic.actions s') =
          Basic.constructed (Basic.actions s) ++ new
        /\ Basic.started (Basic.actions s') =
             Basic.started (Basic.actions s) ++ new
        /\ Basic.recorder_id <$> Basic.audio_recorder s' =
             if starts then Some (Basic.next_object s)
             else Basic.recorder_id <$> Basic.audio_recorder s)
  /\ (forall evs : list Basic.UIEvent,
        let log := Basic.actions (Basic.session evs Basic.init) in
        NoDup (Basic.started log) /\ Basic.started log = Basic.constructed log)
  /\ (forall (g : Mejorado.Globals) (env : Env) (yes : bool) (s : Mejorado.UI),
        let s' := Mejorado.after (Mejorado.generate_plugin g env yes) s in
        let new :=
          if Mejorado_proceeds g s yes then [Mejorado.next_object s] else [] in
        Mejorado.constructed (Mejorado.actions s') =
          Mejorado.constructed (Mejorado.actions s) ++ new
        /\ Mejorado.started (Mejorado.actions s') =
             Mejorado.started (Mejorado.actions s) ++ new
        /\ Mejorado.plugin_generator s' =
             if Mejorado_proceeds g s yes then
               Some {| Mejorado.generator_id := Mejorado.next_object s;
                       Mejorado.user_request := strip (Mejorado.text_input s);
                       Mejorado.plugin_config :=
                         Some (Mejorado.get_config (Mejorado.config_widget s)) |}
             else Mejorado.plugin_generator s)
  /\ (forall (g : Mejorado.Globals) (s : Mejorado.UI) (isRunning : bool),
        let s' := Mejorado.after (Mejorado.toggle_recording g isRunning) s in
        let starts :=
          Mejorado.AUDIO_AVAILABLE g
          && starts_recording (Mejorado.recording <$> Mejorado.audio_recorder s)
               isRunning in
        let new := if starts then [Mejorado.next_object s] else [] in
        Mejorado.constructed (Mejorado.actions s') =
          Mejorado.constructed (Mejorado.actions s) ++ new
        /\ Mejorado.started (Mejorado.actions s') =
             Mejorado.started (Mejorado.actions s) ++ new
        /\ Mejorado.recorder_id <$> Mejorado.audio_recorder s' =
             if starts then Some (Mejorado.next_object s)
             else Mejorado.recorder_id <$> Mejorado.audio_recorder s)
  /\ (forall (g : Mejorado.Globals) (env : Env) (evs : list Mejorado.UIEvent),
        let log := Mejorado.actions (Mejorado.session g env evs (Mejorado.init g)) in
        NoDup (Mejorado.started log)
        /\ Mejorado.started log = Mejorado.constructed log).
Proof.
  repeat apply conj.
  - intros [text console label rec_on gen_on bar recorder generator n acts].
    unfold Basic_proceeds. run_ui.
    destruct (truthy (strip text)); run_ui; repeat split; workers_step.
  - intros [text console label rec_on gen_on bar recorder generator n acts]
      isRunning.
    unfold starts_recording. run_ui.
    destruct recorder as [[id rec]|]; [destruct isRunning, rec|];
      run_ui; repeat split; workers_step.
  - intros evs.
    destruct Basic_init_workers as (Hnd & Hlt & Heq).
    destruct (Basic_session_workers evs _ Hnd Hlt Heq) as [Hnd' Heq'].
    cbv zeta. by rewrite Heq'.
  - intros g env yes
      [text console label rec_on gen_on save_on bar status cw
       history recorder generator n acts].
    unfold Mejorado_proceeds. run_ui2.
    destruct (Mejorado.CREWAI_AVAILABLE g); run_ui2;
      [|repeat split; workers_step].
    destruct (truthy (strip text)); run_ui2; [|repeat split; workers_step].
    destruct (py_len (strip text) <? 20); run_ui2;
      [destruct yes; run_ui2|]; repeat split; workers_step.
  - intros g
      [text console label rec_on gen_on save_on bar status cw
       history recorder generator n acts] isRunning.
    unfold starts_recording. run_ui2.
    destruct (Mejorado.AUDIO_AVAILABLE g); run_ui2;
      [|repeat split; workers_step].
    destruct recorder as [[id rec]|]; [destruct isRunning, rec|];
      run_ui2; repeat split; workers_step.
  - intros g env evs.
    destruct (Mejorado_init_workers g) as (Hnd & Hlt & Heq).
    destruct (Mejorado_session_workers g env evs _ Hnd Hlt Heq) as [Hnd' Heq'].
    cbv zeta. by rewrite Heq'.
Qed.

(** C6, as stated, fails: an invocation of [generate_plugin] need not
    construct a [PluginGenerator].  With only blanks typed it constructs
    none, in either variant; and in the improved variant a request of
    fewer than twenty characters that the user declines to confirm is
    dropped without a worker. *)
Lemma guarded_click_builds_no_worker :
  Basic.actions (Basic.after Basic.generate_plugin blank_basic) =
    [ Basic.MessageCritical "Error"
        "Por favor, ingresa una descripción del plugin que deseas crear." ]
  /\ Basic.plugin_generator (Basic.after Basic.generate_plugin blank_basic) = None
  /\ strip (Mejorado.text_input short_mejorado) = "buffer de 100 m"
  /\ Mejorado.actions
       (Mejorado.after (Mejorado.generate_plugin all_available env_ok false)
          short_mejorado) =
       [ Mejorado.MessageQuestion "Descripción corta"
           "La descripción parece muy corta. ¿Deseas continuar de todos modos?" ]
  /\ Mejorado.plugin_generator
       (Mejorado.after (Mejorado.generate_plugin all_available env_ok false)
          short_mejorado) = None.
Proof. vm_compute. by repeat split. Qed.

(** C8. When the text is empty after stripping whitespace,
    [generate_plugin] reports an error and returns, and that is all it
    does: the window afterwards is the window before with one error line
    added to the console and one critical message box shown.  No worker
    is constructed or started, [self.plugin_generator] and the identity
    counter are untouched, and the generate button, the record button and
    the progress bar are as they were, so buttons that were enabled
    remain enabled and a hidden bar remains hidden.  In the improved
    variant the error shown is the one about the request when CrewAI is
    available, and the one about CrewAI otherwise. *)
Theorem blank_request_is_refused (s : Basic.UI) (g : Mejorado.Globals)
    (env : Env) (yes : bool) (s2 : Mejorado.UI) :
  strip (Basic.text_input s) = "" ->
  strip (Mejorado.text_input s2) = "" ->
  let message :=
    "Por favor, ingresa una descripción del plugin que deseas crear." in
  let message2 :=
    if Mejorado.CREWAI_AVAILABLE g then message
    else "CrewAI no está disponible. Instala crewai para usar esta funcionalidad." in
  Basic.after Basic.generate_plugin s =
    {| Basic.text_input := Basic.text_input s;
       Basic.output_console :=
         Basic.output_console s ++ ["❌ Error: " +:+ message];
       Basic.record_button_text := Basic.record_button_text s;
       Basic.record_button_enabled := Basic.record_button_enabled s;
       Basic.generate_button_enabled := Basic.generate_button_enabled s;
       Basic.progress_bar_visible := Basic.progress_bar_visible s;
       Basic.audio_recorder := Basic.audio_recorder s;
       Basic.plugin_generator := Basic.plugin_generator s;
       Basic.next_object := Basic.next_object s;
       Basic.actions :=
         Basic.actions s ++ [Basic.MessageCritical "Error" message] |}
  /\ Mejorado.after (Mejorado.generate_plugin g env yes) s2 =
       {| Mejorado.text_input := Mejorado.text_input s2;
          Mejorado.output_console :=
            Mejorado.output_console s2 ++ [Mejorado.error_line message2];
          Mejorado.record_button_text := Mejorado.record_button_text s2;
          Mejorado.record_button_enabled := Mejorado.record_button_enabled s2;
          Mejorado.generate_button_enabled :=
            Mejorado.generate_button_enabled s2;
          Mejorado.save_button_enabled := Mejorado.save_button_enabled s2;
          Mejorado.progress_bar_visible := Mejorado.progress_bar_visible s2;
          Mejorado.status_bar := Mejorado.status_bar s2;
          Mejorado.config_widget := Mejorado.config_widget s2;
          Mejorado.generated_plugins := Mejorado.generated_plugins s2;
          Mejorado.audio_recorder := Mejorado.audio_recorder s2;
          Mejorado.plugin_generator := Mejorado.plugin_generator s2;
          Mejorado.next_object := Mejorado.next_object s2;
          Mejorado.actions :=
            Mejorado.actions s2 ++ [Mejorado.MessageCritical "Error" message2] |}.
Proof.
  destruct s as [text console label rec_on gen_on bar recorder generator n acts].
  destruct s2 as [text2 console2 label2 rec_on2 gen_on2 save_on2 bar2 status2
                  cw2 history2 recorder2 generator2 n2 acts2].
  cbn [Basic.text_input Mejorado.text_input]. intros H H2. cbv zeta. split.
  - run_ui. rewrite H. reflexivity.
  - run_ui2. destruct (Mejorado.CREWAI_AVAILABLE g); run_ui2; [|reflexivity].
    rewrite H2. reflexivity.
Qed.

Lemma blank_request_is_refused_witness :
  strip (Basic.text_input blank_basic) = ""
  /\ strip (Mejorado.text_input blank_mejorado) = ""
  /\ Basic.actions (Basic.after Basic.generate_plugin blank_basic) =
       [Basic.MessageCritical "Error"
          "Por favor, ingresa una descripción del plugin que deseas crear."]
  /\ Mejorado.plugin_generator
       (Mejorado.after (Mejorado.generate_plugin all_available env_ok true)
          blank_mejorado) = None.
Proof.
  assert (H1 : strip (Basic.text_input blank_basic) = "")
    by (vm_compute; reflexivity).
  assert (H2 : strip (Mejorado.text_input blank_mejorado) = "")
    by (vm_compute; reflexivity).
  split; [exact H1|]. split; [exact H2|].
  destruct (blank_request_is_refused blank_basic all_available env_ok true
              blank_mejorado H1 H2) as [Ha Hb].
  split; [by rewrite Ha | by rewrite Hb].
Defined.

Ltac run_deliver :=
  cbv [Basic.deliver Basic.session Mejorado.deliver Mejorado.session
       signals omap list_omap fmap list_fmap foldl generation_error
       world_of trace snd].

(** C10. After either terminal outcome of a generation run the window is
    ready again: [on_generation_finished] and [on_generation_error] both
    leave the generate button enabled, the record button enabled (in the
    improved variant: enabled exactly when audio is available) and the
    progress bar hidden, whatever the window was before.  Hence, once
    the signals of any run of the generator have been delivered, the
    window is ready. *)
Theorem ready_after_outcome :
  (forall (s : Basic.UI) (result : string),
     Basic_ready (Basic.after (Basic.on_generation_finished result) s))
  /\ (forall (s : Basic.UI) (err : string),
        Basic_ready (Basic.after (Basic.on_generation_error err) s))
  /\ (forall (env : Env) (request : string) (d : fs) (s : Basic.UI),
        Basic_ready
          (Basic.deliver (trace (Basic.run env request (start d)).2) s))
  /\ (forall (g : Mejorado.Globals) (env : Env) (s : Mejorado.UI)
             (result : string) (zip_path : option path),
        Mejorado_ready g
          (Mejorado.after (Mejorado.on_generation_finished g env result zip_path) s))
  /\ (forall (g : Mejorado.Globals) (s : Mejorado.UI) (err : string),
        Mejorado_ready g (Mejorado.after (Mejorado.on_generation_error g err) s))
  /\ (forall (g : Mejorado.Globals) (env : Env) (request : string)
             (config : option Config) (d : fs) (s : Mejorado.UI),
        Mejorado_ready g
          (Mejorado.deliver g env
             (trace (Mejorado.run g env request config (start d)).2) s)).
Proof.
  unfold Basic_ready, Mejorado_ready. repeat apply conj.
  - intros [text console label rec_on gen_on bar recorder generator n acts] r.
    run_ui. by repeat split.
  - intros [text console label rec_on gen_on bar recorder generator n acts] e.
    run_ui. by repeat split.
  - intros env request d
      [text console label rec_on gen_on bar recorder generator n acts].
    rewrite Basic_run_trace.
    destruct (first_raise env setup_calls);
      [|destruct (raises env Crew_init);
        [|destruct (first_raise env kickoff_calls)]];
      run_deliver; run_ui; by repeat split.
  - intros g env
      [text console label rec_on gen_on save_on bar status cw
       history recorder generator n acts] r zp.
    run_ui2. destruct zp; run_ui2; by repeat split.
  - intros g
      [text console label rec_on gen_on save_on bar status cw
       history recorder generator n acts] e.
    run_ui2. by repeat split.
  - intros g env request config d
      [text console label rec_on gen_on save_on bar status cw
       history recorder generator n acts].
    rewrite Mejorado_run_trace. cbv zeta.
    destruct (Mejorado.CREWAI_AVAILABLE g); cbn [negb];
      [|run_deliver; run_ui2; by repeat split].
    destruct (raises env LLM_init);
      [run_deliver; run_ui2; by repeat split|].
    destruct (first_raise env agent_task_calls);
      [run_deliver; run_ui2; by repeat split|].
    destruct (raises env Crew_init);
      [run_deliver; run_ui2; by repeat split|].
    destruct (first_raise env kickoff_calls);
      [run_deliver; run_ui2; by repeat split|].
    destruct (Mejorado.create_plugin_package env _ d) as [[e|[zp|]] d'];
      cbn [fst snd]; try destruct (emit_none_raises env);
      run_deliver; run_ui2; by repeat split.
Qed.

Ltac run_ui2g :=
  do 3 (run_ui2;
        cbv [with_audio Mejorado.CREWAI_AVAILABLE Mejorado.AUDIO_AVAILABLE]).

Lemma audio_blind_step (g : Mejorado.Globals) (env : Env)
    (ev : Mejorado.UIEvent) (s1 s2 : Mejorado.UI) :
  not_record_click ev = true ->
  audio_blind s1 = audio_blind s2 ->
  audio_blind (Mejorado.after (Mejorado.handle g env ev) s1) =
  audio_blind (Mejorado.after (Mejorado.handle (with_audio g) env ev) s2).
Proof.
  destruct s1 as [text console label rec_on gen_on save_on bar status cw
                  history recorder generator n acts].
  destruct s2 as [text2 console2 label2 rec_on2 gen_on2 save_on2 bar2 status2
                  cw2 history2 recorder2 generator2 n2 acts2].
  destruct g as [audio crewai].
  intros Hev Heq. injection Heq as <- <- <- <- <- <- <- <- <- <- <- <-.
  destruct ev as [t|c|isRunning|yes| | |sig|sig]; try discriminate;
    run_ui2g; try reflexivity.
  - destruct crewai; run_ui2g; [|reflexivity].
    destruct (truthy (strip text)); run_ui2g; [|reflexivity].
    destruct (py_len (strip text) <? 20); run_ui2g; [|reflexivity].
    destruct yes; reflexivity.
  - destruct sig; run_ui2g; try reflexivity.
    destruct (truthy (strip result)); reflexivity.
  - destruct sig; run_ui2g; try reflexivity.
    destruct zip_path; reflexivity.
Qed.

Lemma audio_blind_session (g : Mejorado.Globals) (env : Env)
    (evs : list Mejorado.UIEvent) (s1 s2 : Mejorado.UI) :
  forallb not_record_click evs = true ->
  audio_blind s1 = audio_blind s2 ->
  audio_blind (Mejorado.session g env evs s1) =
  audio_blind (Mejorado.session (with_audio g) env evs s2).
Proof.
  revert s1 s2. induction evs as [|ev evs IH]; intros s1 s2 Hevs Heq; [done|].
  cbn in Hevs. apply andb_true_iff in Hevs as [Hev Hevs].
  cbn. apply IH; [done|]. by apply audio_blind_step.
Qed.

Lemma record_button_step (g : Mejorado.Globals) (env : Env)
    (ev : Mejorado.UIEvent) (s : Mejorado.UI) :
  Mejorado.AUDIO_AVAILABLE g = false ->
  Mejorado.record_button_enabled s = false ->
  Mejorado.record_button_enabled (Mejorado.after (Mejorado.handle g env ev) s)
  = false.
Proof.
  destruct s as [text console label rec_on gen_on save_on bar status cw
                 history recorder generator n acts].
  destruct g as [audio crewai].
  cbn [Mejorado.AUDIO_AVAILABLE Mejorado.record_button_enabled].
  intros -> ->.
  destruct ev as [t|c|isRunning|yes| | |sig|sig]; run_ui2g; try reflexivity.
  - destruct crewai; run_ui2g; [|reflexivity].
    destruct (truthy (strip text)); run_ui2g; [|reflexivity].
    destruct (py_len (strip text) <? 20); run_ui2g; [|reflexivity].
    destruct yes; reflexivity.
  - destruct sig; run_ui2g; try reflexivity.
    destruct (truthy (strip result)); reflexivity.
  - destruct sig; run_ui2g; try reflexivity.
    destruct zip_path; reflexivity.
Qed.

Lemma record_button_session (g : Mejorado.Globals) (env : Env)
    (evs : list Mejorado.UIEvent) (s : Mejorado.UI) :
  Mejorado.AUDIO_AVAILABLE g = false ->
  Mejorado.record_button_enabled s = false ->
  Mejorado.record_button_enabled (Mejorado.session g env evs s) = false.
Proof.
  intros Hg. revert s. induction evs as [|ev evs IH]; intros s Hs; [done|].
  cbn. apply IH. by apply record_button_step.
Qed.

(** C7. The speech front end of main_app_mejorado.py is optional.  When
    PyQt5 is installed and PyAudio or Whisper is not, the module still
    loads, with
    [AUDIO_AVAILABLE] false, and the window opens with the record button
    disabled and keeps it disabled whatever happens.  Running the recorder emits the one error signal
    "Audio no disponible..." and nothing else: no device is opened, no
    chunk read.  A click on the record button shows an error and builds
    no recorder.  Generation is unaffected: [PluginGenerator.run] and
    [generate_plugin] behave as they would with audio available, and over
    any events other than clicks on the record button the window differs
    from the one with audio only in the record button's enabled flag and
    the console. *)
Theorem speech_is_optional (i : Installed) (env : Env) :
  has_pyqt5 i = true ->
  has_pyaudio i && has_whisper i = false ->
  exists g : Mejorado.Globals,
    Mejorado.import_module i = Some g
    /\ Mejorado.AUDIO_AVAILABLE g = false
    /\ Mejorado.CREWAI_AVAILABLE g = has_crewai i
    /\ (forall evs : list Mejorado.UIEvent,
          Mejorado.record_button_enabled
            (Mejorado.session g env evs (Mejorado.init g)) = false)
    /\ Mejorado.generate_button_enabled (Mejorado.init g) = has_crewai i
    /\ (forall d : fs,
          Mejorado.AudioRecorder_run g env (start d) =
          (inr tt,
           world_of
             [Emit (error "Audio no disponible. Instala pyaudio y whisper.")] d))
    /\ (forall (s : Mejorado.UI) (isRunning : bool),
          let s' := Mejorado.after (Mejorado.toggle_recording g isRunning) s in
          Mejorado.actions s' =
            Mejorado.actions s ++
            [Mejorado.MessageCritical "Error"
               "Funcionalidad de audio no disponible. Instala pyaudio y whisper."]
          /\ Mejorado.audio_recorder s' = Mejorado.audio_recorder s
          /\ Mejorado.next_object s' = Mejorado.next_object s)
    /\ (forall (request : string) (config : option Config) (w : World),
          Mejorado.run g env request config w =
          Mejorado.run (with_audio g) env request config w)
    /\ (forall (yes : bool) (s : Mejorado.UI),
          Mejorado.generate_plugin g env yes s =
          Mejorado.generate_plugin (with_audio g) env yes s)
    /\ (forall evs : list Mejorado.UIEvent,
          forallb not_record_click evs = true ->
          audio_blind (Mejorado.session g env evs (Mejorado.init g)) =
          audio_blind
            (Mejorado.session (with_audio g) env evs
               (Mejorado.init (with_audio g)))).
Proof.
  intros Hqt Haudio. unfold Mejorado.import_module. rewrite Hqt, Haudio.
  eexists. split; [reflexivity|]. cbn [Mejorado.AUDIO_AVAILABLE
    Mejorado.CREWAI_AVAILABLE Mejorado.init Mejorado.record_button_enabled
    Mejorado.generate_button_enabled].
  repeat apply conj; try reflexivity.
  - intros evs. by apply record_button_session.
  - intros [text console label rec_on gen_on save_on bar status cw
            history recorder generator n acts] isRunning.
    run_ui2. cbn [Mejorado.AUDIO_AVAILABLE]. run_ui2. by repeat split.
  - intros evs Hevs. by apply audio_blind_session.
Qed.

Lemma speech_is_optional_witness :
  has_pyqt5 without_pyaudio = true
  /\ has_pyaudio without_pyaudio && has_whisper without_pyaudio
     = false
  /\ exists g : Mejorado.Globals,
       Mejorado.import_module without_pyaudio = Some g
       /\ Mejorado.record_button_enabled (Mejorado.init g) = false
       /\ signals (trace (Mejorado.AudioRecorder_run g env_ok (start disk0)).2) =
            [error "Audio no disponible. Instala pyaudio y whisper."].
Proof.
  assert (H1 : has_pyqt5 without_pyaudio = true) by reflexivity.
  assert (H2 : has_pyaudio without_pyaudio
               && has_whisper without_pyaudio = false) by reflexivity.
  split; [exact H1|]. split; [exact H2|].
  destruct (speech_is_optional without_pyaudio env_ok H1 H2)
    as (g & Hg & _ & _ & Hrec & _ & Hrun & _).
  exists g. split; [exact Hg|]. split; [exact (Hrec [])|].
  rewrite Hrun. reflexivity.
Defined.

(** * The claim about packaging *)

(** C9. For every result text, [create_plugin_package] returns and never
    raises.  It returns [None] exactly when its body raised.  Otherwise
    it returns the path of [qgis_plugin_<timestamp>.zip] in the current
    working directory; that file is an archive whose only file entry is
    [qgis_plugin_<timestamp>/resultado.txt] holding exactly the result
    text, and nothing is left at or below the staging directory.  (The
    disk is well-formed, and the working directory is not inside the
    directory [mkdtemp] is about to create.) *)
Theorem create_plugin_package_spec (env : Env) (result_text : string) (d : fs) :
  fs_wf d -> ~ tmp_dir env `prefix_of` cwd env ->
  exists (r : option path) (d' : fs),
    Mejorado.create_plugin_package env result_text d = (inr r, d')
    /\ match Mejorado.create_plugin_package_body env result_text d with
       | (inl e, d1) => r = None /\ d' = d1
       | (inr zip_path, d1) =>
           r = Some zip_path /\ d' = d1
           /\ zip_path = cwd env ++ [("qgis_plugin_" +:+ now_stamp env) +:+ ".zip"]
           /\ d' !! zip_path =
                Some (File (Archive
                  [(["qgis_plugin_" +:+ now_stamp env; "resultado.txt"],
                    Text result_text)]))
           /\ (forall p : path, tmp_dir env `prefix_of` p -> d' !! p = None)
       end.
Proof.
  intros Hwf Hcwd. unfold Mejorado.create_plugin_package, try_catch, bind.
  destruct (Mejorado.create_plugin_package_body env result_text d)
    as [[e|zp] d1] eqn:E.
  - by exists None, d1.
  - exists (Some zp), d1. split; [done|].
    destruct (create_plugin_package_body_inr _ _ _ _ _ Hwf Hcwd E) as (? & ? & ?).
    by repeat split.
Qed.


Lemma create_plugin_package_spec_witness :
  fs_wf disk0
  /\ ~ tmp_dir env_ok `prefix_of` cwd env_ok
  /\ exists d' : fs,
       Mejorado.create_plugin_package env_ok "# plugin" disk0 =
         (inr (Some ["home"; "user"; "qgis_plugin_20250101_120000.zip"]), d')
       /\ d' !! ["home"; "user"; "qgis_plugin_20250101_120000.zip"] =
            Some (File (Archive
              [(["qgis_plugin_20250101_120000"; "resultado.txt"],
                Text "# plugin")]))
       /\ d' !! ["tmp"; "tmpk3f9x2"] = None.
Proof.
  assert (H1 : fs_wf disk0) by (apply fs_wf_check; vm_compute; reflexivity).
  assert (H2 : ~ tmp_dir env_ok `prefix_of` cwd env_ok)
    by (apply (bool_decide_unpack _); vm_compute; exact I).
  split; [exact H1|]. split; [exact H2|].
  destruct (create_plugin_package_spec env_ok "# plugin" disk0 H1 H2)
    as (r & d' & E & Hspec).
  assert (Hbody : (Mejorado.create_plugin_package_body env_ok "# plugin" disk0).1
                  = inr ["home"; "user"; "qgis_plugin_20250101_120000.zip"])
    by (vm_compute; reflexivity).
  destruct (Mejorado.create_plugin_package_body env_ok "# plugin" disk0)
    as [[e|zp] d1]; [discriminate|].
  injection Hbody as ->. destruct Hspec as (-> & -> & _ & Hfile & Htmp).
  exists d1. split; [exact E|]. split; [exact Hfile|].
  apply Htmp. reflexivity.
Defined.

(** * The claims about the generator *)

(** The outcomes of a run, one goal each. *)
Ltac basic_cases env :=
  rewrite Basic_run_trace;
  destruct (first_raise env setup_calls);
  [|destruct (raises env Crew_init);
    [|destruct (first_raise env kickoff_calls)]].

Ltac mejorado_cases g env d :=
  rewrite Mejorado_run_trace; cbv zeta;
  destruct (Mejorado.CREWAI_AVAILABLE g); cbn [negb];
  [destruct (raises env LLM_init);
   [|destruct (first_raise env agent_task_calls);
     [|destruct (raises env Crew_init);
       [|destruct (first_raise env kickoff_calls);
         [|destruct (Mejorado.create_plugin_package env _ d)
             as [[?|[?|]] ?]; cbn [fst snd];
           try destruct (emit_none_raises env)]]]]|].

Ltac all_crews :=
  cbn; repeat (apply Forall_cons_2; [by split|]); apply Forall_nil_2.

Lemma Basic_hands_off (request : string) : hands_off (Basic.the_crew request).
Proof. by eexists _, _, _. Qed.

Lemma Mejorado_hands_off (env : Env) (request : string) (config : option Config) :
  hands_off (Mejorado.the_crew env request config).
Proof. by eexists _, _, _. Qed.

(** C1. For every user request, in both variants: the crew the pipeline
    builds has the tasks [planning; coding; review]; the coding task's
    context is exactly [[planning]] and the review task's context is
    exactly [[planning; coding]].  Every crew a run creates, and every
    crew it kicks off, is that crew. *)
Theorem context_handoff (g : Mejorado.Globals) (env : Env) (request : string)
    (config : option Config) (d : fs) :
  let tb := trace (Basic.run env request (start d)).2 in
  let tm := trace (Mejorado.run g env request config (start d)).2 in
  context (Basic.the_coding request) = [Basic.the_planning request]
  /\ context (Basic.the_review request) =
       [Basic.the_planning request; Basic.the_coding request]
  /\ context (Mejorado.the_coding env request config) =
       [Mejorado.the_planning env request config]
  /\ context (Mejorado.the_review env request config) =
       [Mejorado.the_planning env request config;
        Mejorado.the_coding env request config]
  /\ Forall (fun c => c = Basic.the_crew request /\ hands_off c)
       (crews_created tb ++ kickoffs tb)
  /\ Forall (fun c => c = Mejorado.the_crew env request config /\ hands_off c)
       (crews_created tm ++ kickoffs tm).
Proof.
  cbv zeta. do 4 (split; [reflexivity|]).
  pose proof (Basic_hands_off request).
  pose proof (Mejorado_hands_off env request config).
  split; [basic_cases env|mejorado_cases g env d]; all_crews.
Qed.

Lemma first_raise_app (env : Env) (a b : list Call) :
  first_raise env (a ++ b) =
  match first_raise env a with
  | Some e => Some e
  | None => first_raise env b
  end.
Proof.
  induction a as [|c a IH]; [done|]. cbn. by destruct (raises env c).
Qed.

(** Bring [first_raise env pipeline_calls] to the nesting of the trace
    lemmas. *)
Ltac nest_calls :=
  unfold pipeline_calls, calls_before_kickoff;
  rewrite ?first_raise_app;
  change (first_raise ?env [Crew_init]) with
    (match raises env Crew_init with Some e => Some e | None => None end).

Ltac nest_calls_llm :=
  nest_calls;
  change (first_raise ?env setup_calls) with
    (match raises env LLM_init with
     | Some e => Some e
     | None => first_raise env agent_task_calls
     end).

(** C2 (amended). For every user request, in both variants: the crew has
    exactly the agents [planner; coder; reviewer], each with a role of
    its own, and exactly the tasks [planning; coding; review], each task
    given to the agent of its stage.  A run constructs that crew and invokes [kickoff] on it
    exactly once when no call before [kickoff] raises (and, in the
    improved variant, CrewAI is available); otherwise it constructs no
    crew and never invokes [kickoff].  So [kickoff] is invoked at most
    once per generation. *)
Theorem pipeline_order (g : Mejorado.Globals) (env : Env) (request : string)
    (config : option Config) (d : fs) :
  let tb := trace (Basic.run env request (start d)).2 in
  let tm := trace (Mejorado.run g env request config (start d)).2 in
  let cb := Basic.the_crew request in
  let cm := Mejorado.the_crew env request config in
  (agents cb =
     [ Basic.planner_agent Basic.the_llm; Basic.coder_agent Basic.the_llm;
       Basic.reviewer_agent Basic.the_llm ]
   /\ tasks cb =
        [ Basic.the_planning request; Basic.the_coding request;
          Basic.the_review request ]
   /\ task_agent <$> tasks cb = agents cb
   /\ role <$> agents cb =
        [ "Analista de Requisitos"; "Desarrollador de QGIS";
          "Revisor de Código y Empaquetador" ])
  /\ (agents cm =
        [ Mejorado.planner_agent Mejorado.the_llm;
          Mejorado.coder_agent Mejorado.the_llm;
          Mejorado.reviewer_agent Mejorado.the_llm ]
      /\ tasks cm =
           [ Mejorado.the_planning env request config;
             Mejorado.the_coding env request config;
             Mejorado.the_review env request config ]
      /\ task_agent <$> tasks cm = agents cm
      /\ role <$> agents cm =
           [ "Analista de Requisitos para QGIS";
             "Desarrollador Senior de PyQGIS";
             "Revisor de Código y Especialista en Empaquetado" ])
  /\ crews_created tb =
       match first_raise env calls_before_kickoff with
       | None => [cb]
       | Some _ => []
       end
  /\ kickoffs tb = crews_created tb
  /\ crews_created tm =
       (if Mejorado.CREWAI_AVAILABLE g then
          match first_raise env calls_before_kickoff with
          | None => [cm]
          | Some _ => []
          end
        else [])
  /\ kickoffs tm = crews_created tm.
Proof.
  cbv zeta. do 2 (split; [by repeat split|]).
  split; [|split]; [| |split].
  - nest_calls. basic_cases env; reflexivity.
  - basic_cases env; reflexivity.
  - nest_calls_llm. mejorado_cases g env d; reflexivity.
  - mejorado_cases g env d; reflexivity.
Qed.

(** C2, as stated, fails: when the LLM cannot be built (improved
    variant) or an agent is rejected (basic variant), the generation
    never invokes [kickoff]. *)
Lemma kickoff_not_invoked :
  kickoffs (trace (Mejorado.run all_available env_no_llm a_request None
                     (start disk0)).2) = []
  /\ length (kickoffs (trace (Mejorado.run all_available env_no_llm a_request
                                None (start disk0)).2)) <> 1
  /\ kickoffs (trace (Basic.run env_bad_agent a_request (start disk0)).2) = []
  /\ signals (trace (Mejorado.run all_available env_no_llm a_request None
                       (start disk0)).2) =
       [ progress "Inicializando sistema multiagente...";
         error "Error conectando con Ollama: Connection refused" ].
Proof. vm_compute. repeat split. discriminate. Qed.

(** C5 (amended). For every generation run, in both variants: the
    progress messages emitted are an initial segment of
    'Inicializando sistema multiagente...', 'Creando equipo de
    agentes...', 'Ejecutando generación del plugin...', in that order,
    and all three whenever the run reaches [kickoff]; the run emits
    exactly one signal that is finished or error, never both and never
    neither, and that signal is the last one it emits. *)
Theorem progress_then_one_outcome (g : Mejorado.Globals) (env : Env)
    (request : string) (config : option Config) (d : fs) :
  let tb := trace (Basic.run env request (start d)).2 in
  let tm := trace (Mejorado.run g env request config (start d)).2 in
  (progress_messages tb `prefix_of` three_progress_messages
   /\ (kickoffs tb = [] \/ progress_messages tb = three_progress_messages)
   /\ length (finished_signals tb) + length (error_messages tb) = 1
   /\ exists s, last (signals tb) = Some s /\ is_terminal s = true)
  /\ (progress_messages tm `prefix_of` three_progress_messages
      /\ (kickoffs tm = [] \/ progress_messages tm = three_progress_messages)
      /\ length (finished_signals tm) + length (error_messages tm) = 1
      /\ exists s, last (signals tm) = Some s /\ is_terminal s = true).
Proof.
  cbv zeta. split; [basic_cases env|mejorado_cases g env d];
    (split; [eexists; reflexivity|]);
    (split; [first [by left | by right]|]);
    (split; [reflexivity|]);
    eexists; split; reflexivity.
Qed.

(** C5, as stated, fails: a run whose LLM cannot be built emits only the
    first of the three progress messages. *)
Lemma progress_cut_short :
  progress_messages (trace (Basic.run env_no_llm a_request (start disk0)).2) =
    ["Inicializando sistema multiagente..."]
  /\ progress_messages (trace (Basic.run env_no_llm a_request (start disk0)).2)
     <> three_progress_messages
  /\ progress_messages
       (trace (Mejorado.run all_available env_no_llm a_request None
                 (start disk0)).2) =
       ["Inicializando sistema multiagente..."].
Proof. vm_compute. repeat split. discriminate. Qed.

(** C4 (amended). For every exception raised by one of the pipeline's own
    calls (building the LLM, the agents, the tasks and the crew,
    [kickoff], the conversion of its result), in both variants: the
    exception is caught, exactly one error signal is emitted and it
    carries the exception's message, no finished signal is emitted, and
    nothing is retried ([kickoff] is invoked at most once).  When none
    of these calls raises, the basic variant emits finished and no error.
    In the improved variant an exception raised inside
    [create_plugin_package] is caught there and turns its result into
    [None]; the run then still emits finished, with no path, unless
    emitting [None] itself raises, which is reported like a pipeline
    exception. *)
Theorem single_catch_and_report (g : Mejorado.Globals) (env : Env)
    (request : string) (config : option Config) (d : fs) :
  let tb := trace (Basic.run env request (start d)).2 in
  let tm := trace (Mejorado.run g env request config (start d)).2 in
  let result := kickoff_output env (Mejorado.the_crew env request config) in
  match first_raise env pipeline_calls with
  | Some e =>
      error_messages tb = ["Error en la generación del plugin: " +:+ e]
      /\ finished_signals tb = []
      /\ last (signals tb) = Some (generation_error e)
  | None =>
      error_messages tb = []
      /\ finished_signals tb =
           [finished (kickoff_output env (Basic.the_crew request))]
  end
  /\ length (kickoffs tb) <= 1
  /\ (Mejorado.CREWAI_AVAILABLE g = false
      \/ match first_raise env pipeline_calls with
         | Some e =>
             error_messages tm =
               [ match raises env LLM_init with
                 | Some _ => "Error conectando con Ollama: "
                 | None => "Error en la generación del plugin: "
                 end +:+ e ]
             /\ finished_signals tm = []
         | None =>
             match (Mejorado.create_plugin_package env result d).1,
                   emit_none_raises env with
             | inr None, Some e =>
                 error_messages tm = ["Error en la generación del plugin: " +:+ e]
                 /\ finished_signals tm = []
             | inr zip_path, _ =>
                 error_messages tm = []
                 /\ finished_signals tm = [finished_zip result zip_path]
             | inl _, _ => False
             end
         end)
  /\ length (kickoffs tm) <= 1
  /\ (forall (result_text : string) (d0 : fs),
        match Mejorado.create_plugin_package_body env result_text d0 with
        | (inl _, d1) =>
            Mejorado.create_plugin_package env result_text d0 = (inr None, d1)
        | (inr zip_path, d1) =>
            Mejorado.create_plugin_package env result_text d0 =
            (inr (Some zip_path), d1)
        end).
Proof.
  cbv zeta. split; [|split; [|split; [|split]]].
  - nest_calls. basic_cases env; by repeat split.
  - basic_cases env; cbn; lia.
  - destruct (Mejorado.CREWAI_AVAILABLE g) eqn:Hg; [right|by left].
    nest_calls_llm. rewrite Mejorado_run_trace, Hg. cbv zeta. cbn [negb].
    destruct (raises env LLM_init); [by repeat split|].
    destruct (first_raise env agent_task_calls); [by repeat split|].
    destruct (raises env Crew_init); [by repeat split|].
    destruct (first_raise env kickoff_calls); [by repeat split|].
    destruct (create_plugin_package_total env
                (kickoff_output env (Mejorado.the_crew env request config)) d)
      as (r & d' & E).
    rewrite E. cbn [fst snd].
    destruct r, (emit_none_raises env); by repeat split.
  - mejorado_cases g env d; cbn; lia.
  - intros result_text d0. apply create_plugin_package_cases.
Qed.

(** C4, as stated, fails in the improved variant: the exception raised
    while writing the archive yields no error signal of its own.  Where
    PyQt delivers [None] the run even emits finished; where it refuses
    [None], the one error signal carries the message of the refusal. *)
Lemma packaging_exception_not_reported :
  (Mejorado.create_plugin_package_body env_disk_full "# plugin" disk0).1 =
    inl "[Errno 28] No space left on device"
  /\ signals (trace (Mejorado.run all_available env_disk_full a_request None
                       (start disk0)).2) =
       [ progress "Inicializando sistema multiagente...";
         progress "Creando equipo de agentes...";
         progress "Ejecutando generación del plugin...";
         finished_zip "# plugin" None ]
  /\ error_messages
       (trace (Mejorado.run all_available env_disk_full a_request None
                 (start disk0)).2) = []
  /\ error_messages
       (trace (Mejorado.run all_available env_disk_full_strict a_request None
                 (start disk0)).2) =
       [ "Error en la generación del plugin: argument 2 has unexpected type 'NoneType'" ].
Proof. vm_compute. by repeat split. Qed.

(** C3 (amended).  In the improved variant, on a well-formed disk: every
    finished signal carries the text the crew produced; when it carries a
    path, that path is [qgis_plugin_<timestamp>.zip] in the working
    directory, the file there is an archive whose only entry holds
    exactly that text, and the staging directory is gone; it carries no
    path only when packaging returned [None].  A run in which no
    pipeline call raises and the packaging body returns emits finished
    with that path.  The basic variant writes no archive: its run leaves
    the disk as it was and its finished signal carries the text alone. *)
Theorem result_is_packaged (g : Mejorado.Globals) (env : Env)
    (request : string) (config : option Config) (d : fs) :
  fs_wf d -> ~ tmp_dir env `prefix_of` cwd env ->
  let wm := (Mejorado.run g env request config (start d)).2 in
  let wb := (Basic.run env request (start d)).2 in
  let result := kickoff_output env (Mejorado.the_crew env request config) in
  Forall
    (fun s =>
       match s with
       | finished_zip r (Some zip_path) =>
           r = result
           /\ zip_path = expected_zip_path env
           /\ files wm !! zip_path = Some (expected_archive env result)
           /\ (forall p : path, tmp_dir env `prefix_of` p -> files wm !! p = None)
       | finished_zip r None =>
           r = result
           /\ (Mejorado.create_plugin_package env result d).1 = inr None
       | _ => False
       end)
    (finished_signals (trace wm))
  /\ match first_raise env pipeline_calls,
           (Mejorado.create_plugin_package_body env result d).1 with
     | None, inr zip_path =>
         Mejorado.CREWAI_AVAILABLE g = false
         \/ finished_signals (trace wm) = [finished_zip result (Some zip_path)]
     | _, _ => True
     end
  /\ files wb = d
  /\ Forall
       (fun s => s = finished (kickoff_output env (Basic.the_crew request)))
       (finished_signals (trace wb)).
Proof.
  intros Hwf Hcwd. cbv zeta.
  pose proof (create_plugin_package_cases env
                (kickoff_output env (Mejorado.the_crew env request config)) d)
    as E.
  pose proof (create_plugin_package_body_inr env
                (kickoff_output env (Mejorado.the_crew env request config)) d)
    as Hbody.
  split; [|split; [|split]].
  - rewrite Mejorado_run_trace. cbv zeta.
    destruct (Mejorado.CREWAI_AVAILABLE g); cbn [negb]; [|by constructor].
    destruct (raises env LLM_init); [by constructor|].
    destruct (first_raise env agent_task_calls); [by constructor|].
    destruct (raises env Crew_init); [by constructor|].
    destruct (first_raise env kickoff_calls); [by constructor|].
    destruct (Mejorado.create_plugin_package_body env _ d) as [[e|zp] d1];
      rewrite E; cbn [fst snd world_of trace files].
    + destruct (emit_none_raises env); repeat constructor.
    + destruct (Hbody zp d1 Hwf Hcwd eq_refl) as (Hzp & Hfile & Htmp).
      repeat constructor; done.
  - nest_calls_llm. rewrite Mejorado_run_trace. cbv zeta.
    destruct (Mejorado.CREWAI_AVAILABLE g); cbn [negb];
      [|by repeat case_match; try left].
    destruct (raises env LLM_init); [done|].
    destruct (first_raise env agent_task_calls); [done|].
    destruct (raises env Crew_init); [done|].
    destruct (first_raise env kickoff_calls); [done|].
    destruct (Mejorado.create_plugin_package_body env _ d) as [[e|zp] d1];
      [done|].
    rewrite E. by right.
  - by rewrite Basic_run_trace.
  - basic_cases env; repeat constructor.
Qed.

Lemma result_is_packaged_witness :
  fs_wf disk0
  /\ ~ tmp_dir env_ok `prefix_of` cwd env_ok
  /\ files (Mejorado.run all_available env_ok a_request None (start disk0)).2
     !! ["home"; "user"; "qgis_plugin_20250101_120000.zip"] =
     Some (File (Archive [(["qgis_plugin_20250101_120000"; "resultado.txt"],
                           Text "# plugin")])).
Proof.
  assert (H1 : fs_wf disk0) by (apply fs_wf_check; vm_compute; reflexivity).
  assert (H2 : ~ tmp_dir env_ok `prefix_of` cwd env_ok)
    by (apply (bool_decide_unpack _); vm_compute; exact I).
  split; [exact H1|]. split; [exact H2|].
  destruct (result_is_packaged all_available env_ok a_request None disk0 H1 H2)
    as (Hall & _).
  assert (Hsig : finished_signals
            (trace (Mejorado.run all_available env_ok a_request None
                      (start disk0)).2) =
          [finished_zip "# plugin"
             (Some ["home"; "user"; "qgis_plugin_20250101_120000.zip"])])
    by (vm_compute; reflexivity).
  rewrite Hsig in Hall. apply Forall_cons_1 in Hall as [(_ & _ & Hfile & _) _].
  exact Hfile.
Defined.

(** C3, as stated, fails: the basic variant's successful run emits
    finished with the text alone and writes nothing (the disk holds no
    archive afterwards); and in the improved variant a run that ends with
    finished may carry no path, its archive left empty. *)
Lemma no_archive_after_success :
  signals (trace (Basic.run env_ok a_request (start disk0)).2) =
    [ progress "Inicializando sistema multiagente...";
      progress "Creando equipo de agentes...";
      progress "Ejecutando generación del plugin...";
      finished "# plugin" ]
  /\ files (Basic.run env_ok a_request (start disk0)).2 = disk0
  /\ walk_files (files (Basic.run env_ok a_request (start disk0)).2) [] = []
  /\ signals (trace (Mejorado.run all_available env_disk_full a_request None
                       (start disk0)).2) =
       [ progress "Inicializando sistema multiagente...";
         progress "Creando equipo de agentes...";
         progress "Ejecutando generación del plugin...";
         finished_zip "# plugin" None ]
  /\ files (Mejorado.run all_available env_disk_full a_request None
              (start disk0)).2
     !! ["home"; "user"; "qgis_plugin_20250101_120000.zip"] =
     Some (File (Archive [])).
Proof.
  split; [by vm_compute|]. split; [by rewrite Basic_run_trace|].
  split; [by rewrite Basic_run_trace|]. split; by vm_compute.
Qed.
(** * More of the program *)

(** ** Following a computation to both of its exits *)

Lemma ends_mono {S A} (r : (exn + A) * S) (Q Q' : A -> S -> Prop)
    (E E' : exn -> S -> Prop) :
  ends r Q E ->
  (forall a s, Q a s -> Q' a s) -> (forall e s, E e s -> E' e s) ->
  ends r Q' E'.
Proof. destruct r as [[e|a] s]; cbn; auto. Qed.

Lemma ends_bind {S A B} (m : M S A) (k : A -> M S B) (s : S)
    (Q : B -> S -> Prop) (E : exn -> S -> Prop) :
  ends (m s) (fun a s' => ends (k a s') Q E) E -> ends (bind m k s) Q E.
Proof. unfold bind. by destruct (m s) as [[e|a] s']. Qed.

Lemma ends_try_catch {S A} (body : M S A) (handler : exn -> M S A) (s : S)
    (Q : A -> S -> Prop) (E : exn -> S -> Prop) :
  ends (body s) Q (fun e s' => ends (handler e s') Q E) ->
  ends (try_catch body handler s) Q E.
Proof. unfold try_catch. by destruct (body s) as [[e|a] s']. Qed.

Lemma ends_try_finally {S A} (body : M S A) (final : M S unit) (s : S)
    (Q : A -> S -> Prop) (E : exn -> S -> Prop) :
  ends (body s)
    (fun a s1 => ends (final s1) (fun _ s2 => Q a s2) E)
    (fun e s1 => ends (final s1) (fun _ s2 => E e s2) E) ->
  ends (try_finally body final s) Q E.
Proof.
  unfold try_finally. destruct (body s) as [[e|a] s1]; cbn;
    by destruct (final s1) as [[e'|[]] s2].
Qed.

Lemma ends_call {S} (env : Env) (c : Call) (s : S) :
  ends (call env c s) (fun _ s' => s' = s) (fun _ s' => s' = s).
Proof. unfold call. by destruct (raises env c). Qed.

(** A loop keeps what each of its rounds keeps. *)
Lemma ends_for_each {S A} (I : S -> Prop) (l : list A) (body : A -> M S unit)
    (s : S) :
  (forall x s1, I s1 -> ends (body x s1) (fun _ => I) (fun _ => I)) ->
  I s -> ends (for_each l body s) (fun _ => I) (fun _ => I).
Proof.
  intros Hbody. revert s. induction l as [|x l IH]; intros s Hs; [done|].
  cbn [for_each]. apply ends_bind.
  eapply ends_mono; [by apply Hbody| |done]. intros u s1 Hs1. by apply IH.
Qed.

(** ** What each file-system call may have changed, whichever way it
    ended *)

Section Changed.

Variable env : Env.

Lemma strftime_now_ends (d : fs) :
  ends (strftime_now env d)
    (fun ts d' => ts = now_stamp env /\ d' = d
                  /\ raises env Datetime_now = None)
    (fun e d' => d' = d /\ raises env Datetime_now = Some e).
Proof.
  unfold strftime_now, bind, call. by destruct (raises env Datetime_now).
Qed.

Lemma mkdtemp_ends (d : fs) :
  ends (mkdtemp env d)
    (fun t d' => t = tmp_dir env /\ d !! tmp_dir env = None
                 /\ d' = <[tmp_dir env := Dir]> d
                 /\ raises env Mkdtemp = None)
    (fun e d' => d' = d
                 /\ (raises env Mkdtemp = Some e \/ is_Some (d !! tmp_dir env))).
Proof.
  unfold mkdtemp, bind, call, get.
  destruct (raises env Mkdtemp); [cbn; by auto|].
  cbn. destruct (d !! tmp_dir env) eqn:E; [|done]. cbn. eauto.
Qed.

Lemma makedirs_ends (p : path) (d : fs) :
  ends (makedirs env p d)
    (fun _ d' => makedirs_from [] p d = inr d')
    (fun _ d' => d' = d).
Proof.
  unfold makedirs, bind, call, get. destruct (raises env Makedirs); [done|].
  cbn. destruct (d !! p); [done|].
  by destruct (makedirs_from [] p d).
Qed.

Lemma write_text_ends (p : path) (text : string) (d : fs) :
  ends (write_text env p text d)
    (fun _ d' => d' = <[p := File (Text text)]> d)
    (fun _ d' => d' = d \/ d' = <[p := File (Text "")]> d).
Proof.
  unfold write_text, bind, call, get, put, raise, ret.
  destruct (raises env File_open); [by left|]. cbn.
  destruct (d !! removelast p) as [[|?]|]; [|by left..].
  destruct (d !! p) as [[|?]|]; [by left| |];
    (destruct (raises env File_write); cbn;
     [by right | by rewrite insert_insert_eq]).
Qed.

Lemma getcwd_ends (d : fs) :
  ends (getcwd env d)
    (fun c d' => c = cwd env /\ d' = d /\ d !! cwd env = Some Dir)
    (fun _ d' => d' = d).
Proof.
  unfold getcwd, bind, call, get. destruct (raises env Getcwd); [done|].
  cbn. by destruct (d !! cwd env) as [[|?]|].
Qed.

Lemma zip_open_ends (zp : path) (d : fs) :
  ends (zip_open env zp d)
    (fun _ d' => d !! zp <> Some Dir /\ d' = <[zp := File (Archive [])]> d)
    (fun _ d' => d' = d).
Proof.
  unfold zip_open, bind, call, get. destruct (raises env Zip_open); [done|].
  cbn. destruct (d !! removelast zp) as [[|?]|]; [|done..].
  by destruct (d !! zp) as [[|?]|].
Qed.

Lemma zip_write_ends (zp file_path arcname : path) (d : fs) :
  ends (zip_write env zp file_path arcname d)
    (fun _ d' =>
       d' = d
       \/ exists c es, d !! zp = Some (File (Archive es))
                       /\ d' = <[zp := File (Archive (es ++ [(arcname, c)]))]> d)
    (fun _ d' => d' = d).
Proof.
  unfold zip_write, bind, call, get. destruct (raises env Zip_write); [done|].
  cbn. destruct (d !! file_path) as [[|c]|]; [|destruct (d !! zp) as [[|[| |es]]|] eqn:E; cbn; eauto 6|done].
  destruct (d !! zp) as [[|[| |es]]|]; cbn; auto.
Qed.

Lemma rmtree_ends (top : path) (d : fs) :
  ends (rmtree env top d)
    (fun _ d' => d !! top = Some Dir
                 /\ d' = filter (fun kv => ~ top `prefix_of` kv.1) d)
    (fun _ d' => d' = d).
Proof.
  unfold rmtree, bind, call, get. destruct (raises env Rmtree); [done|].
  cbn. by destruct (d !! top) as [[|?]|].
Qed.

End Changed.
(** * The recorders *)

(** The recording loop reads every chunk, or stops at the first read if
    reading raises. *)
Lemma Basic_record_loop_eval (env : Env) (chunks : list string) (w : World) :
  Basic.record_loop env chunks w =
  match chunks, raises env Stream_read with
  | _ :: _, Some e => (inl e, w)
  | _, _ =>
      (inr chunks,
       {| trace := trace w ++ (ChunkRead <$> chunks); files := files w;
          p_audio := p_audio w; stream := stream w |})
  end.
Proof.
  revert w. induction chunks as [|data rest IH]; intros [t f p s].
  - cbn. by rewrite app_nil_r.
  - cbn [Basic.record_loop]. unfold bind at 1, call.
    destruct (raises env Stream_read) as [e|] eqn:E; [reflexivity|].
    unfold ret at 1. unfold bind at 1, log, modify. unfold bind at 1.
    rewrite IH. cbn [trace files p_audio stream].
    destruct rest; unfold ret; cbn; by rewrite <- app_assoc.
Qed.

Lemma Mejorado_record_loop_eval (env : Env) (chunks : list string) (w : World) :
  Mejorado.record_loop env chunks w =
  match chunks, raises env Stream_read with
  | _ :: _, Some e => (inl e, w)
  | _, _ =>
      (inr chunks,
       {| trace := trace w ++ (ChunkRead <$> chunks); files := files w;
          p_audio := p_audio w; stream := stream w |})
  end.
Proof.
  revert w. induction chunks as [|data rest IH]; intros [t f p s].
  - cbn. by rewrite app_nil_r.
  - cbn [Mejorado.record_loop]. unfold bind at 1, call.
    destruct (raises env Stream_read) as [e|] eqn:E; [reflexivity|].
    unfold ret at 1. unfold bind at 1, log, modify. unfold bind at 1.
    rewrite IH. cbn [trace files p_audio stream].
    destruct rest; unfold ret; cbn; by rewrite <- app_assoc.
Qed.

Ltac rec_simpl :=
  cbv [Basic.AudioRecorder_run Mejorado.AudioRecorder_run
       try_finally try_catch bind call emit log set_p_audio set_stream
       modify get put ret raise on_disk named_temporary_file wave_write
       unlink start trace files p_audio stream fst snd negb];
  rewrite ?Basic_record_loop_eval, ?Mejorado_record_loop_eval;
  cbn [app].

Ltac unfold_recorder := rec_simpl; rec_simpl.

(** The calls left in a branch that has met its exception: those of the
    clean-up. *)
Ltac rec_leaf :=
  repeat match goal with
         | |- context [raises ?env ?c] =>
             destruct (raises env c) eqn:?; rec_simpl
         end.

Ltac rec_next env c tac :=
  destruct (raises env c) eqn:?; rec_simpl; [rec_leaf; tac|].

(** One goal for each way a recorder's run can go, each handed to
    [tac]. *)
Ltac recorder_cases env d tac :=
  unfold_recorder;
  rec_next env PyAudio_init tac;
  rec_next env Stream_open tac;
  destruct (mic_chunks env) eqn:?; rec_simpl;
  [| rec_next env Stream_read tac ];
  (rec_next env Stream_stop tac;
   rec_next env Stream_close tac;
   rec_next env PyAudio_terminate tac;
   rec_next env Tempfile_new tac;
   destruct (d !! tmp_wav env) eqn:?; rec_simpl; [rec_leaf; tac|];
   rec_next env Sample_size tac;
   rec_next env Wave_write tac;
   rewrite ?insert_insert_eq, ?lookup_insert_eq; rec_simpl;
   destruct (raises env Whisper_load) eqn:?; rec_simpl;
   [| destruct (raises env Whisper_transcribe) eqn:?; rec_simpl ];
   (destruct (raises env Os_unlink) eqn:?; rec_simpl;
    rewrite ?lookup_insert_eq; rec_simpl; rec_leaf; tac)).

Lemma signals_chunks (l : list string) (t : list Event) :
  signals ((ChunkRead <$> l) ++ t) = signals t.
Proof. induction l as [|x l IH]; [done|]. by cbn. Qed.

Lemma signals_app (a b : list Event) : signals (a ++ b) = signals a ++ signals b.
Proof. apply omap_app. Qed.

Ltac rec_signals :=
  rewrite <- ?app_assoc; cbn [signals omap list_omap app];
  rewrite ?signals_chunks; cbn [signals omap list_omap app].

Lemma recorder_one_outcome (v : Variant) (g : Mejorado.Globals) (env : Env)
    (d : fs) :
  one_outcome env (signals (trace (AudioRecorder_run v g env (start d)).2)).
Proof.
  destruct v; unfold AudioRecorder_run;
    [|unfold Mejorado.AudioRecorder_run;
      destruct (Mejorado.AUDIO_AVAILABLE g); cbn [negb];
      [|unfold one_outcome; cbn; eauto 10]].
  all: recorder_cases env d
         ltac:(unfold one_outcome; rec_signals; eauto 10).
Qed.

(** X1. Every run of a recorder emits exactly one outcome signal,
    [finished] with the transcript or [error], and no other signal;
    only a failure of [os.unlink] on the temporary file adds a second
    one, an [error] carrying that failure. *)
Theorem recorder_reports_once (v : Variant) (g : Mejorado.Globals) (env : Env)
    (d : fs) :
  one_outcome env (signals (trace (AudioRecorder_run v g env (start d)).2)).
Proof. apply recorder_one_outcome. Qed.






Ltac rec_scenario :=
  intros; simplify_eq;
  repeat match goal with H : _ \/ _ |- _ => destruct H end;
  simplify_eq; try reflexivity.



(** A failed transcription, after a recording that went through. *)
Lemma recorder_whisper_fails (v : Variant) (g : Mejorado.Globals)
    (env : Env) (d : fs) (e : exn) :
  audio_on v g = true ->
  first_raise env (capture_calls ++ [Sample_size; Wave_write]) = None ->
  reads_ok env ->
  d !! tmp_wav env = None ->
  first_raise env whisper_calls = Some e ->
  raises env Os_unlink = None ->
  AudioRecorder_run v g env (start d) =
    (inr tt, recorded env d [Emit (error (whisper_prefix v +:+ e))]).
Proof.
  intros Hon.
  unfold reads_ok, capture_calls, whisper_calls, recorded, whisper_prefix.
  cbn [app first_raise].
  destruct v; cbn in Hon; unfold AudioRecorder_run;
    [|unfold Mejorado.AudioRecorder_run; rewrite Hon; cbn [negb]].
  all: recorder_cases env d
         ltac:(rec_scenario; by rewrite delete_insert_id).
Qed.

Lemma Basic_shows_recorder_error (s : Basic.UI) (m : string) :
  Basic.actions (Basic.session [Basic.FromRecorder (error m)] s) =
  Basic.actions s ++
  [Basic.MessageCritical "Error" ("Error en transcripción: " +:+ m)].
Proof.
  destruct s as [text console label rec_on gen_on bar recorder generator n acts].
  cbn [Basic.session foldl]. run_ui. reflexivity.
Qed.

Lemma Mejorado_shows_recorder_error (g : Mejorado.Globals) (env : Env)
    (s : Mejorado.UI) (m : string) :
  Mejorado.actions (Mejorado.session g env [Mejorado.FromRecorder (error m)] s) =
  Mejorado.actions s ++
  [Mejorado.MessageCritical "Error" ("Error en transcripción: " +:+ m)].
Proof.
  destruct s as [text console label rec_on gen_on save_on bar status cw
                 history recorder generator n acts].
  cbn [Mejorado.session foldl]. run_ui2. reflexivity.
Qed.

(** X6. When the recording went through and Whisper fails to load or to
    transcribe, each recorder removes the temporary wav, returns, and
    emits one [error] whose text is its own prefix followed by the
    exception; the window puts [Error en transcripción: ] before that
    text, so the box of main_app_mejorado.py shows this prefix twice. *)
Theorem failed_transcription_is_shown (g : Mejorado.Globals) (env : Env)
    (d : fs) (e : exn) :
  Mejorado.AUDIO_AVAILABLE g = true ->
  first_raise env (capture_calls ++ [Sample_size; Wave_write]) = None ->
  reads_ok env ->
  d !! tmp_wav env = None ->
  first_raise env whisper_calls = Some e ->
  raises env Os_unlink = None ->
  let wb := (Basic.AudioRecorder_run env (start d)).2 in
  let wm := (Mejorado.AudioRecorder_run g env (start d)).2 in
  signals (trace wb) =
    [error ("Error al cargar o transcribir con Whisper: " +:+ e)]
  /\ signals (trace wm) = [error ("Error en transcripción: " +:+ e)]
  /\ files wb = d
  /\ files wm = d
  /\ (forall s : Basic.UI,
        Basic.actions
          (Basic.session (Basic.FromRecorder <$> signals (trace wb)) s) =
        Basic.actions s ++
        [Basic.MessageCritical "Error"
           ("Error en transcripción: Error al cargar o transcribir con Whisper: "
            +:+ e)])
  /\ (forall s : Mejorado.UI,
        Mejorado.actions
          (Mejorado.session g env
             (Mejorado.FromRecorder <$> signals (trace wm)) s) =
        Mejorado.actions s ++
        [Mejorado.MessageCritical "Error"
           ("Error en transcripción: Error en transcripción: " +:+ e)]).
Proof.
  intros Hon Hcap Hread Hfree Hw Hun. cbv zeta.
  pose proof (recorder_whisper_fails main_app g env d e eq_refl
                Hcap Hread Hfree Hw Hun) as Eb.
  pose proof (recorder_whisper_fails main_app_mejorado g env d e Hon
                Hcap Hread Hfree Hw Hun) as Em.
  cbn [AudioRecorder_run whisper_prefix] in Eb, Em. rewrite Eb, Em.
  unfold recorded. cbn [snd trace files]. rec_signals.
  do 4 (split; [reflexivity|]).
  split; intros s; cbn [fmap list_fmap].
  - apply Basic_shows_recorder_error.
  - apply Mejorado_shows_recorder_error.
Qed.

Lemma failed_transcription_is_shown_witness :
  signals (trace (Mejorado.AudioRecorder_run all_available env_no_whisper
                    (start disk0)).2) =
    [error "Error en transcripción: model not found"]
  /\ Mejorado.actions
       (Mejorado.session all_available env_no_whisper
          (Mejorado.FromRecorder <$>
             signals (trace (Mejorado.AudioRecorder_run all_available
                               env_no_whisper (start disk0)).2))
          (Mejorado.init all_available)) =
     [Mejorado.MessageCritical "Error"
        "Error en transcripción: Error en transcripción: model not found"].
Proof.
  destruct (failed_transcription_is_shown all_available env_no_whisper disk0
              "model not found" eq_refl eq_refl (or_intror eq_refl)
              eq_refl eq_refl eq_refl)
    as (_ & Hm & _ & _ & _ & Hs).
  split; [exact Hm|]. exact (Hs (Mejorado.init all_available)).
Defined.

(** Either signal of a recorder puts the record button back to its idle
    label. *)
Lemma Basic_recorder_signal_resets (s : Basic.UI) (sig : Signal) :
  (exists t, sig = finished t) \/ (exists m, sig = error m) ->
  Basic.record_button_text
    (Basic.after (Basic.handle (Basic.FromRecorder sig)) s) = idle_label.
Proof.
  destruct s as [text console label rec_on gen_on bar recorder generator n acts].
  intros [[t ->]|[m ->]]; run_ui; [|done].
  by destruct (truthy (strip t)).
Qed.

Lemma Mejorado_recorder_signal_resets (g : Mejorado.Globals) (env : Env)
    (s : Mejorado.UI) (sig : Signal) :
  (exists t, sig = finished t) \/ (exists m, sig = error m) ->
  Mejorado.record_button_text
    (Mejorado.after (Mejorado.handle g env (Mejorado.FromRecorder sig)) s) =
  idle_label.
Proof.
  destruct s as [text console label rec_on gen_on save_on bar status cw
                 history recorder generator n acts].
  intros [[t ->]|[m ->]]; run_ui2; [|done].
  by destruct (truthy (strip t)).
Qed.

(** X20. However a recording ends, once the signals of the recorder's
    run have reached the window the record button shows its idle label
    again: every run emits a signal, and each signal's handler resets
    the label. *)
Theorem record_button_returns_to_idle :
  (forall (env : Env) (d : fs) (s : Basic.UI),
     Basic.record_button_text
       (Basic.session
          (Basic.FromRecorder <$>
             signals (trace (Basic.AudioRecorder_run env (start d)).2)) s) =
     idle_label)
  /\ (forall (g : Mejorado.Globals) (env : Env) (d : fs) (s : Mejorado.UI),
        Mejorado.record_button_text
          (Mejorado.session g env
             (Mejorado.FromRecorder <$>
                signals (trace (Mejorado.AudioRecorder_run g env (start d)).2))
             s) =
        idle_label).
Proof.
  split.
  - intros env d s.
    destruct (recorder_one_outcome main_app all_available env d)
      as (first & rest & E & Hfirst & Hrest).
    cbn [AudioRecorder_run] in E. rewrite E.
    assert (Hf : (exists t, first = finished t) \/ (exists m, first = error m))
      by (destruct Hfirst; eauto).
    destruct Hrest as [->|(e & _ & ->)]; cbn [fmap list_fmap Basic.session foldl].
    + by apply Basic_recorder_signal_resets.
    + apply Basic_recorder_signal_resets. eauto.
  - intros g env d s.
    destruct (recorder_one_outcome main_app_mejorado g env d)
      as (first & rest & E & Hfirst & Hrest).
    cbn [AudioRecorder_run] in E. rewrite E.
    assert (Hf : (exists t, first = finished t) \/ (exists m, first = error m))
      by (destruct Hfirst; eauto).
    destruct Hrest as [->|(e & _ & ->)];
      cbn [fmap list_fmap Mejorado.session foldl].
    + by apply Mejorado_recorder_signal_resets.
    + apply Mejorado_recorder_signal_resets. eauto.
Qed.



(** * Packaging, whichever way it ends *)

Lemma ends_get {S B} (k : S -> M S B) (s : S) (Q : B -> S -> Prop)
    (E : exn -> S -> Prop) :
  ends (k s s) Q E -> ends (bind get k s) Q E.
Proof. done. Qed.

Ltac step lem :=
  apply ends_bind; eapply ends_mono; [apply lem| cbn beta | cbn beta].

(** The body of [create_plugin_package], followed step by step: a
    property [I] that holds once the staging directory is made, and that
    the later steps keep, holds wherever the body stops after that
    point. *)
Lemma packaging_walk (env : Env) (result_text : string) (d : fs)
    (I : fs -> Prop) :
  (d !! tmp_dir env = None -> I (<[tmp_dir env := Dir]> d)) ->
  (forall s s', I s ->
     makedirs_from [] (tmp_dir env ++ [plugin_name env]) s = inr s' -> I s') ->
  (forall s x, I s -> I (<[staged_file env := File (Text x)]> s)) ->
  (forall s es, I s -> s !! expected_zip_path env <> Some Dir ->
     I (<[expected_zip_path env := File (Archive es)]> s)) ->
  ends (Mejorado.create_plugin_package_body env result_text d)
    (fun zip_path d' =>
       zip_path = expected_zip_path env
       /\ staged env d
       /\ exists s, I s /\ s !! tmp_dir env = Some Dir
                    /\ s !! cwd env = Some Dir
                    /\ d' = filter (fun kv => ~ tmp_dir env `prefix_of` kv.1) s)
    (fun _ d' => (d' = d /\ ~ staged env d) \/ I d').
Proof.
  intros Hstart Hmk Hfile Hzip.
  unfold Mejorado.create_plugin_package_body.
  step strftime_now_ends.
  2:{ intros e s [-> He]. left. split; [done|]. intros (H & _). congruence. }
  intros ts s (-> & -> & Hnow).
  step mkdtemp_ends.
  2:{ intros e s [-> [He|[n Hn]]]; left; (split; [done|]);
        intros (_ & H1 & H2); congruence. }
  intros t s (-> & Hfree & -> & Htmp). pose proof (Hstart Hfree) as HI1.
  assert (Ht1 : <[tmp_dir env := Dir]> d !! tmp_dir env = Some Dir)
    by apply lookup_insert_eq.
  step makedirs_ends.
  2:{ intros e s ->. by right. }
  intros u2 s2 Hmade. pose proof (Hmk _ _ HI1 Hmade) as HI2.
  apply makedirs_from_spec in Hmade as (Hkeep & _). apply Hkeep in Ht1 as Ht2.
  step write_text_ends.
  2:{ intros e s [->| ->]; right; [done|]. by apply Hfile. }
  intros u3 s3 ->. pose proof (Hfile _ result_text HI2) as HI3.
  assert (Ht3 : <[staged_file env := File (Text result_text)]> s2
                !! tmp_dir env = Some Dir).
  { rewrite lookup_insert_ne; [done|]. unfold staged_file. intros E.
    apply (f_equal length) in E. rewrite !length_app in E. cbn in E. lia. }
  step getcwd_ends.
  2:{ intros e s ->. by right. }
  intros c s4 (-> & -> & Hc).
  step zip_open_ends.
  2:{ intros e s ->. by right. }
  intros u5 s5 (Hnd & ->). pose proof (Hzip _ [] HI3 Hnd) as HI5.
  apply ends_bind, ends_try_finally, ends_get.
  eapply ends_mono;
    [apply (ends_for_each
              (fun s => I s /\ s !! tmp_dir env = Some Dir
                        /\ s !! cwd env = Some Dir))| |];
    cbn beta.
  - intros file_path s6 (HI6 & Ht6 & Hc6).
    eapply ends_mono; [apply zip_write_ends| |]; cbn beta.
    + intros _ s7 [->|(c & es & Hz & ->)]; [done|]. split; [|split].
      * apply Hzip; [done|]. unfold expected_zip_path, plugin_name. by rewrite Hz.
      * rewrite lookup_insert_ne; [done|]. intros E. rewrite E in Hz. congruence.
      * rewrite lookup_insert_ne; [done|]. intros E. rewrite E in Hz. congruence.
    + by intros _ s7 ->.
  - split; [exact HI5|].
    split; (rewrite lookup_insert_ne; [done|]; intros E; apply Hnd; by rewrite E).
  - intros _ s6 (HI6 & Ht6 & Hc6).
    eapply ends_mono; [apply ends_call| |]; cbn beta.
    2:{ intros e s ->. by right. }
    intros _ s7 ->.
    step rmtree_ends.
    2:{ intros e s ->. by right. }
    intros u8 s8 (_ & ->). cbn. split; [done|]. split; [done|]. by exists s6.
  - intros e s6 (HI6 & Ht6 & Hc6).
    eapply ends_mono; [apply ends_call| |]; cbn beta; intros ? ? ->; by right.
Qed.

(** *** The frame *)

Lemma take_shorter (n : nat) (t p : path) :
  n < length t -> t `prefix_of` p -> take n t <> p.
Proof.
  intros Hn [k ->] E. apply (f_equal length) in E.
  rewrite length_take, length_app in E. lia.
Qed.

Lemma frame_refl (env : Env) (d : fs) :
  tmp_root_exists env d -> packaging_frame env d d.
Proof. by split. Qed.

Lemma frame_insert (env : Env) (d s : fs) (k : path) (x : node) :
  packaging_frame env d s ->
  k = expected_zip_path env \/ tmp_dir env `prefix_of` k ->
  (forall n, 0 < n < length (tmp_dir env) -> take n (tmp_dir env) <> k) ->
  packaging_frame env d (<[k := x]> s).
Proof.
  intros [Hsame Hroot] Hk Hnot. split.
  - intros p [Hp1 Hp2]. rewrite lookup_insert_ne; [by apply Hsame|].
    intros ->. by destruct Hk.
  - intros n Hn. rewrite lookup_insert_ne; [by apply Hroot|].
    intros E. by apply (Hnot n).
Qed.

Lemma frame_insert_below (env : Env) (d s : fs) (k : path) (x : node) :
  packaging_frame env d s -> tmp_dir env `prefix_of` k ->
  packaging_frame env d (<[k := x]> s).
Proof.
  intros H Hk. apply frame_insert; [done|by right|].
  intros n [_ Hn]. by apply take_shorter.
Qed.

Lemma frame_insert_zip (env : Env) (d s : fs) (x : content) :
  packaging_frame env d s -> s !! expected_zip_path env <> Some Dir ->
  packaging_frame env d (<[expected_zip_path env := File x]> s).
Proof.
  intros H Hz. apply frame_insert; [done|by left|].
  intros n Hn E. apply Hz. rewrite <- E. by apply H.
Qed.

(** A non-empty proper prefix of a path is one of its [take]s. *)
Lemma prefix_take (q t : path) :
  q `prefix_of` t -> q <> t -> q <> [] ->
  exists n, 0 < n < length t /\ q = take n t.
Proof.
  intros [k ->] Hne Hnil. exists (length q). split.
  - split; [destruct q; [done|cbn; lia]|]. rewrite length_app.
    destruct k; [by rewrite app_nil_r in Hne|cbn; lia].
  - by rewrite take_app_length.
Qed.

Lemma frame_makedirs (env : Env) (d s s' : fs) (name : string) :
  packaging_frame env d s ->
  makedirs_from [] (tmp_dir env ++ [name]) s = inr s' ->
  packaging_frame env d s'.
Proof.
  intros [Hsame Hroot] Hmk.
  apply makedirs_from_spec in Hmk as (Hkeep & Hnew & _). split.
  - intros p Hp. rewrite <- (Hsame p Hp).
    destruct (s !! p) as [n|] eqn:E; [by apply Hkeep|].
    destruct (Hnew p E) as [?|(_ & _ & Hpre & Hnil)]; [done|]. exfalso.
    cbn in Hpre. destruct Hp as [_ Hp].
    apply prefix_snoc_inv in Hpre as [Hpre| ->]; [|apply Hp; by exists [name]].
    destruct (decide (p = tmp_dir env)) as [->|Hpt]; [by apply Hp|].
    destruct (prefix_take _ _ Hpre Hpt Hnil) as (n & Hn & ->).
    rewrite Hroot in E; done.
  - intros n Hn. by apply Hkeep, Hroot.
Qed.

Lemma lookup_filter_outside (t p : path) (s : fs) :
  ~ t `prefix_of` p ->
  filter (fun kv : path * node => ~ t `prefix_of` kv.1) s !! p = s !! p.
Proof.
  intros Hp. destruct (s !! p) as [n|] eqn:E.
  - by apply map_lookup_filter_Some_2.
  - apply map_lookup_filter_None. by left.
Qed.


(** The walk, for the frame. *)
Lemma packaging_walk_frame (env : Env) (result_text : string) (d : fs) :
  tmp_root_exists env d ->
  ends (Mejorado.create_plugin_package_body env result_text d)
    (fun zip_path d' =>
       zip_path = expected_zip_path env
       /\ staged env d
       /\ exists s, packaging_frame env d s
                    /\ s !! tmp_dir env = Some Dir
                    /\ s !! cwd env = Some Dir
                    /\ d' = filter (fun kv => ~ tmp_dir env `prefix_of` kv.1) s)
    (fun _ d' => (d' = d /\ ~ staged env d) \/ packaging_frame env d d').
Proof.
  intros Hroot. apply packaging_walk.
  - intros _. apply frame_insert_below; [by apply frame_refl|done].
  - intros s s' Hs. unfold plugin_name. apply frame_makedirs, Hs.
  - intros s x Hs. apply frame_insert_below; [done|].
    exists [plugin_name env; "resultado.txt"]. unfold staged_file.
    by rewrite <- app_assoc.
  - intros s es Hs. by apply frame_insert_zip.
Qed.



Lemma tmp_root_exists_env_ok : tmp_root_exists env_ok disk0.
Proof.
  intros n Hn. cbn in Hn. assert (n = 1) as -> by lia. reflexivity.
Qed.



(** X8. [create_plugin_package] has no clean-up of its own: when it
    returns [None] after the staging directory was made (the clock and
    [mkdtemp] did not raise and the name was free), that directory is
    still on the disk. *)
Theorem failed_packaging_leaves_staging (env : Env) (result_text : string)
    (d d' : fs) :
  staged env d ->
  Mejorado.create_plugin_package env result_text d = (inr None, d') ->
  d' !! tmp_dir env = Some Dir.
Proof.
  intros Hst Hrun.
  pose proof (create_plugin_package_cases env result_text d) as Hc.
  pose proof (packaging_walk env result_text d
                (fun s => s !! tmp_dir env = Some Dir)) as H.
  destruct (Mejorado.create_plugin_package_body env result_text d)
    as [[e|zp] d1] eqn:E; [|congruence].
  rewrite Hc in Hrun. injection Hrun as <-. cbn in H.
  destruct H as [[_ Hn]|H]; [| | | |done|done].
  - intros _. apply lookup_insert_eq.
  - intros s s' Hs Hmk. apply makedirs_from_spec in Hmk as (Hkeep & _).
    by apply Hkeep.
  - intros s x Hs. rewrite lookup_insert_ne; [done|]. unfold staged_file.
    intros Heq. apply (f_equal length) in Heq. rewrite !length_app in Heq.
    cbn in Heq. lia.
  - intros s es Hs Hz. rewrite lookup_insert_ne; [done|]. intros Heq.
    apply Hz. by rewrite Heq.
Qed.

Lemma failed_packaging_leaves_staging_witness :
  exists d' : fs,
    Mejorado.create_plugin_package env_disk_full "# plugin" disk0 = (inr None, d')
    /\ d' !! ["tmp"; "tmpk3f9x2"] = Some Dir.
Proof.
  assert (Hst : staged env_disk_full disk0) by (by repeat split).
  assert (Hrun : (Mejorado.create_plugin_package env_disk_full "# plugin"
                    disk0).1 = inr None) by (vm_compute; reflexivity).
  destruct (Mejorado.create_plugin_package env_disk_full "# plugin" disk0)
    as [r d'] eqn:E. cbn in Hrun. subst r.
  exists d'. split; [reflexivity|].
  exact (failed_packaging_leaves_staging env_disk_full "# plugin" disk0 d'
           Hst E).
Defined.

(** *** The net effect of a packaging that returned *)

Lemma zip_path_not_staged (env : Env) :
  ~ tmp_dir env `prefix_of` cwd env -> expected_zip_path env <> staged_file env.
Proof.
  intros Hcwd E. unfold expected_zip_path, staged_file in E.
  apply app_inj_tail in E as [E _]. apply Hcwd. rewrite E.
  by exists [plugin_name env].
Qed.

(** A packaging body that returned has added the archive and nothing
    else; the working directory was there and no directory stood in the
    archive's place. *)
Lemma packaging_net_effect (env : Env) (result_text : string) (d d' : fs)
    (zip_path : path) :
  fs_wf d -> ~ tmp_dir env `prefix_of` cwd env -> tmp_root_exists env d ->
  Mejorado.create_plugin_package_body env result_text d = (inr zip_path, d') ->
  zip_path = expected_zip_path env
  /\ d' = <[expected_zip_path env := expected_archive env result_text]> d
  /\ d !! cwd env = Some Dir
  /\ d !! expected_zip_path env <> Some Dir.
Proof.
  intros Hwf Hcwd Hroot Hrun.
  destruct (create_plugin_package_body_inr _ _ _ _ _ Hwf Hcwd Hrun)
    as (Hzp & Hfile & Hgone).
  change (zip_path = expected_zip_path env) in Hzp. subst zip_path.
  change (d' !! expected_zip_path env =
          Some (expected_archive env result_text)) in Hfile.
  pose proof (packaging_walk_frame env result_text d Hroot) as Hframe.
  pose proof (packaging_walk env result_text d
                (fun s => d !! expected_zip_path env = Some Dir ->
                          s !! expected_zip_path env = Some Dir)) as Hdir.
  rewrite Hrun in Hframe, Hdir. cbn in Hframe, Hdir.
  destruct Hframe as (_ & (_ & _ & Hfree) & s & [Hsame _] & _ & Hc & ->).
  assert (Hzt : ~ tmp_dir env `prefix_of` expected_zip_path env).
  { intros Hp. by rewrite Hgone in Hfile. }
  assert (Hzc : cwd env <> expected_zip_path env).
  { intros E. apply (f_equal length) in E. unfold expected_zip_path in E.
    rewrite length_app in E. cbn in E. lia. }
  split; [done|]. split; [|split].
  - apply map_eq. intros p.
    destruct (decide (p = expected_zip_path env)) as [->|Hp].
    { by rewrite lookup_insert_eq. }
    rewrite lookup_insert_ne by done.
    destruct (decide (tmp_dir env `prefix_of` p)) as [Hpre|Hpre].
    { rewrite Hgone by done. symmetry. by eapply fs_wf_free_below. }
    rewrite lookup_filter_outside by done. by apply Hsame.
  - rewrite <- Hc. symmetry. apply Hsame. by split.
  - intros Hd. destruct Hdir as (_ & _ & s' & Hs' & _ & _ & Heq).
    + intros _ _. destruct (decide (expected_zip_path env = tmp_dir env))
        as [->|Hne]; [apply lookup_insert_eq|].
      by rewrite lookup_insert_ne.
    + intros s1 s2 Hs1 Hmk Hd'. apply makedirs_from_spec in Hmk as (Hkeep & _).
      by apply Hkeep, Hs1.
    + intros s1 x Hs1 Hd'. rewrite lookup_insert_ne; [by apply Hs1|].
      intros E. by apply (zip_path_not_staged env).
    + intros s1 es Hs1 Hnd Hd'. by apply Hs1 in Hd'.
    + rewrite Heq in Hfile.
      apply map_lookup_filter_Some in Hfile as [Hfile _].
      rewrite (Hs' Hd) in Hfile. done.
Qed.

(** X9. A packaging that returns a path has, on balance, added that one
    archive to the disk and changed nothing else: the disk afterwards is
    the disk before with [qgis_plugin_<timestamp>.zip] in the working
    directory holding the result as [resultado.txt], the staging
    directory gone again.  (The disk is well-formed, the working
    directory is not inside the staging directory, and the directories
    above the staging directory exist.) *)
Theorem packaging_adds_one_file (env : Env) (result_text : string) (d d' : fs)
    (zip_path : path) :
  fs_wf d -> ~ tmp_dir env `prefix_of` cwd env -> tmp_root_exists env d ->
  Mejorado.create_plugin_package env result_text d = (inr (Some zip_path), d') ->
  zip_path = expected_zip_path env
  /\ d' = <[expected_zip_path env := expected_archive env result_text]> d.
Proof.
  intros Hwf Hcwd Hroot Hrun.
  pose proof (create_plugin_package_cases env result_text d) as Hc.
  destruct (Mejorado.create_plugin_package_body env result_text d)
    as [[e|zp] d1] eqn:E; [congruence|].
  rewrite Hc in Hrun. injection Hrun as <- <-.
  destruct (packaging_net_effect _ _ _ _ _ Hwf Hcwd Hroot E) as (? & ? & _).
  by split.
Qed.

Lemma disk0_wf : fs_wf disk0.
Proof. apply fs_wf_check. vm_compute. reflexivity. Qed.

Lemma env_ok_cwd_outside : ~ tmp_dir env_ok `prefix_of` cwd env_ok.
Proof. apply (bool_decide_unpack _). vm_compute. exact I. Qed.

Lemma packaging_adds_one_file_witness :
  (Mejorado.create_plugin_package env_ok "# plugin" disk0).2 =
  <[ ["home"; "user"; "qgis_plugin_20250101_120000.zip"] :=
       File (Archive [(["qgis_plugin_20250101_120000"; "resultado.txt"],
                       Text "# plugin")]) ]> disk0.
Proof.
  assert (Hrun : (Mejorado.create_plugin_package env_ok "# plugin" disk0).1 =
                 inr (Some ["home"; "user"; "qgis_plugin_20250101_120000.zip"]))
    by (vm_compute; reflexivity).
  destruct (Mejorado.create_plugin_package env_ok "# plugin" disk0)
    as [r d'] eqn:E. cbn in Hrun. subst r.
  destruct (packaging_adds_one_file env_ok "# plugin" disk0 d' _
              disk0_wf env_ok_cwd_outside tmp_root_exists_env_ok E) as [_ H].
  exact H.
Defined.

(** Adding a file to a directory of a well-formed disk, where no
    directory stood, leaves it well-formed. *)
Lemma fs_wf_insert_file (d : fs) (dir : path) (name : string) (c : content) :
  fs_wf d -> d !! dir = Some Dir -> d !! (dir ++ [name]) <> Some Dir ->
  fs_wf (<[dir ++ [name] := File c]> d).
Proof.
  intros Hwf Hdir Hnd p x n Hp.
  assert (Hne : dir <> dir ++ [name]).
  { intros E. apply (f_equal length) in E. rewrite length_app in E.
    cbn in E. lia. }
  destruct (decide (p ++ [x] = dir ++ [name])) as [E|E].
  - apply app_inj_tail in E as [-> _]. by rewrite lookup_insert_ne.
  - rewrite lookup_insert_ne in Hp by done. apply Hwf in Hp.
    rewrite lookup_insert_ne; [done|]. intros <-. done.
Qed.

(** X10. The archive's name has the resolution of a second: when two
    packagings run on the same clock reading, the second returns the
    same path as the first and replaces its archive, so that the disk
    holds the second result only.  (Hypotheses as for X9.) *)
Theorem same_second_overwrites (env : Env) (first second : string)
    (d d1 d2 : fs) (p1 p2 : path) :
  fs_wf d -> ~ tmp_dir env `prefix_of` cwd env -> tmp_root_exists env d ->
  Mejorado.create_plugin_package env first d = (inr (Some p1), d1) ->
  Mejorado.create_plugin_package env second d1 = (inr (Some p2), d2) ->
  p2 = p1
  /\ d1 !! p1 = Some (expected_archive env first)
  /\ d2 !! p1 = Some (expected_archive env second)
  /\ d2 = <[p1 := expected_archive env second]> d.
Proof.
  intros Hwf Hcwd Hroot H1 H2.
  pose proof (create_plugin_package_cases env first d) as Hc1.
  destruct (Mejorado.create_plugin_package_body env first d)
    as [[e|zp] s1] eqn:E1; [congruence|].
  rewrite Hc1 in H1. injection H1 as <- <-.
  destruct (packaging_net_effect _ _ _ _ _ Hwf Hcwd Hroot E1)
    as (-> & -> & Hdir & Hnd).
  set (d1 := <[expected_zip_path env := expected_archive env first]> d) in *.
  assert (Hwf1 : fs_wf d1) by (by apply fs_wf_insert_file).
  assert (Hroot1 : tmp_root_exists env d1).
  { intros n Hn. unfold d1. rewrite lookup_insert_ne; [by apply Hroot|].
    intros E. apply Hnd. rewrite E. by apply Hroot. }
  pose proof (create_plugin_package_cases env second d1) as Hc2.
  destruct (Mejorado.create_plugin_package_body env second d1)
    as [[e|zp] s2] eqn:E2; [congruence|].
  rewrite Hc2 in H2. injection H2 as <- <-.
  destruct (packaging_net_effect _ _ _ _ _ Hwf1 Hcwd Hroot1 E2)
    as (-> & -> & _ & _).
  split; [done|]. unfold d1. rewrite insert_insert_eq.
  split; [apply lookup_insert_eq|]. split; [apply lookup_insert_eq|done].
Qed.

Lemma same_second_overwrites_witness :
  exists d1 d2 : fs,
    Mejorado.create_plugin_package env_ok "# uno" disk0 =
      (inr (Some ["home"; "user"; "qgis_plugin_20250101_120000.zip"]), d1)
    /\ Mejorado.create_plugin_package env_ok "# dos" d1 =
         (inr (Some ["home"; "user"; "qgis_plugin_20250101_120000.zip"]), d2)
    /\ d2 !! ["home"; "user"; "qgis_plugin_20250101_120000.zip"] =
         Some (File (Archive [(["qgis_plugin_20250101_120000"; "resultado.txt"],
                               Text "# dos")])).
Proof.
  assert (Hr1 : (Mejorado.create_plugin_package env_ok "# uno" disk0).1 =
                inr (Some ["home"; "user"; "qgis_plugin_20250101_120000.zip"]))
    by (vm_compute; reflexivity).
  assert (Hr2 : (Mejorado.create_plugin_package env_ok "# dos"
                   (Mejorado.create_plugin_package env_ok "# uno" disk0).2).1 =
                inr (Some ["home"; "user"; "qgis_plugin_20250101_120000.zip"]))
    by (vm_compute; reflexivity).
  destruct (Mejorado.create_plugin_package env_ok "# uno" disk0)
    as [r1 d1] eqn:E1. cbn in Hr1, Hr2. subst r1.
  destruct (Mejorado.create_plugin_package env_ok "# dos" d1)
    as [r2 d2] eqn:E2. cbn in Hr2. subst r2.
  exists d1, d2. split; [reflexivity|]. split; [exact E2|].
  destruct (same_second_overwrites env_ok "# uno" "# dos" disk0 d1 d2 _ _
              disk0_wf env_ok_cwd_outside tmp_root_exists_env_ok E1 E2)
    as (_ & _ & H & _).
  exact H.
Defined.
(** * Text *)

Lemma append_cons (a : ascii) (s t : string) :
  String a s +:+ t = String a (s +:+ t).
Proof. reflexivity. Qed.

Lemma append_nil_r (s : string) : s +:+ "" = s.
Proof. induction s as [|a s IH]; [done|]. by rewrite append_cons, IH. Qed.

Lemma append_assoc (s t u : string) : (s +:+ t) +:+ u = s +:+ (t +:+ u).
Proof. induction s as [|a s IH]; [done|]. by rewrite !append_cons, IH. Qed.

Lemma length_append (s t : string) :
  String.length (s +:+ t) = String.length s + String.length t.
Proof. induction s as [|a s IH]; [done|]. rewrite append_cons. cbn. by rewrite IH. Qed.

Lemma rev_app_spec (s t : string) :
  String.rev_app s t = String.rev s +:+ t.
Proof.
  unfold String.rev. revert t. induction s as [|a s IH]; intros t; [done|].
  cbn. rewrite IH, (IH (String a "")). by rewrite append_assoc.
Qed.

Lemma rev_cons (a : ascii) (s : string) :
  String.rev (String a s) = String.rev s +:+ String a "".
Proof. unfold String.rev at 1. cbn. apply rev_app_spec. Qed.

Lemma rev_append (s t : string) :
  String.rev (s +:+ t) = String.rev t +:+ String.rev s.
Proof.
  induction s as [|a s IH]; [by rewrite append_nil_r|].
  by rewrite append_cons, !rev_cons, IH, append_assoc.
Qed.

Lemma rev_involutive (s : string) : String.rev (String.rev s) = s.
Proof.
  induction s as [|a s IH]; [done|]. by rewrite rev_cons, rev_append, IH.
Qed.

Lemma strip_front_eq w2 w3 (a : ascii) (r : string) :
  strip_front w2 w3 (String a r) =
  if ws1 a then strip_front w2 w3 r
  else match r with
       | EmptyString => String a r
       | String b r2 =>
           if w2 a b then strip_front w2 w3 r2
           else match r2 with
                | EmptyString => String a r
                | String c r3 =>
                    if w3 a b c then strip_front w2 w3 r3 else String a r
                end
       end.
Proof. by destruct r as [|b [|c r3]]. Qed.

(** [strip_front] drops a prefix. *)
Lemma strip_front_suffix w2 w3 (s : string) :
  exists p, s = p +:+ strip_front w2 w3 s.
Proof.
  remember (String.length s) as n eqn:Hn. revert s Hn.
  induction n as [n IH] using lt_wf_ind. intros s ->.
  destruct s as [|a r]; [by exists ""|]. rewrite strip_front_eq.
  destruct (ws1 a).
  { destruct (IH (String.length r) ltac:(cbn; lia) r eq_refl) as [p Hp].
    exists (String a p). by rewrite append_cons, <- Hp. }
  destruct r as [|b r2]; [by exists ""|].
  destruct (w2 a b).
  { destruct (IH (String.length r2) ltac:(cbn; lia) r2 eq_refl) as [p Hp].
    exists (String a (String b p)). by rewrite !append_cons, <- Hp. }
  destruct r2 as [|c r3]; [by exists ""|].
  destruct (w3 a b c); [|by exists ""].
  destruct (IH (String.length r3) ltac:(cbn; lia) r3 eq_refl) as [p Hp].
  exists (String a (String b (String c p))). by rewrite !append_cons, <- Hp.
Qed.

Lemma strip_front_length w2 w3 (s : string) :
  String.length (strip_front w2 w3 s) <= String.length s.
Proof.
  destruct (strip_front_suffix w2 w3 s) as [p Hp].
  rewrite Hp at 2. rewrite length_append. lia.
Qed.

(** What [strip_front] returns, it returns unchanged. *)
Lemma strip_front_fixed w2 w3 (s : string) :
  strip_front w2 w3 (strip_front w2 w3 s) = strip_front w2 w3 s.
Proof.
  remember (String.length s) as n eqn:Hn. revert s Hn.
  induction n as [n IH] using lt_wf_ind. intros s ->.
  destruct s as [|a r]; [done|]. rewrite (strip_front_eq _ _ a r).
  destruct (ws1 a) eqn:E1; [by eapply IH; [|reflexivity]; cbn; lia|].
  destruct r as [|b r2]; [by rewrite strip_front_eq, E1|].
  destruct (w2 a b) eqn:E2; [by eapply IH; [|reflexivity]; cbn; lia|].
  destruct r2 as [|c r3]; [by rewrite strip_front_eq, E1, E2|].
  destruct (w3 a b c) eqn:E3; [by eapply IH; [|reflexivity]; cbn; lia|].
  by rewrite strip_front_eq, E1, E2, E3.
Qed.

(** A string [strip_front] leaves alone has no prefix it would cut. *)
Lemma strip_front_fixed_prefix w2 w3 (t p q : string) :
  strip_front w2 w3 t = t -> t = p +:+ q -> strip_front w2 w3 p = p.
Proof.
  intros Hfix ->. destruct p as [|a p1]; [done|].
  rewrite append_cons, strip_front_eq in Hfix. rewrite strip_front_eq.
  destruct (ws1 a).
  { pose proof (strip_front_length w2 w3 (p1 +:+ q)) as Hl.
    rewrite Hfix in Hl. cbn in Hl. lia. }
  destruct p1 as [|b p2]; [done|]. rewrite append_cons in Hfix.
  destruct (w2 a b).
  { pose proof (strip_front_length w2 w3 (p2 +:+ q)) as Hl.
    rewrite Hfix in Hl. cbn in Hl. lia. }
  destruct p2 as [|c p3]; [done|]. rewrite append_cons in Hfix.
  destruct (w3 a b c); [|done].
  pose proof (strip_front_length w2 w3 (p3 +:+ q)) as Hl.
  rewrite Hfix in Hl. cbn in Hl. lia.
Qed.

(** [str.strip] is idempotent. *)
Lemma strip_idempotent (s : string) : strip (strip s) = strip s.
Proof.
  unfold strip. set (t := lstrip s).
  assert (Ht : lstrip t = t) by apply strip_front_fixed.
  assert (Hpre : exists q, t = rstrip t +:+ q).
  { unfold rstrip.
    destruct (strip_front_suffix (fun b a => ws2 a b) (fun c b a => ws3 a b c)
                (String.rev t)) as [p Hp].
    exists (String.rev p). rewrite <- rev_append, <- Hp.
    by rewrite rev_involutive. }
  destruct Hpre as [q Hq].
  assert (Hl : lstrip (rstrip t) = rstrip t)
    by (eapply strip_front_fixed_prefix; [exact Ht|exact Hq]).
  rewrite Hl. unfold rstrip. by rewrite rev_involutive, strip_front_fixed.
Qed.

(** * The windows over a whole session *)

Lemma Basic_locked_step (ev : Basic.UIEvent) (s : Basic.UI) :
  Basic_locked s -> Basic_locked (Basic.after (Basic.handle ev) s).
Proof.
  unfold Basic_locked.
  destruct s as [text console label rec_on gen_on bar recorder generator n acts].
  cbn [Basic.progress_bar_visible Basic.generate_button_enabled
       Basic.record_button_enabled].
  intros Hs. destruct ev as [t|isRunning| | |sig|sig]; run_ui.
  - exact Hs.
  - destruct recorder as [[id rec]|]; run_ui; [|exact Hs].
    destruct isRunning, rec; run_ui; exact Hs.
  - destruct (truthy (strip text)); run_ui; [done|exact Hs].
  - exact Hs.
  - destruct sig; run_ui; try exact Hs.
    destruct (truthy (strip result)); exact Hs.
  - destruct sig; run_ui; first [exact Hs|done].
Qed.

Lemma Mejorado_locked_step (g : Mejorado.Globals) (env : Env)
    (ev : Mejorado.UIEvent) (s : Mejorado.UI) :
  Mejorado_locked s ->
  Mejorado_locked (Mejorado.after (Mejorado.handle g env ev) s).
Proof.
  unfold Mejorado_locked.
  destruct s as [text console label rec_on gen_on save_on bar status cw
                 history recorder generator n acts].
  cbn [Mejorado.progress_bar_visible Mejorado.generate_button_enabled
       Mejorado.record_button_enabled Mejorado.save_button_enabled].
  intros Hs. destruct ev as [t|c|isRunning|yes| | |sig|sig]; run_ui2.
  - exact Hs.
  - exact Hs.
  - destruct (Mejorado.AUDIO_AVAILABLE g); run_ui2; [|exact Hs].
    destruct recorder as [[id rec]|]; run_ui2; [|exact Hs].
    destruct isRunning, rec; run_ui2; exact Hs.
  - destruct (Mejorado.CREWAI_AVAILABLE g); run_ui2; [|exact Hs].
    destruct (truthy (strip text)); run_ui2; [|exact Hs].
    destruct (py_len (strip text) <? 20); run_ui2; [|done].
    destruct yes; run_ui2; [done|exact Hs].
  - intros Hb. destruct (Hs Hb) as (? & ? & ?). done.
  - exact Hs.
  - destruct sig; run_ui2; try exact Hs.
    destruct (truthy (strip result)); exact Hs.
  - destruct sig; run_ui2; try exact Hs; try done.
    destruct zip_path; done.
Qed.

(** X11. In every state a window reaches from start-up, whatever the
    sequence of clicks and signals, the generate and record buttons (and
    in main_app_mejorado.py the save button) are disabled as long as the
    progress bar shows. *)
Theorem buttons_locked_while_busy :
  (forall evs : list Basic.UIEvent,
     Basic_locked (Basic.session evs Basic.init))
  /\ (forall (g : Mejorado.Globals) (env : Env) (evs : list Mejorado.UIEvent),
        Mejorado_locked (Mejorado.session g env evs (Mejorado.init g))).
Proof.
  split.
  - intros evs. assert (H : Basic_locked Basic.init) by (intros H; discriminate H).
    revert H. generalize Basic.init.
    induction evs as [|ev evs IH]; intros s Hs; [done|].
    cbn. by apply IH, Basic_locked_step.
  - intros g env evs.
    assert (H : Mejorado_locked (Mejorado.init g)) by (intros H; discriminate H).
    revert H. generalize (Mejorado.init g).
    induction evs as [|ev evs IH]; intros s Hs; [done|].
    cbn. by apply IH, Mejorado_locked_step.
Qed.

Lemma truthy_nonempty (s : string) : truthy s = true -> s <> "".
Proof. by destruct s. Qed.

Lemma or_default_nonempty (x default : string) :
  default <> "" -> Mejorado.or_default x default <> "".
Proof. unfold Mejorado.or_default. by destruct x. Qed.

Lemma get_config_filled_in (c : Mejorado.ConfigurationWidget) :
  filled_in (Mejorado.get_config c).
Proof. repeat split; by apply or_default_nonempty. Qed.

Ltac requests_step :=
  unfold Basic_requests, Mejorado_requests;
  rewrite <- ?app_assoc, ?omap_app; cbn [omap list_omap app];
  rewrite ?app_nil_r.

Lemma Basic_requests_step (ev : Basic.UIEvent) (s : Basic.UI) :
  let s' := Basic.after (Basic.handle ev) s in
  Basic_requests (Basic.actions s') = Basic_requests (Basic.actions s)
  \/ exists r, stripped r
       /\ Basic_requests (Basic.actions s') =
          Basic_requests (Basic.actions s) ++ [r].
Proof.
  destruct s as [text console label rec_on gen_on bar recorder generator n acts].
  destruct ev as [t|isRunning| | |sig|sig]; run_ui.
  - by left.
  - destruct recorder as [[id rec]|]; run_ui; [|left; by requests_step].
    destruct isRunning, rec; run_ui; left; by requests_step.
  - destruct (truthy (strip text)) eqn:E; run_ui; [|left; by requests_step].
    right. exists (strip text). split; [|by requests_step].
    split; [by apply truthy_nonempty|apply strip_idempotent].
  - by left.
  - destruct sig; run_ui; try (left; by requests_step).
    destruct (truthy (strip result)); by left.
  - destruct sig; run_ui; left; by requests_step.
Qed.

Lemma Mejorado_requests_step (g : Mejorado.Globals) (env : Env)
    (ev : Mejorado.UIEvent) (s : Mejorado.UI) :
  let s' := Mejorado.after (Mejorado.handle g env ev) s in
  Mejorado_requests (Mejorado.actions s') = Mejorado_requests (Mejorado.actions s)
  \/ exists r c, stripped r /\ filled_in c
       /\ Mejorado_requests (Mejorado.actions s') =
          Mejorado_requests (Mejorado.actions s) ++ [(r, c)].
Proof.
  destruct s as [text console label rec_on gen_on save_on bar status cw
                 history recorder generator n acts].
  assert (Hgo : stripped (strip text) \/ truthy (strip text) = false).
  { destruct (truthy (strip text)) eqn:E; [left|by right].
    split; [by apply truthy_nonempty|apply strip_idempotent]. }
  destruct ev as [t|c|isRunning|yes| | |sig|sig]; run_ui2.
  - by left.
  - by left.
  - destruct (Mejorado.AUDIO_AVAILABLE g); run_ui2; [|left; by requests_step].
    destruct recorder as [[id rec]|]; run_ui2; [|left; by requests_step].
    destruct isRunning, rec; run_ui2; left; by requests_step.
  - destruct (Mejorado.CREWAI_AVAILABLE g); run_ui2; [|left; by requests_step].
    destruct Hgo as [Hgo|Hgo].
    2:{ rewrite Hgo. run_ui2. left. by requests_step. }
    destruct (truthy (strip text)); run_ui2; [|left; by requests_step].
    destruct (py_len (strip text) <? 20); run_ui2.
    + destruct yes; run_ui2; [|left; by requests_step].
      right. exists (strip text), (Mejorado.get_config cw).
      split; [done|]. split; [apply get_config_filled_in|by requests_step].
    + right. exists (strip text), (Mejorado.get_config cw).
      split; [done|]. split; [apply get_config_filled_in|by requests_step].
  - by left.
  - by left.
  - destruct sig; run_ui2; try (left; by requests_step).
    destruct (truthy (strip result)); by left.
  - destruct sig; run_ui2; try (left; by requests_step).
    destruct zip_path; left; by requests_step.
Qed.

(** X12. Every generator a window ever constructs is given a request
    that is not empty and already stripped (stripping it again changes
    nothing); in main_app_mejorado.py it is also given a configuration
    whose name, version and author are not empty, the defaults standing
    in for blank fields. *)
Theorem generators_get_stripped_requests :
  (forall evs : list Basic.UIEvent,
     Forall stripped
       (Basic_requests (Basic.actions (Basic.session evs Basic.init))))
  /\ (forall (g : Mejorado.Globals) (env : Env) (evs : list Mejorado.UIEvent),
        Forall (fun rc => stripped rc.1 /\ filled_in rc.2)
          (Mejorado_requests
             (Mejorado.actions (Mejorado.session g env evs (Mejorado.init g))))).
Proof.
  split.
  - intros evs.
    assert (H : Forall stripped (Basic_requests (Basic.actions Basic.init)))
      by constructor.
    revert H. generalize Basic.init.
    induction evs as [|ev evs IH]; intros s Hs; [done|].
    cbn. apply IH.
    destruct (Basic_requests_step ev s) as [E|(r & Hr & E)];
      cbv zeta in E; rewrite E; [done|].
    apply Forall_app. split; [done|]. by constructor.
  - intros g env evs.
    assert (H : Forall (fun rc => stripped rc.1 /\ filled_in rc.2)
                  (Mejorado_requests (Mejorado.actions (Mejorado.init g))))
      by constructor.
    revert H. generalize (Mejorado.init g).
    induction evs as [|ev evs IH]; intros s Hs; [done|].
    cbn. apply IH.
    destruct (Mejorado_requests_step g env ev s) as [E|(r & c & Hr & Hc & E)];
      cbv zeta in E; rewrite E; [done|].
    apply Forall_app. split; [done|]. by constructor.
Qed.


(** ** The history *)

Lemma py_len_append (s t : string) : py_len (s +:+ t) = py_len s + py_len t.
Proof.
  induction s as [|a s IH]; [done|]. rewrite append_cons. cbn [py_len].
  destruct (is_continuation a); by rewrite IH.
Qed.

Lemma py_len_take (n : nat) (s : string) : py_len (py_take n s) <= n.
Proof.
  revert n. induction s as [|a s IH]; intros n; cbn [py_take py_len]; [lia|].
  destruct (is_continuation a) eqn:E.
  - cbn [py_len]. rewrite E. apply IH.
  - destruct n as [|n]; cbn [py_len]; [lia|]. rewrite E.
    specialize (IH n). lia.
Qed.

Lemma Mejorado_history_step (g : Mejorado.Globals) (env : Env)
    (ev : Mejorado.UIEvent) (s : Mejorado.UI) :
  let s' := Mejorado.after (Mejorado.handle g env ev) s in
  match ev with
  | Mejorado.FromGenerator (finished_zip _ zip_path) =>
      exists e, history_entry_ok env e
                /\ Mejorado.info_zip_path e = zip_path
                /\ Mejorado.generated_plugins s' =
                   Mejorado.generated_plugins s ++ [e]
  | Mejorado.ClickClearHistory => Mejorado.generated_plugins s' = []
  | _ => Mejorado.generated_plugins s' = Mejorado.generated_plugins s
  end.
Proof.
  destruct s as [text console label rec_on gen_on save_on bar status cw
                 history recorder generator n acts].
  destruct ev as [t|c|isRunning|yes| | |sig|sig]; run_ui2; try done.
  - destruct (Mejorado.AUDIO_AVAILABLE g); run_ui2; [|done].
    destruct recorder as [[id rec]|]; run_ui2; [|done].
    destruct isRunning, rec; run_ui2; done.
  - destruct (Mejorado.CREWAI_AVAILABLE g); run_ui2; [|done].
    destruct (truthy (strip text)); run_ui2; [|done].
    destruct (py_len (strip text) <? 20); run_ui2; [|done].
    destruct yes; run_ui2; done.
  - destruct sig; run_ui2; try done.
    destruct (truthy (strip result)); done.
  - destruct sig; run_ui2; try done.
    assert (Hok : history_entry_ok env
              {| Mejorado.info_timestamp := now_display env;
                 Mejorado.info_request := py_take 100 (strip text) +:+ "...";
                 Mejorado.info_config := Mejorado.get_config cw;
                 Mejorado.info_zip_path := zip_path |}).
    { split; [by eexists|]. split; [|split; [done|apply get_config_filled_in]].
      cbn [Mejorado.info_request]. rewrite py_len_append.
      pose proof (py_len_take 100 (strip text)).
      change (py_len "...") with 3. lia. }
    destruct zip_path; eexists; (split; [exact Hok|]); done.
Qed.


(** The archive a packaging returns is on the disk it leaves. *)
Lemma create_plugin_package_on_disk (env : Env) (result_text : string)
    (d d' : fs) (zip_path : path) :
  fs_wf d -> ~ tmp_dir env `prefix_of` cwd env ->
  Mejorado.create_plugin_package env result_text d = (inr (Some zip_path), d') ->
  d' !! zip_path = Some (expected_archive env result_text).
Proof.
  intros Hwf Hcwd Hrun.
  pose proof (create_plugin_package_cases env result_text d) as Hc.
  destruct (Mejorado.create_plugin_package_body env result_text d)
    as [[e|zp] d1] eqn:E; [congruence|].
  rewrite Hc in Hrun. injection Hrun as <- <-.
  by destruct (create_plugin_package_body_inr _ _ _ _ _ Hwf Hcwd E) as (_ & ? & _).
Qed.

(** X15. Delivered to the window, the signals of one generation run of
    main_app_mejorado.py add at most one entry to the history: none when
    the run reported an error, one when it finished.  That entry carries
    the path the run signalled, the save button is enabled, and when
    there is a path the disk the run left holds the archive of the
    crew's result there.  (The disk is well-formed and the working
    directory is not inside the staging directory.) *)
Theorem finished_run_enters_history (g : Mejorado.Globals) (env : Env)
    (request : string) (config : option Config) (d : fs) (s : Mejorado.UI) :
  fs_wf d -> ~ tmp_dir env `prefix_of` cwd env ->
  let w := (Mejorado.run g env request config (start d)).2 in
  let s' := Mejorado.deliver g env (trace w) s in
  let result := kickoff_output env (Mejorado.the_crew env request config) in
  match finished_signals (trace w) with
  | [] => Mejorado.generated_plugins s' = Mejorado.generated_plugins s
  | [finished_zip r zip_path] =>
      r = result
      /\ Mejorado.save_button_enabled s' = true
      /\ (exists e, Mejorado.generated_plugins s' =
                    Mejorado.generated_plugins s ++ [e]
                    /\ Mejorado.info_zip_path e = zip_path)
      /\ match zip_path with
         | Some p => files w !! p = Some (expected_archive env result)
         | None => True
         end
  | _ => False
  end.
Proof.
  intros Hwf Hcwd. cbv zeta.
  pose proof (create_plugin_package_on_disk env
                (kickoff_output env (Mejorado.the_crew env request config)) d)
    as Hdisk.
  destruct s as [text console label rec_on gen_on save_on bar status cw
                 history recorder generator n acts].
  rewrite Mejorado_run_trace. cbv zeta.
  destruct (Mejorado.CREWAI_AVAILABLE g); cbn [negb];
    [|run_deliver; run_ui2; done].
  destruct (raises env LLM_init); [run_deliver; run_ui2; done|].
  destruct (first_raise env agent_task_calls); [run_deliver; run_ui2; done|].
  destruct (raises env Crew_init); [run_deliver; run_ui2; done|].
  destruct (first_raise env kickoff_calls); [run_deliver; run_ui2; done|].
  destruct (Mejorado.create_plugin_package env _ d) as [[e|[zp|]] d'] eqn:E;
    cbn [fst snd]; try destruct (emit_none_raises env);
    unfold finished_signals; run_deliver; cbn [List.filter files];
    run_ui2; try done.
  - split; [done|]. split; [done|]. split; [by eexists|].
    by apply (Hdisk d' zp Hwf Hcwd).
  - split; [done|]. split; [done|]. split; [by eexists|].
    by apply (Hdisk d' zp Hwf Hcwd).
  - split; [done|]. split; [done|]. split; [by eexists|done].
Qed.

Lemma finished_run_enters_history_witness :
  Mejorado.info_zip_path <$>
    Mejorado.generated_plugins
      (Mejorado.deliver all_available env_ok
         (trace (Mejorado.run all_available env_ok a_request None
                   (start disk0)).2)
         (Mejorado.init all_available)) =
  [Some ["home"; "user"; "qgis_plugin_20250101_120000.zip"]]
  /\ files (Mejorado.run all_available env_ok a_request None (start disk0)).2
     !! ["home"; "user"; "qgis_plugin_20250101_120000.zip"] =
     Some (File (Archive [(["qgis_plugin_20250101_120000"; "resultado.txt"],
                           Text "# plugin")])).
Proof.
  pose proof (finished_run_enters_history all_available env_ok a_request None
                disk0 (Mejorado.init all_available) disk0_wf
                env_ok_cwd_outside) as H.
  cbv zeta in H.
  assert (Hsig : finished_signals
            (trace (Mejorado.run all_available env_ok a_request None
                      (start disk0)).2) =
          [finished_zip "# plugin"
             (Some ["home"; "user"; "qgis_plugin_20250101_120000.zip"])])
    by (vm_compute; reflexivity).
  rewrite Hsig in H. destruct H as (_ & _ & (e & He & Hz) & Hfile).
  split; [|exact Hfile]. rewrite He. cbn. by rewrite Hz.
Defined.
(** X22. Delivered to the window, the signals of a generation run open
    exactly one message box, that of the run's last signal: for [error]
    a critical box whose text is [Error en la generación: ] followed by
    the signal's message, for [finished] the information box (which, in
    main_app_mejorado.py, names the archive or says that none is
    available).  The progress signals open none. *)
Theorem one_message_box_per_run :
  (forall (env : Env) (request : string) (d : fs) (s : Basic.UI),
     let t := trace (Basic.run env request (start d)).2 in
     exists box,
       Basic.actions (Basic.deliver t s) = Basic.actions s ++ [box]
       /\ match last (signals t) with
          | Some (error m) =>
              box = Basic.MessageCritical "Error"
                      ("Error en la generación: " +:+ m)
          | Some (finished r) =>
              box = Basic.MessageInformation "Éxito"
                      "Plugin generado exitosamente. Revisa la consola para más detalles."
          | _ => False
          end)
  /\ (forall (g : Mejorado.Globals) (env : Env) (request : string)
             (config : option Config) (d : fs) (s : Mejorado.UI),
        let t := trace (Mejorado.run g env request config (start d)).2 in
        exists box,
          Mejorado.actions (Mejorado.deliver g env t s) =
            Mejorado.actions s ++ [box]
          /\ match last (signals t) with
             | Some (error m) =>
                 box = Mejorado.MessageCritical "Error"
                         ("Error en la generación: " +:+ m)
             | Some (finished_zip r z) =>
                 box = Mejorado.MessageInformation "Éxito"
                         ("Plugin generado exitosamente.\n\nArchivo ZIP: "
                          +:+ match z with
                              | Some p => path_str p
                              | None => "No disponible"
                              end
                          +:+ "\n\nRevisa la consola para más detalles.")
             | _ => False
             end).
Proof.
  split.
  - intros env request d
      [text console label rec_on gen_on bar recorder generator n acts].
    cbv zeta. basic_cases env; run_deliver; cbn [last]; run_ui;
      eexists; (split; [reflexivity|]); reflexivity.
  - intros g env request config d
      [text console label rec_on gen_on save_on bar status cw
       history recorder generator n acts].
    cbv zeta. mejorado_cases g env d; run_deliver; cbn [last]; run_ui2;
      eexists; (split; [reflexivity|]); reflexivity.
Qed.
(** * Closing the window *)

Ltac run_close :=
  cbv [Basic.closeEvent Mejorado.closeEvent bind get ret modify
       Basic.set_audio_recorder Mejorado.set_audio_recorder
       Basic.audio_recorder Basic.plugin_generator Basic.recording
       Basic.recorder_id Basic.generator_id Basic.actions
       Mejorado.audio_recorder Mejorado.plugin_generator Mejorado.recording
       Mejorado.recorder_id Mejorado.generator_id Mejorado.actions].

Ltac close_calls :=
  intros id Hid;
  repeat (apply elem_of_cons in Hid as [Hid|Hid]; [try discriminate Hid|]);
  try (by apply not_elem_of_nil in Hid);
  try (injection Hid as <-; repeat split; eauto).

(** X16. [closeEvent] never raises.  It ignores the close exactly when a
    generator exists, is running, and the user does not answer Yes;
    otherwise it accepts.  It terminates a thread only after asking,
    only on Yes, and only the current generator.  Whatever the decision,
    a recorder that was recording has its flag cleared and is otherwise
    kept, and the generator and the message boxes of the window are as
    they were. *)
Theorem close_asks_before_terminating :
  (forall (s : Basic.UI) (isRunning yes : bool),
     exists (calls : list Basic.CloseCall) (s' : Basic.UI),
       Basic.closeEvent isRunning yes s = (inr calls, s')
       /\ (last calls = Some Basic.Ignore
           <-> is_Some (Basic.plugin_generator s)
               /\ isRunning = true /\ yes = false)
       /\ (last calls <> Some Basic.Ignore -> last calls = Some Basic.Accept)
       /\ (forall id, Basic.Terminate id ∈ calls ->
             yes = true /\ isRunning = true
             /\ Basic.generator_id <$> Basic.plugin_generator s = Some id
             /\ exists title text, head calls = Some (Basic.Question title text))
       /\ Basic.recording <$> Basic.audio_recorder s' =
          (fun _ => false) <$> Basic.audio_recorder s
       /\ Basic.recorder_id <$> Basic.audio_recorder s' =
          Basic.recorder_id <$> Basic.audio_recorder s
       /\ Basic.plugin_generator s' = Basic.plugin_generator s
       /\ Basic.actions s' = Basic.actions s)
  /\ (forall (s : Mejorado.UI) (isRunning yes : bool),
        exists (calls : list Mejorado.CloseCall) (s' : Mejorado.UI),
          Mejorado.closeEvent isRunning yes s = (inr calls, s')
          /\ (last calls = Some Mejorado.Ignore
              <-> is_Some (Mejorado.plugin_generator s)
                  /\ isRunning = true /\ yes = false)
          /\ (last calls <> Some Mejorado.Ignore ->
              last calls = Some Mejorado.Accept)
          /\ (forall id, Mejorado.Terminate id ∈ calls ->
                yes = true /\ isRunning = true
                /\ Mejorado.generator_id <$> Mejorado.plugin_generator s = Some id
                /\ exists title text,
                     head calls = Some (Mejorado.Question title text))
          /\ Mejorado.recording <$> Mejorado.audio_recorder s' =
             (fun _ => false) <$> Mejorado.audio_recorder s
          /\ Mejorado.recorder_id <$> Mejorado.audio_recorder s' =
             Mejorado.recorder_id <$> Mejorado.audio_recorder s
          /\ Mejorado.plugin_generator s' = Mejorado.plugin_generator s
          /\ Mejorado.actions s' = Mejorado.actions s).
Proof.
  split.
  - intros [text console label rec_on gen_on bar recorder generator n acts]
      isRunning yes.
    destruct recorder as [[rid [|]]|], generator as [[gid req]|],
      isRunning, yes; run_close; do 2 eexists; (split; [reflexivity|]);
      cbn; (split; [split; [try discriminate; intros _; by eauto
                           |try (by intros (? & ? & ?)); by intros ([? ?] & _)]|]);
      (split; [try done; by intros []|]); (split; [close_calls|done]).
  - intros [text console label rec_on gen_on save_on bar status cw
            history recorder generator n acts] isRunning yes.
    destruct recorder as [[rid [|]]|], generator as [[gid req cfg]|],
      isRunning, yes; run_close; do 2 eexists; (split; [reflexivity|]);
      cbn; (split; [split; [try discriminate; intros _; by eauto
                           |try (by intros (? & ? & ?)); by intros ([? ?] & _)]|]);
      (split; [try done; by intros []|]); (split; [close_calls|done]).
Qed.

(** * The history view *)

Lemma concat_cons (x : string) (l : list string) :
  String.concat "" (x :: l) = x +:+ String.concat "" l.
Proof. destruct l; cbn; [by rewrite append_nil_r|done]. Qed.

Lemma history_loop_from (r : list Mejorado.PluginInfo) (total start : nat)
    (html : string) :
  foldl (fun html ip =>
           html +:+ Mejorado.history_card (total - ip.1 + 1) ip.2)
    html (zip (seq start (length r)) r) =
  html +:+
  String.concat ""
    (imap (fun j plugin => Mejorado.history_card (total - (start + j) + 1) plugin)
       r).
Proof.
  revert start html. induction r as [|x r IH]; intros start html.
  - cbn. by rewrite append_nil_r.
  - cbn [length seq zip zip_with foldl fst snd imap].
    rewrite (IH (S start)), concat_cons, <- append_assoc, Nat.add_0_r.
    do 2 f_equal. apply imap_ext. intros j p _. unfold compose. f_equal. lia.
Qed.

Lemma imap_reverse_numbered (l : list Mejorado.PluginInfo) :
  imap (fun j plugin =>
          Mejorado.history_card (length l - (1 + j) + 1) plugin) (reverse l) =
  reverse (numbered_cards l).
Proof.
  unfold numbered_cards. apply list_eq. intros i.
  rewrite list_lookup_imap.
  destruct (decide (i < length l)) as [Hi|Hi].
  - rewrite !reverse_lookup by (by rewrite ?length_imap).
    rewrite list_lookup_imap, length_imap.
    destruct (l !! (length l - S i)); cbn [fmap option_fmap option_map]; [|done].
    do 2 f_equal. lia.
  - rewrite !lookup_ge_None_2; [done|..];
      rewrite length_reverse, ?length_imap; lia.
Qed.

Lemma history_html_eq (l : list Mejorado.PluginInfo) :
  Mejorado.history_html l =
  history_header +:+ String.concat "" (reverse (numbered_cards l))
  +:+ match l with [] => history_notice | _ => "" end.
Proof.
  unfold Mejorado.history_html, Mejorado.enumerate_from_1.
  rewrite history_loop_from, imap_reverse_numbered.
  destruct l; [by rewrite append_assoc|].
  by rewrite append_nil_r.
Qed.

Lemma history_card_starts (number : nat) (plugin : Mejorado.PluginInfo) :
  exists rest, Mejorado.history_card number plugin = String (ascii_of_nat 10) rest.
Proof. unfold Mejorado.history_card. cbn [String.concat]. by eexists. Qed.

(** Only the empty history is shown as the notice. *)
Lemma history_html_notice (l : list Mejorado.PluginInfo) :
  Mejorado.history_html l = Mejorado.history_html [] -> l = [].
Proof.
  rewrite !history_html_eq. intros E. apply (inj (String.app _)) in E.
  destruct l as [|x l _] using rev_ind; [done|]. exfalso.
  unfold numbered_cards in E. rewrite imap_app in E. cbn [imap] in E.
  rewrite reverse_snoc, concat_cons in E.
  destruct (history_card_starts (S (length l + 0)) x) as [rest Hrest].
  rewrite Hrest in E. destruct l; discriminate E.
Qed.

(** X17. The document [update_history] builds is the header followed by
    one card for each plugin, the newest first, every card numbered by
    the plugin's place in the order of generation (the first plugin
    generated is number one); the notice that there are no plugins yet
    is part of it only when the history is empty. *)
Theorem history_lists_newest_first (l : list Mejorado.PluginInfo) :
  Mejorado.history_html l =
    history_header +:+ String.concat "" (reverse (numbered_cards l))
    +:+ match l with [] => history_notice | _ => "" end
  /\ (Mejorado.history_html l = Mejorado.history_html [] <-> l = []).
Proof.
  split; [apply history_html_eq|].
  split; [apply history_html_notice|by intros ->].
Qed.

(** * The whole window *)

(** Run a handler of the whole window on a symbolic state, call by
    value, without unfolding its texts. *)
Ltac run_full :=
  cbv [andb Mejorado.Full.in_window Mejorado.Full.on_the_disk
       Mejorado.Full.set_history_list Mejorado.Full.open_dialog
       Mejorado.Full.update_history Mejorado.Full.on_generation_finished
       Mejorado.Full.clear_history Mejorado.Full.after Mejorado.Full.handle
       Mejorado.Full.window Mejorado.Full.history_list Mejorado.Full.disk
       Mejorado.Full.dialogs
       Mejorado.after Mejorado.handle Mejorado.generate_plugin
       Mejorado.toggle_recording Mejorado.start_recording
       Mejorado.stop_recording Mejorado.on_transcription_finished
       Mejorado.on_transcription_error Mejorado.on_generation_progress
       Mejorado.on_generation_finished Mejorado.on_generation_error
       Mejorado.clear_all Mejorado.clear_history Mejorado.show_error
       Mejorado.show_welcome_message Mejorado.append_to_console
       Mejorado.act Mejorado.new_object
       Mejorado.set_text_input Mejorado.set_output_console
       Mejorado.set_record_button_text Mejorado.set_record_button_enabled
       Mejorado.set_generate_button_enabled Mejorado.set_save_button_enabled
       Mejorado.set_progress_bar_visible Mejorado.set_status_bar
       Mejorado.set_config_widget Mejorado.set_generated_plugins
       Mejorado.set_audio_recorder Mejorado.set_plugin_generator
       try_catch bind get modify ret raise call strftime_now fst snd negb
       Mejorado.text_input Mejorado.output_console
       Mejorado.record_button_text Mejorado.record_button_enabled
       Mejorado.generate_button_enabled Mejorado.save_button_enabled
       Mejorado.progress_bar_visible Mejorado.status_bar
       Mejorado.config_widget Mejorado.generated_plugins
       Mejorado.audio_recorder Mejorado.plugin_generator
       Mejorado.next_object Mejorado.actions
       Mejorado.recorder_id Mejorado.recording].

(** The whole window does to the fields of [UI] what the handlers of
    [UI] do. *)
Lemma Full_window_agrees (g : Mejorado.Globals) (env : Env)
    (toPlainText : list string -> string) (ev : Mejorado.UIEvent)
    (s : Mejorado.Full.Desk) :
  Mejorado.Full.window
    (Mejorado.Full.after
       (Mejorado.Full.handle g env toPlainText (Mejorado.Full.Of ev)) s) =
  Mejorado.after (Mejorado.handle g env ev) (Mejorado.Full.window s).
Proof.
  assert (Hother :
    Mejorado.Full.window
      (Mejorado.Full.after (Mejorado.Full.in_window (Mejorado.handle g env ev)) s) =
    Mejorado.after (Mejorado.handle g env ev) (Mejorado.Full.window s)).
  { unfold Mejorado.Full.after, Mejorado.Full.in_window, Mejorado.after.
    by destruct (Mejorado.handle g env ev (Mejorado.Full.window s)). }
  destruct ev as [t|c|isRunning|yes| | |sig|[m|r|r z|m]]; try exact Hother.
  clear Hother.
  destruct s as [[text console label rec_on gen_on save_on bar status cw
                   history recorder generator n acts] hist d dlg].
  destruct z; run_full; reflexivity.
Qed.

(** X18. [save_result] of main_app_mejorado.py, case by case.  With an
    empty console text it shows an error and opens no dialog.  Otherwise
    it opens the dialog, suggesting [resultado_plugin_<timestamp>.txt];
    a cancelled dialog changes nothing else; with a file chosen, either
    the file then holds the console's text as it was before the click
    and the console gains the line naming the file, or the exception of
    the failed write is shown in an error box, and the disk is as it was
    or holds the chosen file emptied.  Only an exception of the clock,
    before the dialog, leaves the handler. *)
Theorem save_result_spec (env : Env) (toPlainText : list string -> string)
    (chosen : option path) (s : Mejorado.Full.Desk) :
  let w := Mejorado.Full.window s in
  let text := toPlainText (Mejorado.output_console w) in
  let r := Mejorado.Full.save_result env toPlainText chosen s in
  let s' := r.2 in
  let w' := Mejorado.Full.window s' in
  if negb (truthy text) then
    r.1 = inr tt
    /\ Mejorado.Full.disk s' = Mejorado.Full.disk s
    /\ Mejorado.Full.dialogs s' = Mejorado.Full.dialogs s
    /\ Mejorado.actions w' =
       Mejorado.actions w ++
       [Mejorado.MessageCritical "Error" "No hay contenido para guardar."]
  else
    match raises env Datetime_now with
    | Some e => r = (inl e, s)
    | None =>
        r.1 = inr tt
        /\ Mejorado.Full.dialogs s' = Mejorado.Full.dialogs s ++ [save_dialog env]
        /\ match chosen with
           | None => w' = w /\ Mejorado.Full.disk s' = Mejorado.Full.disk s
           | Some p =>
               (Mejorado.Full.disk s' =
                  <[p := File (Text text)]> (Mejorado.Full.disk s)
                /\ Mejorado.output_console w' =
                   Mejorado.output_console w ++ [saved_line p]
                /\ Mejorado.actions w' = Mejorado.actions w)
               \/ (exists e,
                     Mejorado.actions w' =
                       Mejorado.actions w ++
                       [Mejorado.MessageCritical "Error"
                          ("Error al guardar archivo: " +:+ e)]
                     /\ (Mejorado.Full.disk s' = Mejorado.Full.disk s
                         \/ Mejorado.Full.disk s' =
                            <[p := File (Text "")]> (Mejorado.Full.disk s)))
           end
    end.
Proof.
  destruct s as [[text console label rec_on gen_on save_on bar status cw
                   history recorder generator n acts] hist d dlg].
  cbv zeta. unfold Mejorado.Full.save_result. run_full.
  destruct (truthy (toPlainText console)) eqn:Et; run_full; [|done].
  destruct (raises env Datetime_now) eqn:En; run_full; [done|].
  destruct chosen as [p|]; run_full; [|done].
  pose proof (write_text_ends env p (toPlainText console) d) as Hw.
  destruct (write_text env p (toPlainText console) d) as [[e|[]] d'] eqn:Ew;
    run_full; cbn in Hw; (split; [done|]); (split; [done|]).
  - right. by exists e.
  - left. by subst d'.
Qed.
Lemma save_result_keeps_history (env : Env) (toPlainText : list string -> string)
    (chosen : option path) (s : Mejorado.Full.Desk) :
  let s' := (Mejorado.Full.save_result env toPlainText chosen s).2 in
  Mejorado.Full.history_list s' = Mejorado.Full.history_list s
  /\ Mejorado.generated_plugins (Mejorado.Full.window s') =
     Mejorado.generated_plugins (Mejorado.Full.window s).
Proof.
  destruct s as [[text console label rec_on gen_on save_on bar status cw
                   history recorder generator n acts] hist d dlg].
  cbv zeta. unfold Mejorado.Full.save_result. run_full.
  destruct (truthy (toPlainText console)) eqn:Et; run_full; [|done].
  destruct (raises env Datetime_now) eqn:En; run_full; [done|].
  destruct chosen as [p|]; run_full; [|done].
  destruct (write_text env p (toPlainText console) d) as [[e|[]] d'];
    run_full; done.
Qed.

Lemma Full_in_sync_step (g : Mejorado.Globals) (env : Env)
    (toPlainText : list string -> string) (ev : Mejorado.Full.Event)
    (s : Mejorado.Full.Desk) :
  history_in_sync s ->
  history_in_sync
    (Mejorado.Full.after (Mejorado.Full.handle g env toPlainText ev) s).
Proof.
  unfold history_in_sync. intros Hs.
  destruct ev as [ev|chosen].
  2:{ unfold Mejorado.Full.after, Mejorado.Full.handle.
      destruct (save_result_keeps_history env toPlainText chosen s) as [-> ->].
      exact Hs. }
  assert (Hother :
    Mejorado.generated_plugins
      (Mejorado.after (Mejorado.handle g env ev) (Mejorado.Full.window s)) =
    Mejorado.generated_plugins (Mejorado.Full.window s) ->
    let s' := Mejorado.Full.after
                (Mejorado.Full.in_window (Mejorado.handle g env ev)) s in
    Mejorado.Full.history_list s' =
    match Mejorado.generated_plugins (Mejorado.Full.window s') with
    | [] => ""
    | l => Mejorado.history_html l
    end).
  { intros E. cbv zeta.
    unfold Mejorado.Full.after, Mejorado.Full.in_window, Mejorado.after in *.
    destruct (Mejorado.handle g env ev (Mejorado.Full.window s)) as [r w'].
    cbn in *. by rewrite E. }
  pose proof (Mejorado_history_step g env ev (Mejorado.Full.window s)) as Hstep.
  cbv zeta in Hstep.
  destruct ev as [t|c|isRunning|yes| | |sig|[m|r|r z|m]];
    try (exact (Hother Hstep)).
  - destruct s as [[text console label rec_on gen_on save_on bar status cw
                     history recorder generator n acts] hist d dlg].
    run_full. done.
  - destruct s as [[text console label rec_on gen_on save_on bar status cw
                     history recorder generator n acts] hist d dlg].
    run_full. destruct z; run_full; by destruct history.
Qed.

(** X19. Over every sequence of events from start-up, the history tab of
    main_app_mejorado.py shows exactly the current history: it is empty
    while no plugin is recorded (at start-up and after a clearing) and
    holds the document of [update_history] otherwise.  The notice that
    there are no plugins yet, for which [update_history] has a branch,
    is therefore never on display. *)
Theorem history_view_in_sync (g : Mejorado.Globals) (env : Env)
    (toPlainText : list string -> string) (evs : list Mejorado.Full.Event)
    (d : fs) :
  let s := Mejorado.Full.session g env toPlainText evs (Mejorado.Full.init g d) in
  history_in_sync s
  /\ Mejorado.Full.history_list s <> Mejorado.history_html [].
Proof.
  cbv zeta.
  assert (H : history_in_sync
                (Mejorado.Full.session g env toPlainText evs
                   (Mejorado.Full.init g d))).
  { assert (H0 : history_in_sync (Mejorado.Full.init g d)) by reflexivity.
    revert H0. generalize (Mejorado.Full.init g d).
    induction evs as [|ev evs IH]; intros s Hs; [done|].
    cbn. by apply IH, Full_in_sync_step. }
  split; [exact H|]. rewrite H.
  destruct (Mejorado.generated_plugins _) as [|x l] eqn:E; [discriminate|].
  intros Heq. by apply history_html_notice in Heq.
Qed.
(** * The model at work *)

Example strip_blank : strip ("  " +:+ nl) = "".
Proof. reflexivity. Qed.

Example strip_inner : strip "  capa de  buffer  " = "capa de  buffer".
Proof. reflexivity. Qed.

Example py_len_counts_code_points : py_len "Petición" = 8.
Proof. reflexivity. Qed.

Example relpath_of_staged_file :
  relpath ["tmp"; "tmpk3f9x2"; "qgis_plugin_1"; "resultado.txt"]
    ["tmp"; "tmpk3f9x2"] = ["qgis_plugin_1"; "resultado.txt"].
Proof. reflexivity. Qed.

Example basic_run_succeeds :
  signals (trace (Basic.run env_ok a_request (start disk0)).2) =
    [ progress "Inicializando sistema multiagente...";
      progress "Creando equipo de agentes...";
      progress "Ejecutando generación del plugin...";
      finished "# plugin" ].
Proof. by vm_compute. Qed.

Example mejorado_run_succeeds :
  signals (trace (Mejorado.run all_available env_ok a_request None
                    (start disk0)).2) =
    [ progress "Inicializando sistema multiagente...";
      progress "Creando equipo de agentes...";
      progress "Ejecutando generación del plugin...";
      finished_zip "# plugin"
        (Some ["home"; "user"; "qgis_plugin_20250101_120000.zip"]) ].
Proof. by vm_compute. Qed.

Example kickoff_failure_is_reported :
  signals (trace (Basic.run env_kickoff_fails a_request (start disk0)).2) =
    [ progress "Inicializando sistema multiagente...";
      progress "Creando equipo de agentes...";
      progress "Ejecutando generación del plugin...";
      error "Error en la generación del plugin: Connection refused" ].
Proof. by vm_compute. Qed.

Example recorder_records_and_transcribes :
  trace (Mejorado.AudioRecorder_run all_available env_ok (start disk0)).2 =
    [ AudioOpened; ChunkRead "a"; ChunkRead "b";
      Transcribed ["tmp"; "tmpq7.wav"]; Emit (finished "crear un buffer") ].
Proof. by vm_compute. Qed.

Example a_click_starts_a_generator :
  Basic.actions
    (Basic.session [Basic.UserTypes a_request; Basic.ClickGenerate] Basic.init) =
    [ Basic.NewPluginGenerator 0 a_request; Basic.StartThread 0 ].
Proof. by vm_compute. Qed.

Example basic_variant_needs_the_audio_packages :
  Basic.import_module without_pyaudio = false.
Proof. reflexivity. Qed.

Example basic_recorder_records_and_transcribes :
  trace (Basic.AudioRecorder_run env_ok (start disk0)).2 =
    [ AudioOpened; ChunkRead "a"; ChunkRead "b";
      Transcribed ["tmp"; "tmpq7.wav"]; Emit (finished "crear un buffer") ].
Proof. by vm_compute. Qed.

Example closing_during_a_generation_asks :
  (Basic.closeEvent true false
     (Basic.session [Basic.UserTypes a_request; Basic.ClickGenerate] Basic.init)).1 =
  inr [ Basic.Question "Cerrar aplicación"
          "Hay una generación en progreso. ¿Deseas cerrar la aplicación?";
        Basic.Ignore ].
Proof. by vm_compute. Qed.

Example empty_history_document :
  Mejorado.history_html [] =
  "<h3>Historial de Plugins Generados</h3><p><em>No hay plugins generados aún.</em></p>".
Proof. reflexivity. Qed.

Example second_plugin_is_listed_first :
  numbered_cards
    (Mejorado.generated_plugins
       (Mejorado.session all_available env_ok
          [ Mejorado.FromGenerator (finished_zip "uno" None);
            Mejorado.FromGenerator (finished_zip "dos" None) ]
          (Mejorado.init all_available))) =
  [ Mejorado.history_card 1
      {| Mejorado.info_timestamp := "2025-01-01 12:00:00";
         Mejorado.info_request := "...";
         Mejorado.info_config := Mejorado.get_config
                                   (Mejorado.config_widget
                                      (Mejorado.init all_available));
         Mejorado.info_zip_path := None |};
    Mejorado.history_card 2
      {| Mejorado.info_timestamp := "2025-01-01 12:00:00";
         Mejorado.info_request := "...";
         Mejorado.info_config := Mejorado.get_config
                                   (Mejorado.config_widget
                                      (Mejorado.init all_available));
         Mejorado.info_zip_path := None |} ].
Proof. reflexivity. Qed.

Example saving_the_console :
  Mejorado.Full.disk
    (Mejorado.Full.save_result env_ok (String.concat nl)
       (Some ["home"; "user"; "salida.txt"])
       (Mejorado.Full.init all_available disk0)).2
  !! ["home"; "user"; "salida.txt"] =
  Some (File (Text (Mejorado.welcome_msg all_available))).
Proof. by vm_compute. Qed.
